(** * chatwise_to_nowledge: the import pipeline, embedded and verified

    A shallow embedding of [chatwise_to_nowledge.py].  The program works on
    values read with [json.load] and [response.json()], so the embedding is a
    small model of Python values ([json]) with the dynamic operations the
    program applies to them ([.get], subscripting, slicing, iteration,
    [str.strip], truthiness), each failing with the exception Python raises.

    Conventions.
    - A Python [str] is a sequence of Unicode code points: [pystr := list N].
      Literals of the program are written as UTF-8 text and decoded by [text].
    - JSON numbers are integers; floating-point numbers are outside the model
      (the program never computes with a number it reads).
    - A JSON object keeps its bindings in order; lookup takes the first
      binding of a key (objects built by [json.load] have distinct keys).
    - The network, the terminal and the clock are inputs: an [env] answers
      the n-th GET, the n-th POST and the n-th prompt.  What the program did
      is recorded in a [world]: the requests sent, the warnings printed, the
      prompts answered.
    - Rendering with rich (panels, tables, progress) is display only and is
      not recorded; an expression evaluated to be displayed is modelled when
      it can raise.  rich reads what it prints as markup and raises
      [MarkupError] for a closing tag that closes nothing.  The program
      prints text it took from a conversation file or from a reply of the
      server; what rich does with such a text, display it or raise, is
      asked of the [env] ([render]).  The fixed markup of the program, with
      the numbers it formats into it, is displayed; the warnings of the
      listing and of the parser, which carry a status code, a file name or
      the text of an exception, are taken to be displayed as well. *)

From Stdlib Require Import String Ascii DecimalString.
From Stdlib Require Import List ZArith NArith Lia Bool.
Import ListNotations.
Local Open Scope Z_scope.

(* ===================================================================== *)
(** ** Strings *)

Definition pystr := list N.

(** UTF-8 decoding of a literal of this file into code points. *)
Fixpoint utf8_go (pending : nat) (acc : N) (bs : list N) : pystr :=
  match bs with
  | [] => []
  | b :: bs' =>
      match pending with
      | S p =>
          let acc' := (acc * 64 + b mod 64)%N in
          match p with
          | O => acc' :: utf8_go 0 0%N bs'
          | S _ => utf8_go p acc' bs'
          end
      | O =>
          if (b <? 128)%N then b :: utf8_go 0 0%N bs'
          else if (b <? 224)%N then utf8_go 1 (b mod 32)%N bs'
          else if (b <? 240)%N then utf8_go 2 (b mod 16)%N bs'
          else utf8_go 3 (b mod 8)%N bs'
      end
  end.

Definition text (s : string) : pystr :=
  utf8_go 0 0%N (map N_of_ascii (list_ascii_of_string s)).

Fixpoint str_eqb (a b : pystr) : bool :=
  match a, b with
  | [], [] => true
  | x :: a', y :: b' => (x =? y)%N && str_eqb a' b'
  | _, _ => false
  end.

(** [str.isspace] on one character (CPython's [_PyUnicode_IsWhitespace]). *)
Definition is_space (c : N) : bool :=
  ((9 <=? c) && (c <=? 13) || (28 <=? c) && (c <=? 32)
   || (c =? 133) || (c =? 160) || (c =? 5760)
   || (8192 <=? c) && (c <=? 8202)
   || (c =? 8232) || (c =? 8233) || (c =? 8239) || (c =? 8287)
   || (c =? 12288))%N.

Fixpoint lstrip (s : pystr) : pystr :=
  match s with
  | [] => []
  | c :: s' => if is_space c then lstrip s' else s
  end.

Definition rstrip (s : pystr) : pystr := rev (lstrip (rev s)).

(** [s.strip()] *)
Definition strip (s : pystr) : pystr := rstrip (lstrip s).

(** [str(n)] for an integer. *)
Definition str_of_int (z : Z) : pystr :=
  map N_of_ascii (list_ascii_of_string (NilZero.string_of_int (Z.to_int z))).


(* ===================================================================== *)
(** ** Python values and exceptions *)

#[local] Set Warnings "-register-all".

Inductive json : Type :=
| JNull
| JBool (b : bool)
| JInt (z : Z)
| JStr (s : pystr)
| JArr (items : list json)
| JObj (fields : list (pystr * json)).

Inductive exn : Type :=
| KeyError (key : json)
| AttributeError
| TypeError
| IndexError
| JSONDecodeError
| ConnectionError
| Timeout
| NotRenderableError
| MarkupError
| OtherException
| KeyboardInterrupt
| SystemExit (code : Z).

(** [isinstance(e, Exception)]: what an [except Exception] clause catches. *)
Definition is_exception (e : exn) : bool :=
  match e with
  | KeyboardInterrupt | SystemExit _ => false
  | _ => true
  end.

Inductive result (A : Type) : Type :=
| Ok (a : A)
| Raise (e : exn).
Arguments Ok {A} a.
Arguments Raise {A} e.

Definition rbind {A B} (r : result A) (k : A -> result B) : result B :=
  match r with
  | Ok a => k a
  | Raise e => Raise e
  end.

Declare Scope py_scope.
Delimit Scope py_scope with py.
Notation "'let?' x ':=' r 'in' k" := (rbind r (fun x => k))
  (at level 10, x name, r at level 100, k at level 200) : py_scope.
Local Open Scope py_scope.

Fixpoint lookup (k : pystr) (fields : list (pystr * json)) : option json :=
  match fields with
  | [] => None
  | (k', v) :: rest => if str_eqb k k' then Some v else lookup k rest
  end.

(** [v.get(k, default)] *)
Definition py_get (v : json) (k : pystr) (default : json) : result json :=
  match v with
  | JObj o => Ok (match lookup k o with Some x => x | None => default end)
  | _ => Raise AttributeError
  end.

(** [v[k]] for a string key *)
Definition py_item (v : json) (k : pystr) : result json :=
  match v with
  | JObj o => match lookup k o with Some x => Ok x | None => Raise (KeyError (JStr k)) end
  | _ => Raise TypeError
  end.

(** [v[0]] *)
Definition py_first (v : json) : result json :=
  match v with
  | JArr (x :: _) => Ok x
  | JStr (c :: _) => Ok (JStr [c])
  | JArr [] | JStr [] => Raise IndexError
  | JObj _ => Raise (KeyError (JInt 0))
  | _ => Raise TypeError
  end.

(** [v[:n]]; slicing a dict raises [TypeError] before Python 3.12 and
    [KeyError] from 3.12 on, the model takes the former. *)
Definition py_slice_to (n : nat) (v : json) : result json :=
  match v with
  | JStr s => Ok (JStr (firstn n s))
  | JArr l => Ok (JArr (firstn n l))
  | _ => Raise TypeError
  end.

(** [len(v)] *)
Definition py_len (v : json) : result Z :=
  match v with
  | JStr s => Ok (Z.of_nat (length s))
  | JArr l => Ok (Z.of_nat (length l))
  | JObj o => Ok (Z.of_nat (length o))
  | _ => Raise TypeError
  end.

(** [list(v)]: the elements a [for] loop or [list.extend] sees. *)
Definition py_iter (v : json) : result (list json) :=
  match v with
  | JArr l => Ok l
  | JStr s => Ok (map (fun c => JStr [c]) s)
  | JObj o => Ok (map (fun kv => JStr (fst kv)) o)
  | _ => Raise TypeError
  end.

(** [bool(v)] *)
Definition py_truthy (v : json) : bool :=
  match v with
  | JNull => false
  | JBool b => b
  | JInt z => negb (z =? 0)
  | JStr s => match s with [] => false | _ => true end
  | JArr l => match l with [] => false | _ => true end
  | JObj o => match o with [] => false | _ => true end
  end.

(** [v.strip()] *)
Definition py_strip (v : json) : result json :=
  match v with
  | JStr s => Ok (JStr (strip s))
  | _ => Raise AttributeError
  end.

(** [v + s] for a string literal [s] on the right. *)
Definition py_add_str (v : json) (s : pystr) : result json :=
  match v with
  | JStr a => Ok (JStr (a ++ s))
  | _ => Raise TypeError
  end.

(** Whether [v] can be a member of a set or be looked up in one. *)
Definition hashable (v : json) : bool :=
  match v with
  | JArr _ | JObj _ => false
  | _ => true
  end.

(** The integer a [bool] or [int] compares as ([True == 1]). *)
Definition as_number (v : json) : option Z :=
  match v with
  | JBool true => Some 1
  | JBool false => Some 0
  | JInt z => Some z
  | _ => None
  end.

(** [a == b] on hashable values: a string equals only an equal string,
    [None] only [None], numbers compare by value. *)
Definition py_eq (a b : json) : bool :=
  match a, b with
  | JNull, JNull => true
  | JStr x, JStr y => str_eqb x y
  | _, _ =>
      match as_number a, as_number b with
      | Some x, Some y => x =? y
      | _, _ => false
      end
  end.

(** [v in s] for a set [s], given by its elements. *)
Definition set_contains (s : list json) (v : json) : result bool :=
  if hashable v then Ok (existsb (py_eq v) s) else Raise TypeError.

(* ===================================================================== *)
(** ** The outside world *)

(** An HTTP response: [status_code], [text], and what [json()] returns
    ([None] when the body is not JSON and [json()] raises). *)
Record response : Type := mkResponse {
  status_code : Z;
  resp_text : pystr;
  resp_json : option json
}.

(** What [requests.get] / [requests.post] does: return a response or raise. *)
Inductive reply : Type :=
| Replied (r : response)
| Failed (e : exn).

(** The answer to the per-record prompt: "y", "n" or "q". *)
Inductive choice : Type := Proceed | Skip | Quit.

(** The answer to the mode prompt: "1", "2" or "q". *)
Inductive mode_choice : Type := ModeManual | ModeAuto | ModeQuit.

Record env : Type := mkEnv {
  http_get : nat -> Z -> Z -> reply;   (* n-th GET /threads, limit, offset *)
  http_post : nat -> json -> reply;    (* n-th POST /threads, body *)
  ask_choice : nat -> result choice;   (* n-th per-record prompt *)
  ask_mode : result mode_choice;       (* the mode prompt *)
  clock : nat -> pystr;                (* datetime.now().isoformat() at the n-th file *)
  repr : json -> pystr;                (* str() of a list or dict *)
  exn_str : exn -> pystr;              (* str(e) *)
  render : pystr -> result unit        (* rich printing a text read as markup *)
}.

Record world : Type := mkWorld {
  console : list pystr;      (* warnings and parse errors printed, oldest first *)
  gets : list (Z * Z);       (* (limit, offset) of each GET sent, oldest first *)
  posts : list json;         (* body of each POST sent, oldest first *)
  asked : nat                (* per-record prompts answered *)
}.

Definition empty_world : world := mkWorld [] [] [] 0.

Definition M (A : Type) : Type := world -> world * result A.

Definition ret {A} (a : A) : M A := fun w => (w, Ok a).
Definition raise {A} (e : exn) : M A := fun w => (w, Raise e).
Definition lift {A} (r : result A) : M A := fun w => (w, r).

Definition bind {A B} (m : M A) (k : A -> M B) : M B :=
  fun w =>
    match m w with
    | (w', Ok a) => k a w'
    | (w', Raise e) => (w', Raise e)
    end.

Notation "'do' x '<-' m ';' k" := (bind m (fun x => k))
  (at level 10, x name, m at level 100, k at level 200) : py_scope.

(** [console.print(line)] *)
Definition print (line : pystr) : M unit :=
  fun w => (mkWorld (console w ++ [line]) (gets w) (posts w) (asked w), Ok tt).

(** [console.print(markup)] for a text that holds data of a file or of a
    reply: rich reads it as markup and raises [MarkupError] for a closing
    tag that closes nothing.  What is displayed is not recorded. *)
Definition show (E : env) (markup : pystr) : result unit := render E markup.

(** A cell of a table, when the table is printed: a string is read as
    markup, [None] is an empty cell. *)
Definition show_cell (E : env) (cell : json) : result unit :=
  match cell with
  | JStr s => show E s
  | _ => Ok tt
  end.

(** The cells of a table that is printed, in the order rich reads them:
    column by column. *)
Fixpoint show_cells (E : env) (cells : list json) : result unit :=
  match cells with
  | [] => Ok tt
  | cell :: rest => let? _ := show_cell E cell in show_cells E rest
  end.

Fixpoint show_lines (E : env) (lines : list pystr) : result unit :=
  match lines with
  | [] => Ok tt
  | line :: rest => let? _ := show E line in show_lines E rest
  end.

(** [requests.get(NOWLEDGE_MEM_API_THREADS, params={limit, offset}, timeout=30)] *)
Definition requests_get (E : env) (limit offset : Z) : world -> world * reply :=
  fun w =>
    (mkWorld (console w) (gets w ++ [(limit, offset)]) (posts w) (asked w),
     http_get E (length (gets w)) limit offset).

(** [requests.post(NOWLEDGE_MEM_API_THREADS, json=body, ...)] *)
Definition requests_post (E : env) (body : json) : world -> world * reply :=
  fun w =>
    (mkWorld (console w) (gets w) (posts w ++ [body]) (asked w),
     http_post E (length (posts w)) body).

(** [Prompt.ask("操作选择", choices=["y", "n", "q"], default="y")] *)
Definition prompt_choice (E : env) : M choice :=
  fun w =>
    (mkWorld (console w) (gets w) (posts w) (S (asked w)), ask_choice E (asked w)).

(* ===================================================================== *)
(** ** Literals of the program *)

Definition k_threads : pystr := Eval vm_compute in text "threads".
Definition k_pagination : pystr := Eval vm_compute in text "pagination".
Definition k_has_more : pystr := Eval vm_compute in text "has_more".
Definition k_messages : pystr := Eval vm_compute in text "messages".
Definition k_content : pystr := Eval vm_compute in text "content".
Definition k_role : pystr := Eval vm_compute in text "role".
Definition k_user : pystr := Eval vm_compute in text "user".
Definition k_id : pystr := Eval vm_compute in text "id".
Definition k_title : pystr := Eval vm_compute in text "title".
Definition k_thread_id : pystr := Eval vm_compute in text "thread_id".
Definition k_source : pystr := Eval vm_compute in text "source".
Definition k_import_date : pystr := Eval vm_compute in text "import_date".
Definition k_metadata : pystr := Eval vm_compute in text "metadata".
Definition k_original_id : pystr := Eval vm_compute in text "original_id".
Definition k_model : pystr := Eval vm_compute in text "model".
Definition k_created_at : pystr := Eval vm_compute in text "created_at".
Definition k_updated_at : pystr := Eval vm_compute in text "updated_at".
Definition k_createdAt : pystr := Eval vm_compute in text "createdAt".
Definition k_updatedAt : pystr := Eval vm_compute in text "updatedAt".
Definition k_thread : pystr := Eval vm_compute in text "thread".
Definition s_untitled : pystr := Eval vm_compute in text "Untitled".
Definition s_chatwise : pystr := Eval vm_compute in text "chatwise".
Definition s_prefix : pystr := Eval vm_compute in text "chatwise-".
Definition s_unknown : pystr := Eval vm_compute in text "unknown".
Definition s_na : pystr := Eval vm_compute in text "N/A".
Definition s_dots : pystr := Eval vm_compute in text "...".

(** [str(v)], as an f-string formats a value. *)
Definition py_str (E : env) (v : json) : pystr :=
  match v with
  | JStr s => s
  | JInt z => str_of_int z
  | JNull => text "None"
  | JBool true => text "True"
  | JBool false => text "False"
  | _ => repr E v
  end.

Definition warn_status_prefix : pystr :=
  Eval vm_compute in text "[yellow]警告: 获取已有记录失败 - ".
Definition warn_connect : pystr :=
  Eval vm_compute in text "[yellow]警告: 无法连接服务端，将跳过去重检查[/yellow]".
Definition warn_error_prefix : pystr :=
  Eval vm_compute in text "[yellow]警告: 获取已有记录时出错 - ".
Definition yellow_end : pystr := Eval vm_compute in text "[/yellow]".
Definition parse_failed_prefix : pystr :=
  Eval vm_compute in text "[red]解析文件失败: ".
Definition dash : pystr := Eval vm_compute in text " - ".
Definition red_end : pystr := Eval vm_compute in text "[/red]".
Definition msg_created : pystr :=
  Eval vm_compute in text "成功创建 Thread ID: ".
Definition msg_api_error : pystr := Eval vm_compute in text "API 错误 ".
Definition colon : pystr := Eval vm_compute in text ": ".
Definition msg_connect : pystr :=
  Eval vm_compute in
    text "连接失败: 请确保 Nowledge Mem 服务正在运行 (http://127.0.0.1:14242)".
Definition msg_timeout : pystr := Eval vm_compute in text "请求超时".
Definition msg_unknown : pystr := Eval vm_compute in text "未知错误: ".

(* ===================================================================== *)
(** ** fetch_existing_threads *)

Definition limit : Z := 100.

(** One pass through the body of [while True].  The list [all_threads] is
    mutated in place, so the pass returns it next to what the pass did:
    [Ok (Some offset')] to go round again, [Ok None] for [break],
    [Raise e] when an exception leaves the loop. *)
Definition fetch_page (E : env) (all_threads : list json) (offset : Z)
  : world -> world * list json * result (option Z) :=
  fun w =>
    let (w1, rp) := requests_get E limit offset w in
    match rp with
    | Failed e => (w1, all_threads, Raise e)
    | Replied response =>
        if negb (status_code response =? 200) then
          let (w2, _) :=
            print (warn_status_prefix ++ str_of_int (status_code response)
                   ++ yellow_end) w1 in
          (w2, all_threads, Ok None)
        else
          match resp_json response with
          | None => (w1, all_threads, Raise JSONDecodeError)
          | Some data =>
              match (let? threads := py_get data k_threads (JArr []) in
                     py_iter threads) with
              | Raise e => (w1, all_threads, Raise e)
              | Ok threads =>
                  (w1, all_threads ++ threads,
                   let? pagination := py_get data k_pagination (JObj []) in
                   let? has_more := py_get pagination k_has_more (JBool false) in
                   Ok (if negb (py_truthy has_more) then None
                       else Some (offset + limit)))
              end
          end
    end.

(** [while True: ...], run for at most [fuel] passes; [None] when the loop
    is still running after that many. *)
Fixpoint fetch_loop (E : env) (fuel : nat) (all_threads : list json) (offset : Z)
  (w : world) : option (world * list json * result unit) :=
  match fuel with
  | O => None
  | S fuel' =>
      match fetch_page E all_threads offset w with
      | (w', all', Ok (Some offset')) => fetch_loop E fuel' all' offset' w'
      | (w', all', Ok None) => Some (w', all', Ok tt)
      | (w', all', Raise e) => Some (w', all', Raise e)
      end
  end.

Definition fetch_existing_threads (E : env) (fuel : nat) (w : world)
  : option (world * result (list json)) :=
  match fetch_loop E fuel [] 0 w with
  | None => None
  | Some (w', all_threads, Ok _) => Some (w', Ok all_threads)
  | Some (w', all_threads, Raise e) =>
      match e with
      | ConnectionError =>
          let (w2, _) := print warn_connect w' in Some (w2, Ok all_threads)
      | _ =>
          if is_exception e then
            let (w2, _) :=
              print (warn_error_prefix ++ exn_str E e ++ yellow_end) w' in
            Some (w2, Ok all_threads)
          else Some (w', Raise e)
      end
  end.

(* ===================================================================== *)
(** ** parse_chat_file *)

(** The body of [for msg in ...]: [None] for [continue], [Some m] for the
    message appended. *)
Definition parse_message (msg : json) : result (option json) :=
  let? raw := py_get msg k_content (JStr []) in
  let? content := py_strip raw in
  if negb (py_truthy content) then Ok None
  else
    let? role := py_get msg k_role (JStr k_user) in
    Ok (Some (JObj [(k_content, content); (k_role, role)])).

Fixpoint parse_messages (items : list json) : result (list json) :=
  match items with
  | [] => Ok []
  | msg :: rest =>
      let? m := parse_message msg in
      let? messages := parse_messages rest in
      Ok (match m with Some x => x :: messages | None => messages end)
  end.

(** The [try] block after [json.load] returned [data]. *)
Definition parse_data (E : env) (now : pystr) (data : json) : result (option json) :=
  let? source_messages := py_get data k_messages (JArr []) in
  let? items := py_iter source_messages in
  let? messages := parse_messages items in
  match messages with
  | [] => Ok None
  | _ =>
      let? id := py_item data k_id in
      let? title := py_get data k_title (JStr s_untitled) in
      let? original_id := py_item data k_id in
      let? model := py_get data k_model JNull in
      let? created_at := py_get data k_createdAt JNull in
      let? updated_at := py_get data k_updatedAt JNull in
      Ok (Some (JObj
        [(k_thread_id, JStr (s_prefix ++ py_str E id));
         (k_title, title);
         (k_messages, JArr messages);
         (k_source, JStr s_chatwise);
         (k_import_date, JStr now);
         (k_metadata, JObj
            [(k_original_id, original_id);
             (k_model, model);
             (k_created_at, created_at);
             (k_updated_at, updated_at)])]))
  end.

(** [except (json.JSONDecodeError, KeyError)] *)
Definition parse_caught (e : exn) : bool :=
  match e with
  | JSONDecodeError | KeyError _ => true
  | _ => false
  end.

(** [parse_chat_file(file_path)]: [name] is [file_path.name], [loaded] what
    [open] and [json.load] did, [now] the clock reading. *)
Definition parse_chat_file (E : env) (name : pystr) (loaded : result json)
  (now : pystr) : M (option json) :=
  fun w =>
    match (let? data := loaded in parse_data E now data) with
    | Ok r => (w, Ok r)
    | Raise e =>
        if parse_caught e then
          let (w', _) :=
            print (parse_failed_prefix ++ name ++ dash ++ exn_str E e ++ red_end) w in
          (w', Ok None)
        else (w, Raise e)
    end.

(* ===================================================================== *)
(** ** import_to_nowledge *)

(** The [try] block of [import_to_nowledge], after [requests.post] returned. *)
Definition import_attempt (E : env) (rp : reply) : result (bool * pystr) :=
  match rp with
  | Failed e => Raise e
  | Replied response =>
      if status_code response =? 200 then
        let? result :=
          match resp_json response with
          | Some v => Ok v
          | None => Raise JSONDecodeError
          end in
        let? thread := py_get result k_thread (JObj []) in
        let? id := py_get thread k_id (JStr s_unknown) in
        Ok (true, msg_created ++ py_str E id)
      else
        Ok (false,
            msg_api_error ++ str_of_int (status_code response) ++ colon
              ++ firstn 200 (resp_text response))
  end.

(** The [except] clauses, in order.  [requests]' [ConnectTimeout] is both a
    [ConnectionError] and a [Timeout]; the first clause takes it, so it is a
    [ConnectionError] here. *)
Definition import_handle (E : env) (r : result (bool * pystr)) : result (bool * pystr) :=
  match r with
  | Ok v => Ok v
  | Raise ConnectionError => Ok (false, msg_connect)
  | Raise Timeout => Ok (false, msg_timeout)
  | Raise e =>
      if is_exception e then Ok (false, msg_unknown ++ exn_str E e)
      else Raise e
  end.

Definition import_to_nowledge (E : env) (thread_data : json) : M (bool * pystr) :=
  fun w =>
    let (w1, rp) := requests_post E thread_data w in
    (w1, import_handle E (import_attempt E rp)).

(* ===================================================================== *)
(** ** display_chat_summary and the chat list of main *)

(** A cell given to rich's [Table.add_row]: a string, or [None] (shown as
    an empty cell); [add_row] raises [NotRenderableError] for another value. *)
Definition add_row_cell (v : json) : result unit :=
  match v with
  | JStr _ | JNull => Ok tt
  | _ => Raise NotRenderableError
  end.

(** [chat.get("metadata", {}).get(key, default)] *)
Definition metadata_get (chat : json) (key : pystr) (default : json) : result json :=
  let? metadata := py_get chat k_metadata (JObj []) in
  py_get metadata key default.

(** The table is filled row by row, and printed in a panel at the end: the
    cells that hold text of the record are then read as markup. *)
Definition display_chat_summary (E : env) (chat_data : json) : result unit :=
  let? title := py_item chat_data k_title in
  let? _ := add_row_cell title in
  let? messages := py_item chat_data k_messages in
  let? _ := py_len messages in
  let? model := metadata_get chat_data k_model (JStr s_na) in
  let? _ := add_row_cell model in
  let? created_at := metadata_get chat_data k_created_at (JStr s_na) in
  let? created := py_slice_to 19 created_at in
  let? _ := add_row_cell created in
  let? messages := py_item chat_data k_messages in
  let? first := py_first messages in
  let? first_msg := py_item first k_content in
  let? n := py_len first_msg in
  let? preview :=
    if 100 <? n then
      let? head := py_slice_to 100 first_msg in py_add_str head s_dots
    else Ok first_msg in
  let? _ := add_row_cell preview in
  show_cells E [title; model; created; preview].

(** The body of the loop that fills the chat list table in [main]; the
    value is the two cells of the row that hold text of the record, the
    title and the date. *)
Definition list_row_cells (chat : json) : result (json * json) :=
  let? created_at := metadata_get chat k_created_at (JStr []) in
  let? created := py_slice_to 10 created_at in
  let? title := py_item chat k_title in
  let? short := py_slice_to 40 title in
  let? messages := py_item chat k_messages in
  let? _ := py_len messages in
  let? _ := add_row_cell short in
  let? _ := add_row_cell created in
  Ok (short, created).

(** The same, for whether the row is added. *)
Definition list_row (chat : json) : result unit :=
  let? _ := list_row_cells chat in Ok tt.

(** The loop that fills the chat list; the value is the rows of the table,
    each with its title and its date. *)
Fixpoint list_rows (chats : list json) : result (list (json * json)) :=
  match chats with
  | [] => Ok []
  | chat :: rest =>
      let? row := list_row_cells chat in
      let? rows := list_rows rest in
      Ok (row :: rows)
  end.

(** The cells of the chat list that hold text of the records, column by
    column: the titles, then the dates. *)
Definition chat_list_cells (rows : list (json * json)) : list json :=
  map fst rows ++ map snd rows.

(* ===================================================================== *)
(** ** manual_mode *)

Definition newline : pystr := [10%N].
Definition place_open : pystr := Eval vm_compute in text "[bold](".
Definition slash : pystr := Eval vm_compute in text "/".
Definition place_close_dim : pystr := Eval vm_compute in text ")[/bold] [dim]".
Definition dim_end : pystr := Eval vm_compute in text "[/dim]".
Definition green_tick : pystr := Eval vm_compute in text "[green]✓ ".
Definition green_end : pystr := Eval vm_compute in text "[/green]".
Definition red_cross : pystr := Eval vm_compute in text "[red]✗ ".

(** The line printed for a duplicate, the [i]-th of [total] records. *)
Definition duplicate_line (E : env) (i total : nat) (title : json) : pystr :=
  newline ++ place_open ++ str_of_int (Z.of_nat i) ++ slash
    ++ str_of_int (Z.of_nat total) ++ place_close_dim ++ py_str E title ++ dim_end.

(** The line printed after a create call, for what the call returned. *)
Definition outcome_line (r : bool * pystr) : pystr :=
  if fst r then green_tick ++ snd r ++ green_end
  else red_cross ++ snd r ++ red_end.

Record manual_counts : Type := mkManual {
  imported : nat;
  skipped : nat;
  duplicates : nat
}.

(** [for i, chat in enumerate(chats, 1): ...] from the [i]-th record and the
    counters [c] on; [total] is [len(chats)]. *)
Fixpoint manual_loop (E : env) (existing_ids : list json) (total i : nat)
  (chats : list json) (c : manual_counts) : M manual_counts :=
  match chats with
  | [] => ret c
  | chat :: rest =>
      do thread_id <- lift (py_item chat k_thread_id);
      do dup <- lift (set_contains existing_ids thread_id);
      if dup then
        do title <- lift (py_item chat k_title);
        do _ <- lift (show E (duplicate_line E i total title));
        manual_loop E existing_ids total (S i) rest
          (mkManual (imported c) (skipped c) (S (duplicates c)))
      else
        do _ <- lift (display_chat_summary E chat);
        do choice <- prompt_choice E;
        match choice with
        | Quit => ret c
        | Skip =>
            manual_loop E existing_ids total (S i) rest
              (mkManual (imported c) (S (skipped c)) (duplicates c))
        | Proceed =>
            do r <- import_to_nowledge E chat;
            do _ <- lift (show E (outcome_line r));
            if fst r then
              manual_loop E existing_ids total (S i) rest
                (mkManual (S (imported c)) (skipped c) (duplicates c))
            else manual_loop E existing_ids total (S i) rest c
        end
  end.

(** [manual_mode(chats, existing_ids)]; the value is the three counters of
    the final report. *)
Definition manual_mode (E : env) (chats : list json) (existing_ids : list json)
  : M manual_counts :=
  manual_loop E existing_ids (length chats) 1 chats (mkManual 0 0 0).

(* ===================================================================== *)
(** ** auto_mode *)

Record auto_counts : Type := mkAuto {
  success_count : nat;
  fail_count : nat;
  duplicate_count : nat;
  errors : list (json * pystr)
}.

Definition progress_column : pystr :=
  Eval vm_compute in text "[progress.description]".
Definition importing : pystr := Eval vm_compute in text "正在导入: ".

(** [for chat in chats: ...] inside [with Progress(...) as progress].  The
    description of the progress task, which [progress.update] replaces, is
    state of the display and outlives an exception, so the loop returns it
    next to its outcome: [None] as long as it is the fixed text the task was
    added with, [Some d] once a record's title has been put into it. *)
Fixpoint auto_loop (E : env) (existing_ids : list json) (chats : list json)
  (description : option pystr) (c : auto_counts) (w : world)
  : world * option pystr * result auto_counts :=
  match chats with
  | [] => (w, description, Ok c)
  | chat :: rest =>
      match (let? thread_id := py_item chat k_thread_id in
             set_contains existing_ids thread_id) with
      | Raise e => (w, description, Raise e)
      | Ok true =>
          auto_loop E existing_ids rest description
            (mkAuto (success_count c) (fail_count c) (S (duplicate_count c)) (errors c))
            w
      | Ok false =>
          match (let? title := py_item chat k_title in py_slice_to 30 title) with
          | Raise e => (w, description, Raise e)
          | Ok short =>
              let description := Some (importing ++ py_str E short ++ s_dots) in
              match import_to_nowledge E chat w with
              | (w1, Raise e) => (w1, description, Raise e)
              | (w1, Ok r) =>
                  if fst r then
                    auto_loop E existing_ids rest description
                      (mkAuto (S (success_count c)) (fail_count c) (duplicate_count c)
                              (errors c))
                      w1
                  else
                    match py_item chat k_title with
                    | Raise e => (w1, description, Raise e)
                    | Ok title =>
                        auto_loop E existing_ids rest description
                          (mkAuto (success_count c) (S (fail_count c))
                                  (duplicate_count c) (errors c ++ [(title, snd r)]))
                          w1
                    end
              end
          end
      end
  end.

(** Leaving [with Progress(...)], with [r] the outcome of the block: rich
    renders the display a last time and reads the description as markup.
    When that raises, [MarkupError] takes the place of the outcome, an
    exception in flight included. *)
Definition progress_exit {A} (E : env) (description : option pystr) (r : result A)
  : result A :=
  match description with
  | None => r
  | Some d => let? _ := show E (progress_column ++ d) in r
  end.

(** *** The final report *)

Definition report_success_prefix : pystr :=
  Eval vm_compute in text "[bold green]✓ 成功: ".
Definition report_success_end : pystr := Eval vm_compute in text "[/bold green]".
Definition report_duplicate_prefix : pystr :=
  Eval vm_compute in text "[bold yellow]⊘ 重复跳过: ".
Definition report_duplicate_end : pystr := Eval vm_compute in text "[/bold yellow]".
Definition report_fail_prefix : pystr :=
  Eval vm_compute in text "[bold red]✗ 失败: ".
Definition report_fail_end : pystr := Eval vm_compute in text "[/bold red]".
Definition report_error_prefix : pystr := Eval vm_compute in text "  [dim]- ".
Definition report_more_prefix : pystr := Eval vm_compute in text "  [dim]... 还有 ".
Definition report_more_end : pystr := Eval vm_compute in text " 个错误[/dim]".

(** The line of the report for one error: a title and a message. *)
Definition error_line (E : env) (te : json * pystr) : pystr :=
  report_error_prefix ++ py_str E (fst te) ++ colon ++ snd te ++ dim_end.

(** The lines [auto_mode] prints after its loop, from the counters and the
    error list the loop left. *)
Definition auto_summary (E : env) (c : auto_counts) : list pystr :=
  [newline ++ report_success_prefix
     ++ str_of_int (Z.of_nat (success_count c)) ++ report_success_end]
  ++ (if (0 <? duplicate_count c)%nat then
        [report_duplicate_prefix ++ str_of_int (Z.of_nat (duplicate_count c))
           ++ report_duplicate_end]
      else [])
  ++ (if (0 <? fail_count c)%nat then
        [report_fail_prefix ++ str_of_int (Z.of_nat (fail_count c)) ++ report_fail_end]
        ++ map (error_line E) (firstn 5 (errors c))
        ++ (if (5 <? length (errors c))%nat then
              [report_more_prefix
                 ++ str_of_int (Z.of_nat (length (errors c) - 5)) ++ report_more_end]
            else [])
      else []).

(** Printing the report: of its lines, those of the errors hold text of a
    file and of a reply. *)
Definition show_errors (E : env) (c : auto_counts) : result unit :=
  if (0 <? fail_count c)%nat then
    show_lines E (map (error_line E) (firstn 5 (errors c)))
  else Ok tt.

(** [auto_mode(chats, existing_ids)]; the value is the counters and the
    error list the final report is printed from. *)
Definition auto_mode (E : env) (chats : list json) (existing_ids : list json)
  : M auto_counts :=
  fun w =>
    let '(w1, description, r) :=
      auto_loop E existing_ids chats None (mkAuto 0 0 0 []) w in
    (w1,
     let? c := progress_exit E description r in
     let? _ := show_errors E c in
     Ok c).

(* ===================================================================== *)
(** ** main, from the scan of the chat files on *)

(** [chats = []; for file in chat_files: chat = parse_chat_file(file);
    if chat: chats.append(chat)], the [n]-th file first. *)
Fixpoint parse_files (E : env) (n : nat) (files : list (pystr * result json))
  : M (list json) :=
  match files with
  | [] => ret []
  | (name, loaded) :: rest =>
      do chat <- parse_chat_file E name loaded (clock E n);
      do chats <- parse_files E (S n) rest;
      ret (match chat with
           | Some c => if py_truthy c then c :: chats else chats
           | None => chats
           end)
  end.

(** [{t.get("id", "") for t in existing_threads}], as the list of its
    elements. *)
Fixpoint existing_ids_of (existing_threads : list json) : result (list json) :=
  match existing_threads with
  | [] => Ok []
  | t :: rest =>
      let? id := py_get t k_id (JStr []) in
      if hashable id then
        let? ids := existing_ids_of rest in Ok (id :: ids)
      else Raise TypeError
  end.

(** The import mode: [--auto] wins over [--manual]; without a flag the user
    is asked, and "q" leaves with [sys.exit(0)]. *)
Definition choose_mode (E : env) (auto manual : bool) : result mode_choice :=
  if auto then Ok ModeAuto
  else if manual then Ok ModeManual
  else
    let? mode := ask_mode E in
    match mode with
    | ModeQuit => Raise (SystemExit 0)
    | m => Ok m
    end.

Inductive report : Type :=
| ManualReport (c : manual_counts)
| AutoReport (c : auto_counts).

(** [main()] once the export directory has been recognised: [files] are the
    sorted [chat-*.json] files with what loading each gives.  The chat list
    is filled and printed before the remote listing is asked for.  [None]
    when the remote listing is still running after [fuel] pages. *)
Definition main_import (E : env) (fuel : nat) (auto manual : bool)
  (files : list (pystr * result json)) (w : world)
  : option (world * result report) :=
  match parse_files E 0 files w with
  | (w1, Raise e) => Some (w1, Raise e)
  | (w1, Ok chats) =>
      match chats with
      | [] => Some (w1, Raise (SystemExit 0))
      | _ =>
          match (let? rows := list_rows chats in
                 show_cells E (chat_list_cells rows)) with
          | Raise e => Some (w1, Raise e)
          | Ok _ =>
              match fetch_existing_threads E fuel w1 with
              | None => None
              | Some (w2, Raise e) => Some (w2, Raise e)
              | Some (w2, Ok existing_threads) =>
                  match existing_ids_of existing_threads with
                  | Raise e => Some (w2, Raise e)
                  | Ok existing_ids =>
                      match choose_mode E auto manual with
                      | Raise e => Some (w2, Raise e)
                      | Ok ModeManual =>
                          Some (bind (manual_mode E chats existing_ids)
                                  (fun c => ret (ManualReport c)) w2)
                      | Ok _ =>
                          Some (bind (auto_mode E chats existing_ids)
                                  (fun c => ret (AutoReport c)) w2)
                      end
                  end
              end
          end
      end
  end.


From Stdlib Require Import Sorted Permutation.

(* ===================================================================== *)
(** ** is_chatwise_format, extract_zip and the head of main *)

Fixpoint is_prefix (p s : pystr) : bool :=
  match p, s with
  | [], _ => true
  | x :: p', y :: s' => (x =? y)%N && is_prefix p' s'
  | _ :: _, [] => false
  end.

(** [sub in s] for strings, as a test. *)
Fixpoint is_infix (sub s : pystr) : bool :=
  is_prefix sub s
  || match s with
     | [] => false
     | _ :: s' => is_infix sub s'
     end.

(** [key in data] for a string [key]: a key of a dict, an element of a
    list, a substring of a string; other values are not containers. *)
Definition py_contains (key : pystr) (data : json) : result bool :=
  match data with
  | JObj o => Ok (match lookup key o with Some _ => true | None => false end)
  | JArr l => Ok (existsb (py_eq (JStr key)) l)
  | JStr s => Ok (is_infix key s)
  | _ => Raise TypeError
  end.

(** [all(key in data for key in keys)]: stops at the first key that is
    missing. *)
Fixpoint all_keys_in (keys : list pystr) (data : json) : result bool :=
  match keys with
  | [] => Ok true
  | key :: rest =>
      let? found := py_contains key data in
      if found then all_keys_in rest data else Ok false
  end.

(** What the program sees of a directory: whether
    [chatwise-export-verison.txt] exists, and the files [glob("chat-*.json")]
    yields, in the order it yields them, each with its name and with what
    [open] and [json.load] do on it. *)
Record directory : Type := mkDirectory {
  has_version_file : bool;
  chat_glob : list (pystr * result json)
}.

Definition required_keys : list pystr := [k_id; k_title; k_messages].

(** [is_chatwise_format(directory)]; its [except] clause names the same two
    exceptions as the one of [parse_chat_file]. *)
Definition is_chatwise_format (d : directory) : result bool :=
  if has_version_file d then Ok true
  else
    match chat_glob d with
    | [] => Ok false
    | (_, loaded) :: _ =>
        match (let? data := loaded in all_keys_in required_keys data) with
        | Ok b => Ok b
        | Raise e => if parse_caught e then Ok false else Raise e
        end
    end.

(** What [extractall] left in the fresh temporary directory: the directory
    itself and its sub-directories. *)
Record extracted : Type := mkExtracted {
  temp_dir : directory;
  subdirs : list directory
}.

(** [extract_zip(zip_path)], once the archive is unpacked. *)
Definition extract_zip (x : extracted) : directory :=
  match subdirs x with
  | [d] => d
  | _ => temp_dir x
  end.

(** [a <= b] for strings, by code points: the order of [Path]s of one
    directory on a POSIX system. *)
Fixpoint str_leb (a b : pystr) : bool :=
  match a, b with
  | [], _ => true
  | _ :: _, [] => false
  | x :: a', y :: b' =>
      if (x <? y)%N then true
      else if (x =? y)%N then str_leb a' b'
      else false
  end.

Fixpoint insert_file (f : pystr * result json) (files : list (pystr * result json))
  : list (pystr * result json) :=
  match files with
  | [] => [f]
  | g :: rest =>
      if str_leb (fst f) (fst g) then f :: files else g :: insert_file f rest
  end.

(** [sorted(work_dir.glob("chat-*.json"))] *)
Definition sorted_files (files : list (pystr * result json))
  : list (pystr * result json) :=
  fold_right insert_file [] files.

(** The parsed command line and what the file system holds at [path]:
    [unzipped] is what unpacking it gives (or the exception [zipfile]
    raises), [as_directory] what it holds when it is a directory. *)
Record invocation : Type := mkInvocation {
  path_exists : bool;
  zip_suffix : bool;          (* input_path.suffix.lower() == ".zip" *)
  path_is_dir : bool;
  unzipped : result extracted;
  as_directory : directory;
  flag_auto : bool;
  flag_manual : bool
}.

(** The working directory [main] settles on. *)
Definition work_dir_of (a : invocation) : result directory :=
  if negb (path_exists a) then Raise (SystemExit 1)
  else if zip_suffix a then
    let? x := unzipped a in Ok (extract_zip x)
  else if path_is_dir a then Ok (as_directory a)
  else Raise (SystemExit 1).

(** [main()], after [parse_args]. *)
Definition main (E : env) (fuel : nat) (a : invocation) (w : world)
  : option (world * result report) :=
  match work_dir_of a with
  | Raise e => Some (w, Raise e)
  | Ok work_dir =>
      match is_chatwise_format work_dir with
      | Raise e => Some (w, Raise e)
      | Ok false => Some (w, Raise (SystemExit 1))
      | Ok true =>
          main_import E fuel (flag_auto a) (flag_manual a)
            (sorted_files (chat_glob work_dir)) w
      end
  end.

(* ===================================================================== *)
(** ** Vocabulary of the properties *)

(** [chat["thread_id"] in existing_ids] evaluates to [True]. *)
Definition is_duplicate (existing_ids : list json) (chat : json) : bool :=
  match py_item chat k_thread_id with
  | Ok thread_id =>
      match set_contains existing_ids thread_id with
      | Ok b => b
      | Raise _ => false
      end
  | Raise _ => false
  end.

Definition count_duplicates (existing_ids : list json) (chats : list json) : nat :=
  length (filter (is_duplicate existing_ids) chats).

Definition auto_total (c : auto_counts) : nat :=
  success_count c + duplicate_count c + fail_count c.

(** From [c] to [c1] exactly one of the three counters went up, by one. *)
Definition one_more (c c1 : auto_counts) : Prop :=
  (success_count c1 = S (success_count c)
   /\ fail_count c1 = fail_count c /\ duplicate_count c1 = duplicate_count c)
  \/ (success_count c1 = success_count c
      /\ fail_count c1 = S (fail_count c) /\ duplicate_count c1 = duplicate_count c)
  \/ (success_count c1 = success_count c
      /\ fail_count c1 = fail_count c /\ duplicate_count c1 = S (duplicate_count c)).

Definition manual_total (c : manual_counts) : nat :=
  imported c + skipped c + duplicates c.

(** No prompt from the [a]-th to just before the [b]-th was answered "q". *)
Definition no_quit (E : env) (a b : nat) : Prop :=
  forall k, (a <= k < b)%nat -> ask_choice E k <> Ok Quit.

(** A call that was interrupted: it raised something [except Exception]
    does not catch (Ctrl-C). *)
Definition interrupted (rp : reply) : bool :=
  match rp with
  | Failed e => negb (is_exception e)
  | Replied _ => false
  end.

Definition posts_uninterrupted (E : env) : Prop :=
  forall n body, interrupted (http_post E n body) = false.


Definition prompts_answered (E : env) : Prop :=
  forall n, exists ch, ask_choice E n = Ok ch.

(** A record the batch driver can handle: a string identifier and a string
    title. *)
Definition batch_ready (chat : json) : Prop :=
  exists thread_id title,
    py_item chat k_thread_id = Ok (JStr thread_id)
    /\ py_item chat k_title = Ok (JStr title).

(** A record the interactive driver can handle: a string identifier, a
    title, and a summary that is filled and printed. *)
Definition interactive_ready (E : env) (chat : json) : Prop :=
  (exists thread_id, py_item chat k_thread_id = Ok (JStr thread_id))
  /\ (exists title, py_item chat k_title = Ok title)
  /\ display_chat_summary E chat = Ok tt.

(** What a create call can give a driver: what [import_to_nowledge] makes of
    the reply to some request. *)
Definition may_answer (E : env) (r : bool * pystr) : Prop :=
  exists n body, import_handle E (import_attempt E (http_post E n body)) = Ok r.

(** The console renders what the batch driver shows of a record with the
    title [title]: the description it puts in the progress display, and the
    record's line of the report, whatever error a create call gives. *)
Definition batch_title_shown (E : env) (title : pystr) : Prop :=
  show E (progress_column ++ importing ++ firstn 30 title ++ s_dots) = Ok tt
  /\ forall r, may_answer E r -> fst r = false ->
       show E (error_line E (JStr title, snd r)) = Ok tt.

Definition batch_shown (E : env) (chat : json) : Prop :=
  forall title, py_item chat k_title = Ok (JStr title) -> batch_title_shown E title.

(** The console renders the description the progress display has. *)
Definition description_shown (E : env) (d : option pystr) : Prop :=
  match d with
  | None => True
  | Some description => show E (progress_column ++ description) = Ok tt
  end.

(** The console renders the report line of each error of the list. *)
Definition errors_shown (E : env) (errs : list (json * pystr)) : Prop :=
  Forall (fun te => show E (error_line E te) = Ok tt) errs.

(** The console renders the line of every duplicate among [chats], the
    first of which is the [i]-th of [total] records. *)
Definition duplicates_shown (E : env) (existing_ids : list json) (total i : nat)
  (chats : list json) : Prop :=
  forall k chat title,
    nth_error chats k = Some chat ->
    is_duplicate existing_ids chat = true ->
    py_item chat k_title = Ok title ->
    show E (duplicate_line E (i + k) total title) = Ok tt.

(** The console renders the line of every outcome of a create call. *)
Definition outcomes_shown (E : env) : Prop :=
  forall r, may_answer E r -> show E (outcome_line r) = Ok tt.


(** The reply is a page of the listing: HTTP 200 with a body
    [{"threads": [...], "pagination": {"has_more": ...}}]. *)
Definition is_page (rp : reply) (threads : list json) (has_more : bool) : Prop :=
  exists body fields pagination,
    rp = Replied (mkResponse 200 body (Some (JObj fields)))
    /\ lookup k_threads fields = Some (JArr threads)
    /\ lookup k_pagination fields = Some (JObj pagination)
    /\ lookup k_has_more pagination = Some (JBool has_more).

(** [pages] are the first pages a run that starts in [w] is served, each
    announcing a further page. *)
Definition serves_pages (E : env) (w : world) (pages : list (list json)) : Prop :=
  forall i threads,
    nth_error pages i = Some threads ->
    is_page (http_get E (length (gets w) + i) limit (limit * Z.of_nat i)) threads true.

(** The requests for pages [0 .. n-1]. *)
Definition page_requests (n : nat) : list (Z * Z) :=
  map (fun i => (limit, limit * Z.of_nat i)) (seq 0 n).


(** One of the three warnings of the listing. *)
Definition listing_warning (E : env) (line : pystr) : Prop :=
  line = warn_connect
  \/ (exists status, line = warn_status_prefix ++ str_of_int status ++ yellow_end)
  \/ (exists e, line = warn_error_prefix ++ exn_str E e ++ yellow_end).


(** Only whitespace, or nothing at all. *)
Definition blank (s : pystr) : bool := forallb is_space s.

(** A message with no content to import: an object whose [content] is
    absent or a blank string. *)
Definition blank_message (msg : json) : Prop :=
  exists fields,
    msg = JObj fields
    /\ match lookup k_content fields with
       | None => True
       | Some (JStr s) => blank s = true
       | Some _ => False
       end.


(** [fields.get(k, default)] on the bindings of an object. *)
Definition field_or (fields : list (pystr * json)) (k : pystr) (default : json) : json :=
  match lookup k fields with
  | Some x => x
  | None => default
  end.

(** The Export Record made from the object [fields] with source id [id]
    and the kept messages [messages]. *)
Definition export_record (E : env) (now : pystr) (fields : list (pystr * json))
  (id : json) (messages : list json) : json :=
  JObj [(k_thread_id, JStr (s_prefix ++ py_str E id));
        (k_title, field_or fields k_title (JStr s_untitled));
        (k_messages, JArr messages);
        (k_source, JStr s_chatwise);
        (k_import_date, JStr now);
        (k_metadata,
         JObj [(k_original_id, id);
               (k_model, field_or fields k_model JNull);
               (k_created_at, field_or fields k_createdAt JNull);
               (k_updated_at, field_or fields k_updatedAt JNull)])].


(* ===================================================================== *)
(** ** Vocabulary of the further properties *)

(** The records the drivers go on to handle: those not in the id set. *)
Definition fresh_records (existing_ids : list json) (chats : list json) : list json :=
  filter (fun chat => negb (is_duplicate existing_ids chat)) chats.

(** [chat["title"]], for a record that has one. *)
Definition title_of (chat : json) : json :=
  match py_item chat k_title with
  | Ok title => title
  | Raise _ => JNull
  end.

(** Every create call finds no server. *)
Definition server_down (E : env) : Prop :=
  forall n body, http_post E n body = Failed ConnectionError.

(** Every listing call finds no server. *)
Definition listing_down (E : env) : Prop :=
  forall n l o, http_get E n l o = Failed ConnectionError.

Definition is_str (v : json) : bool :=
  match v with
  | JStr _ => true
  | _ => false
  end.

Definition is_str_or_none (v : json) : bool :=
  match v with
  | JStr _ | JNull => true
  | _ => false
  end.

(** The [content] of a message of a conversation file, [""] when absent. *)
Definition source_content (msg : json) : pystr :=
  match msg with
  | JObj fields =>
      match lookup k_content fields with
      | Some (JStr s) => s
      | _ => []
      end
  | _ => []
  end.

(** The content of the first message of a record. *)
Definition first_content (chat : json) : pystr :=
  match py_item chat k_messages with
  | Ok (JArr (m :: _)) => source_content m
  | _ => []
  end.

(** A message as the summary shows it: whole, or its first 100 characters
    and "..." when it is longer. *)
Definition preview (content : pystr) : pystr :=
  if 100 <? Z.of_nat (length content) then firstn 100 content ++ s_dots
  else content.

(** The first [n] characters of a string; another value as it is. *)
Definition cut (n : nat) (v : json) : json :=
  match v with
  | JStr s => JStr (firstn n s)
  | _ => v
  end.

(** The console renders every string among the cells of a table. *)
Definition cells_shown (E : env) (cells : list json) : Prop :=
  forall s, In (JStr s) cells -> show E s = Ok tt.

Definition non_empty (s : pystr) : bool :=
  match s with
  | [] => false
  | _ :: _ => true
  end.

(** A message as the parser stores it: [{"content": c, "role": r}] with a
    trimmed, non-empty [c]. *)
Definition kept_message (m : json) : Prop :=
  exists c role,
    m = JObj [(k_content, JStr c); (k_role, role)] /\ c <> [] /\ strip c = c.

(** How many of the prompts from the [a]-th to just before the [b]-th were
    answered "y". *)
Definition answered_yes (E : env) (a b : nat) : nat :=
  length (filter (fun k => match ask_choice E k with
                           | Ok Proceed => true
                           | _ => false
                           end)
                 (seq a (b - a))).

(** Every page the server serves announces another one. *)
Definition always_more (E : env) : Prop :=
  forall n offset, exists threads, is_page (http_get E n limit offset) threads true.

(** JSON [null], a boolean or a number: a value that holds nothing. *)
Definition is_scalar (v : json) : bool :=
  match v with
  | JNull | JBool _ | JInt _ => true
  | _ => false
  end.

(** An invocation on an existing directory. *)
Definition on_directory (d : directory) (auto manual : bool) : invocation :=
  mkInvocation true false true (Raise OtherException) d auto manual.

(** The record [chat] was parsed from one of [files]. *)
Definition parsed_from (E : env) (files : list (pystr * result json)) (chat : json)
  : Prop :=
  exists name data n,
    In (name, Ok data) files /\ parse_data E (clock E n) data = Ok (Some chat).

(** The order [sorted] puts the chat files in: by name. *)
Definition name_le (f g : pystr * result json) : Prop :=
  str_leb (fst f) (fst g) = true.
(* ===================================================================== *)
(** ** Sample inputs *)

(** The content of a conversation file [chat-<id>.json] with one message. *)
Definition sample_file (id : string) (content : json) (extra : list (pystr * json)) : json :=
  JObj ([(k_id, JStr (text id));
         (k_title, JStr (text "T"));
         (k_messages,
          JArr [JObj [(k_role, JStr k_user); (k_content, content)]])]
        ++ extra).

Definition sample_created : list (pystr * json) :=
  [(k_createdAt, JStr (text "2024-05-06T07:08:09.000Z"))].

(** A server that creates the first thread sent to it and answers every
    later request with HTTP 500. *)
Definition sample_post (n : nat) (body : json) : reply :=
  match n with
  | O =>
      Replied (mkResponse 200 (text "{}")
                 (Some (JObj [(k_thread, JObj [(k_id, JStr (text "srv-1"))])])))
  | S _ => Replied (mkResponse 500 (text "boom") None)
  end.

(** A listing of 137 threads, served in pages as the request asks. *)
Definition sample_listing : list json :=
  map (fun n => JObj [(k_id, JStr (s_prefix ++ str_of_int (Z.of_nat n)))]) (seq 0 137).

Definition paged_get (listing : list json) (n : nat) (limit offset : Z) : reply :=
  let page := firstn (Z.to_nat limit) (skipn (Z.to_nat offset) listing) in
  let has_more := offset + limit <? Z.of_nat (length listing) in
  Replied (mkResponse 200 []
             (Some (JObj [(k_threads, JArr page);
                          (k_pagination, JObj [(k_has_more, JBool has_more)])]))).

(** A console for the samples: a model of the check rich's [markup.render]
    makes.  A tag is an opening bracket, a character of [a-z#/@], characters
    other than brackets, and a closing bracket; an odd number of backslashes
    before it makes it text.  A tag [/name] closes the last open tag of
    that name and [/] the last open tag; when there is none rich raises
    [MarkupError].  The name of a tag ends at the first [=]; names are
    compared trimmed and in lower case, as rich leaves a name that is no
    style definition (rich also identifies the spellings of one style, as
    [b] and [bold]; the samples hold none). *)
Definition tag_start (c : N) : bool :=
  ((97 <=? c) && (c <=? 122) || (c =? 35) || (c =? 47) || (c =? 64))%N.

Definition lower (c : N) : N :=
  if ((65 <=? c) && (c <=? 90))%N then (c + 32)%N else c.

Fixpoint tag_name (body : pystr) : pystr :=
  match body with
  | [] => []
  | c :: rest => if (c =? 61)%N then [] else c :: tag_name rest
  end.

Definition normalize (name : pystr) : pystr := map lower (strip name).

Fixpoint pop_style (name : pystr) (stack : list pystr) : option (list pystr) :=
  match stack with
  | [] => None
  | t :: rest =>
      if str_eqb t name then Some rest
      else option_map (cons t) (pop_style name rest)
  end.

(** What a tag does to the open tags, last first; [None] for [MarkupError]. *)
Definition apply_tag (body : pystr) (stack : list pystr) : option (list pystr) :=
  match tag_name body with
  | [] => Some ([] :: stack)
  | c :: closed =>
      if (c =? 47)%N then
        match strip closed with
        | [] => match stack with
                | [] => None
                | _ :: rest => Some rest
                end
        | _ => pop_style (normalize closed) stack
        end
      else Some (normalize (c :: closed) :: stack)
  end.

Inductive scan : Type :=
| Plain (backslashes : nat)
| Opened (escaped : bool)
| Inside (escaped : bool) (body : pystr) (backslashes : nat).

Fixpoint markup_scan (s : pystr) (state : scan) (stack : list pystr) : bool :=
  match s with
  | [] => true
  | c :: rest =>
      match state with
      | Plain b =>
          if (c =? 91)%N then markup_scan rest (Opened (Nat.odd b)) stack
          else if (c =? 92)%N then markup_scan rest (Plain (S b)) stack
          else markup_scan rest (Plain 0) stack
      | Opened escaped =>
          if tag_start c then markup_scan rest (Inside escaped [c] 0) stack
          else if (c =? 91)%N then markup_scan rest (Opened false) stack
          else if (c =? 92)%N then markup_scan rest (Plain 1) stack
          else markup_scan rest (Plain 0) stack
      | Inside escaped body b =>
          if (c =? 93)%N then
            if escaped then markup_scan rest (Plain 0) stack
            else
              match apply_tag (rev body) stack with
              | Some stack' => markup_scan rest (Plain 0) stack'
              | None => false
              end
          else if (c =? 91)%N then markup_scan rest (Opened (Nat.odd b)) stack
          else if (c =? 92)%N then
            markup_scan rest (Inside escaped (c :: body) (S b)) stack
          else markup_scan rest (Inside escaped (c :: body) 0) stack
      end
  end.

Definition rich_markup (s : pystr) : bool := markup_scan s (Plain 0) [].

Definition rich_print (s : pystr) : result unit :=
  if rich_markup s then Ok tt else Raise MarkupError.

Definition sample_env : env :=
  mkEnv (paged_get sample_listing)
        sample_post
        (fun n => Ok Proceed)
        (Ok ModeAuto)
        (fun n => text "2026-01-02T03:04:05")
        (fun v => text "[...]")
        (fun e => text "error")
        rich_print.

(** The same, with a user who answers "n", then "q". *)
Definition quitting_env : env :=
  mkEnv (paged_get sample_listing)
        sample_post
        (fun n => match n with O => Ok Skip | S _ => Ok Quit end)
        (Ok ModeManual)
        (clock sample_env) (repr sample_env) (exn_str sample_env) rich_print.

(** The same, with a user who answers "n" to every prompt. *)
Definition skipping_env : env :=
  mkEnv (paged_get sample_listing)
        sample_post
        (fun n => Ok Skip)
        (Ok ModeManual)
        (clock sample_env) (repr sample_env) (exn_str sample_env) rich_print.

(** The same, with no server listening. *)
Definition offline_env : env :=
  mkEnv (fun _ _ _ => Failed ConnectionError)
        (fun _ _ => Failed ConnectionError)
        (ask_choice sample_env)
        (Ok ModeAuto)
        (clock sample_env) (repr sample_env) (exn_str sample_env) rich_print.

(** The same, with a server that serves one page and then answers 503. *)
Definition flaky_get (n : nat) (limit offset : Z) : reply :=
  match n with
  | O => paged_get sample_listing n limit offset
  | S _ => Replied (mkResponse 503 (text "unavailable") None)
  end.

Definition flaky_env : env :=
  mkEnv flaky_get
        sample_post
        (ask_choice sample_env)
        (Ok ModeAuto)
        (clock sample_env) (repr sample_env) (exn_str sample_env) rich_print.

(** What the parser makes of a file, for a file it accepts. *)
Definition parsed (data : json) : json :=
  match parse_data sample_env (clock sample_env 0) data with
  | Ok (Some chat) => chat
  | _ => JNull
  end.

Definition chat_a : json :=
  Eval vm_compute in parsed (sample_file "a" (JStr (text "hello")) sample_created).
Definition chat_b : json :=
  Eval vm_compute in parsed (sample_file "b" (JStr (text " hi ")) sample_created).
Definition chat_c : json :=
  Eval vm_compute in parsed (sample_file "c" (JStr (text "bye")) sample_created).

Definition sample_chats : list json := [chat_a; chat_b; chat_c].

(** The identifiers of a remote listing that holds [chat_b] only. *)
Definition sample_ids : list json := [JStr (text "chatwise-b")].

(** A conversation file with one message and no [createdAt]:
    [{"id":"abc","title":"T","messages":[{"role":"user","content":"hello"}]}]. *)
Definition file_without_created_at : json :=
  sample_file "abc" (JStr (text "hello")) [].

(** A conversation file whose message has a number for content:
    [{"id":"abc","title":"T","messages":[{"role":"user","content":5}]}]. *)
Definition file_with_number_content : json :=
  sample_file "abc" (JInt 5) [].

(** A listing of two remote threads, the first without an [id]. *)
Definition listing_with_missing_id : list json :=
  [JObj [(k_title, JStr (text "old"))]; JObj [(k_id, JStr (text "chatwise-b"))]].





(* ===================================================================== *)
(** ** Further sample inputs *)

(** A server whose every page announces another one. *)
Definition endless_env : env :=
  mkEnv (fun _ _ _ =>
           Replied (mkResponse 200 []
                      (Some (JObj [(k_threads, JArr []);
                                   (k_pagination, JObj [(k_has_more, JBool true)])]))))
        sample_post
        (ask_choice sample_env)
        (Ok ModeAuto)
        (clock sample_env) (repr sample_env) (exn_str sample_env) rich_print.

(** A server that answers the listing with [{"threads": [{"id": "chatwise-b"}]}]. *)
Definition bare_env : env :=
  mkEnv (fun _ _ _ =>
           Replied (mkResponse 200 []
                      (Some (JObj [(k_threads,
                                    JArr [JObj [(k_id, JStr (text "chatwise-b"))]])]))))
        sample_post
        (ask_choice sample_env)
        (Ok ModeAuto)
        (clock sample_env) (repr sample_env) (exn_str sample_env) rich_print.

(** Three chat files: one with a message, one that is not JSON, one whose
    only message is blank. *)
Definition sample_files : list (pystr * result json) :=
  [(text "chat-1.json", Ok (sample_file "a" (JStr (text "hello")) sample_created));
   (text "chat-2.json", Raise JSONDecodeError);
   (text "chat-3.json", Ok (sample_file "c" (JStr (text "  ")) []))].

(** [--auto] on a directory with the marker file and [sample_files]. *)
Definition sample_invocation : invocation :=
  on_directory (mkDirectory true sample_files) true false.
(* ===================================================================== *)
(** * Properties *)

(** ** The two drivers *)

Lemma bind_lift {A B} (r : result A) (k : A -> M B) (w : world) :
  bind (lift r) k w = match r with Ok a => k a w | Raise e => (w, Raise e) end.
Proof. unfold bind, lift. destruct r; reflexivity. Qed.

Lemma import_to_nowledge_world (E : env) (chat : json) (w w1 : world) r :
  import_to_nowledge E chat w = (w1, r) ->
  w1 = mkWorld (console w) (gets w) (posts w ++ [chat]) (asked w).
Proof. unfold import_to_nowledge. cbn. intros [= <- _]. reflexivity. Qed.

Ltac auto_stopped Hrun :=
  injection Hrun as <- <- <-; exists []; rewrite app_nil_r;
  split; [reflexivity|]; split; [intros ? []|intros ? [=]].

Lemma auto_loop_spec (E : env) (ids : list json) (chats : list json) :
  forall (d : option pystr) (c : auto_counts) (w w' : world) (d' : option pystr)
         (r : result auto_counts),
    auto_loop E ids chats d c w = (w', d', r) ->
    exists sent,
      posts w' = posts w ++ sent
      /\ (forall body, In body sent -> In body chats /\ is_duplicate ids body = false)
      /\ (forall c', r = Ok c' ->
            auto_total c' = auto_total c + length chats
            /\ duplicate_count c' = duplicate_count c + count_duplicates ids chats
            /\ success_count c' + fail_count c'
               = success_count c + fail_count c + length sent
            /\ length (errors c') + fail_count c = length (errors c) + fail_count c')%nat.
Proof.
  induction chats as [|chat rest IH]; intros d c w w' d' r Hrun.
  - injection Hrun as <- <- <-. exists []. rewrite app_nil_r.
    split; [reflexivity|]. split; [intros ? []|].
    intros c' [= <-]. unfold auto_total, count_duplicates. simpl. lia.
  - cbn [auto_loop] in Hrun.
    unfold count_duplicates. cbn [filter]. unfold is_duplicate at 2.
    destruct (py_item chat k_thread_id) as [tid|e] eqn:Htid; cbn [rbind] in Hrun;
      [|auto_stopped Hrun].
    destruct (set_contains ids tid) as [[|]|e] eqn:Hdup; [| |auto_stopped Hrun].
    + destruct (IH _ _ _ _ _ _ Hrun) as (sent & Hp & Hs & Hc).
      exists sent. split; [exact Hp|]. split.
      * intros b Hb. destruct (Hs b Hb). split; [right|]; assumption.
      * intros c' H'. specialize (Hc c' H'). unfold auto_total, count_duplicates in *.
        cbn [success_count fail_count duplicate_count errors length] in *. lia.
    + destruct (py_item chat k_title) as [title|e] eqn:Htitle; cbn [rbind] in Hrun;
        [|auto_stopped Hrun].
      destruct (py_slice_to 30 title) as [short|e]; [|auto_stopped Hrun].
      destruct (import_to_nowledge E chat w) as [w1 r1] eqn:Himp.
      apply import_to_nowledge_world in Himp.
      assert (Hw1 : posts w1 = posts w ++ [chat]) by (subst w1; reflexivity).
      clear Himp.
      assert (Hnd : is_duplicate ids chat = false).
      { unfold is_duplicate. rewrite Htid, Hdup. reflexivity. }
      destruct r1 as [[ok msg]|e].
      2:{ injection Hrun as <- <- <-. exists [chat]. split; [exact Hw1|]. split.
          - intros b [<-|[]]. split; [left; reflexivity|exact Hnd].
          - intros ? [=]. }
      cbn [fst snd] in Hrun.
      assert (Hrest : exists d1 c1,
                 auto_loop E ids rest d1 c1 w1 = (w', d', r)
                 /\ (auto_total c1 = S (auto_total c)
                     /\ duplicate_count c1 = duplicate_count c
                     /\ success_count c1 + fail_count c1 = S (success_count c + fail_count c)
                     /\ length (errors c1) + fail_count c = length (errors c) + fail_count c1)%nat).
      { destruct ok.
        - eexists _, _; split; [exact Hrun|]. unfold auto_total; cbn. lia.
        - eexists _, _; split; [exact Hrun|].
          unfold auto_total; cbn. rewrite length_app. cbn. lia. }
      destruct Hrest as (d1 & c1 & Hrun1 & Hc1).
      destruct (IH _ _ _ _ _ _ Hrun1) as (sent & Hp & Hs & Hc).
      exists (chat :: sent). split.
      { rewrite Hp, Hw1, <- app_assoc. reflexivity. }
      split.
      { intros b [<-|Hb]; [split; [left; reflexivity|exact Hnd]|].
        destruct (Hs b Hb). split; [right|]; assumption. }
      intros c' H'. specialize (Hc c' H'). unfold count_duplicates in *.
      cbn [length] in *. lia.
Qed.

(** A run of [auto_mode] is a run of its loop; when it returns, so did the
    loop, with the same counters. *)
Lemma auto_mode_loop (E : env) (chats ids : list json) (w w' : world)
  (r : result auto_counts) :
  auto_mode E chats ids w = (w', r) ->
  exists d r0,
    auto_loop E ids chats None (mkAuto 0 0 0 []) w = (w', d, r0)
    /\ forall c, r = Ok c -> r0 = Ok c.
Proof.
  unfold auto_mode.
  destruct (auto_loop E ids chats None (mkAuto 0 0 0 []) w) as [[w1 d] r0].
  intros [= <- <-]. exists d, r0. split; [reflexivity|]. intros c.
  unfold progress_exit.
  destruct d as [d|]; cbn [rbind];
    [destruct (show E (progress_column ++ d)) as [[]|]; cbn [rbind]; [|discriminate]|];
    (destruct r0 as [c0|]; cbn [rbind]; [|discriminate];
     destruct (show_errors E c0) as [[]|]; cbn [rbind]; [|discriminate];
     intros [= ->]; reflexivity).
Qed.

Lemma show_lines_all (E : env) (lines : list pystr) :
  Forall (fun line => show E line = Ok tt) lines -> show_lines E lines = Ok tt.
Proof.
  induction 1 as [|line rest Hline _ IH]; [reflexivity|].
  cbn [show_lines]. rewrite Hline. exact IH.
Qed.

Lemma In_firstn {A} (n : nat) (l : list A) (x : A) : In x (firstn n l) -> In x l.
Proof.
  intros Hin. rewrite <- (firstn_skipn n l). apply in_or_app. left. exact Hin.
Qed.

Lemma show_errors_all (E : env) (c : auto_counts) :
  errors_shown E (errors c) ->
  show_errors E c = Ok tt.
Proof.
  unfold errors_shown. intros Hall. unfold show_errors.
  destruct (0 <? fail_count c)%nat; [|reflexivity].
  apply show_lines_all. rewrite Forall_forall in *. intros line Hin.
  apply in_map_iff in Hin. destruct Hin as (te & <- & Hte).
  apply Hall. exact (In_firstn _ _ _ Hte).
Qed.

Ltac no_post_manual :=
  match goal with
  | H : (_, Raise _) = (_, _) |- _ =>
      injection H as <- <-; exists []; rewrite app_nil_r;
      split; [reflexivity|]; split; [intros ? []|]; split; [lia|intros ? [=]]
  end.

Lemma manual_loop_spec (E : env) (ids : list json) (chats : list json) :
  forall (total i : nat) (c : manual_counts) (w w' : world) (r : result manual_counts),
    manual_loop E ids total i chats c w = (w', r) ->
    exists sent,
      posts w' = posts w ++ sent
      /\ (forall body, In body sent -> In body chats /\ is_duplicate ids body = false)
      /\ (asked w <= asked w')%nat
      /\ (forall c', r = Ok c' ->
            exists reached later,
              chats = reached ++ later
              /\ duplicates c' = (duplicates c + count_duplicates ids reached)%nat
              /\ (manual_total c' <= manual_total c + length reached)%nat
              /\ (imported c' <= imported c + length sent)%nat
              /\ ((later = [] /\ no_quit E (asked w) (asked w'))
                  \/ (later <> [] /\ (asked w < asked w')%nat
                      /\ ask_choice E (pred (asked w')) = Ok Quit))).
Proof.
  induction chats as [|chat rest IH]; intros total i c w w' r Hrun.
  - injection Hrun as <- <-. exists []. rewrite app_nil_r.
    split; [reflexivity|]. split; [intros ? []|]. split; [lia|].
    intros c' [= <-]. exists [], []. unfold manual_total, count_duplicates, no_quit.
    simpl. repeat split; try lia. left. split; [reflexivity|]. intros k Hk. lia.
  - cbn [manual_loop] in Hrun. rewrite bind_lift in Hrun.
    destruct (py_item chat k_thread_id) as [tid|e] eqn:Htid; [|no_post_manual].
    rewrite bind_lift in Hrun.
    destruct (set_contains ids tid) as [[|]|e] eqn:Hdup; [| |no_post_manual].
    + (* duplicate *)
      assert (Hd : is_duplicate ids chat = true).
      { unfold is_duplicate. rewrite Htid, Hdup. reflexivity. }
      rewrite bind_lift in Hrun.
      destruct (py_item chat k_title) as [title|e]; [|no_post_manual].
      rewrite bind_lift in Hrun.
      destruct (show E (duplicate_line E i total title)) as [[]|e]; [|no_post_manual].
      destruct (IH _ _ _ _ _ _ Hrun) as (sent & Hp & Hs & Ha & Hc).
      exists sent. split; [exact Hp|]. split.
      { intros b Hb. destruct (Hs b Hb). split; [right|]; assumption. }
      split; [exact Ha|].
      intros c' H'. destruct (Hc c' H') as (reached & later & -> & Hdc & Ht & Hi & Hq).
      exists (chat :: reached), later. split; [reflexivity|].
      unfold manual_total, count_duplicates in *. cbn [filter]. rewrite Hd.
      cbn [imported skipped duplicates length] in *.
      repeat split; try lia. exact Hq.
    + (* not a duplicate *)
      assert (Hnd : is_duplicate ids chat = false).
      { unfold is_duplicate. rewrite Htid, Hdup. reflexivity. }
      rewrite bind_lift in Hrun.
      destruct (display_chat_summary E chat) as [[]|e]; [|no_post_manual].
      unfold bind at 1 in Hrun. unfold prompt_choice at 1 in Hrun.
      destruct (ask_choice E (asked w)) as [ch|e] eqn:Hask.
      2:{ injection Hrun as <- <-. exists []. rewrite app_nil_r.
          split; [reflexivity|]. split; [intros ? []|]. split; [cbn; lia|intros ? [=]]. }
      set (wp := mkWorld (console w) (gets w) (posts w) (S (asked w))) in Hrun.
      destruct ch.
      * (* y *)
        unfold bind at 1 in Hrun.
        destruct (import_to_nowledge E chat wp) as [w1 r1] eqn:Himp.
        apply import_to_nowledge_world in Himp.
        assert (Hw1 : posts w1 = posts w ++ [chat] /\ asked w1 = S (asked w))
          by (subst w1; split; reflexivity).
        clear Himp. destruct Hw1 as [Hw1 Ha1].
        destruct r1 as [[ok msg]|e].
        2:{ injection Hrun as <- <-. exists [chat]. split; [exact Hw1|]. split.
            - intros b [<-|[]]. split; [left; reflexivity|exact Hnd].
            - split; [lia|intros ? [=]]. }
        rewrite bind_lift in Hrun.
        destruct (show E (outcome_line (ok, msg))) as [[]|e].
        2:{ injection Hrun as <- <-. exists [chat]. split; [exact Hw1|]. split.
            - intros b [<-|[]]. split; [left; reflexivity|exact Hnd].
            - split; [lia|intros ? [=]]. }
        cbn [fst] in Hrun.
        assert (Hrest : exists c1,
                   manual_loop E ids total (S i) rest c1 w1 = (w', r)
                   /\ (manual_total c1 <= S (manual_total c)
                       /\ duplicates c1 = duplicates c
                       /\ imported c1 <= S (imported c))%nat).
        { destruct ok; eexists; (split; [exact Hrun|]); unfold manual_total; cbn; lia. }
        destruct Hrest as (c1 & Hrun1 & Hc1).
        destruct (IH _ _ _ _ _ _ Hrun1) as (sent & Hp & Hs & Ha & Hc).
        exists (chat :: sent). split.
        { rewrite Hp, Hw1, <- app_assoc. reflexivity. }
        split.
        { intros b [<-|Hb]; [split; [left; reflexivity|exact Hnd]|].
          destruct (Hs b Hb). split; [right|]; assumption. }
        split; [lia|].
        intros c' H'. destruct (Hc c' H') as (reached & later & -> & Hdc & Ht & Hi & Hq).
        exists (chat :: reached), later. split; [reflexivity|].
        unfold count_duplicates in *. cbn [filter]. rewrite Hnd.
        cbn [length] in *. split; [lia|]. split; [lia|]. split; [lia|].
        destruct Hq as [[-> Hq]|(Hl & Hlt & Hq)].
        -- left. split; [reflexivity|]. intros k Hk.
           destruct (Nat.eq_dec k (asked w)) as [->|Hne].
           ++ rewrite Hask. discriminate.
           ++ apply Hq. lia.
        -- right. split; [exact Hl|]. split; [lia|exact Hq].
      * (* n *)
        destruct (IH _ _ _ _ _ _ Hrun) as (sent & Hp & Hs & Ha & Hc).
        subst wp. cbn [asked posts] in *.
        exists sent. split; [exact Hp|]. split.
        { intros b Hb. destruct (Hs b Hb). split; [right|]; assumption. }
        split; [lia|].
        intros c' H'. destruct (Hc c' H') as (reached & later & -> & Hdc & Ht & Hi & Hq).
        exists (chat :: reached), later. split; [reflexivity|].
        unfold manual_total, count_duplicates in *. cbn [filter]. rewrite Hnd.
        cbn [imported skipped duplicates length asked] in *.
        split; [lia|]. split; [lia|]. split; [lia|].
        destruct Hq as [[-> Hq]|(Hl & Hlt & Hq)].
        -- left. split; [reflexivity|]. intros k Hk.
           destruct (Nat.eq_dec k (asked w)) as [->|Hne].
           ++ rewrite Hask. discriminate.
           ++ apply Hq. lia.
        -- right. split; [exact Hl|]. split; [lia|exact Hq].
      * (* q *)
        injection Hrun as <- <-. exists []. rewrite app_nil_r.
        split; [reflexivity|]. split; [intros ? []|]. split; [cbn; lia|].
        intros c' [= <-]. exists [], (chat :: rest).
        unfold manual_total, count_duplicates. cbn.
        repeat split; try lia. right. repeat split; [discriminate|lia|exact Hask].
Qed.

(** *** The drivers return *)

Lemma import_attempt_exception (E : env) (r : response) (e : exn) :
  import_attempt E (Replied r) = Raise e -> is_exception e = true.
Proof.
  unfold import_attempt.
  destruct (status_code r =? 200); [|discriminate].
  destruct (resp_json r) as [v|]; cbn; [|intros [= <-]; reflexivity].
  destruct v; cbn; try (intros [= <-]; reflexivity).
  destruct (lookup k_thread fields) as [[]|]; cbn;
    try discriminate; intros [= <-]; reflexivity.
Qed.

Lemma import_to_nowledge_returns (E : env) (chat : json) (w : world) :
  interrupted (http_post E (length (posts w)) chat) = false ->
  exists w' r, import_to_nowledge E chat w = (w', Ok r) /\ may_answer E r.
Proof.
  intros Hint. unfold import_to_nowledge, requests_post, may_answer.
  destruct (import_handle E (import_attempt E (http_post E (length (posts w)) chat)))
    as [v|e] eqn:Hh.
  - eexists _, v. split; [reflexivity|]. eexists _, _. exact Hh.
  - exfalso. revert Hh Hint.
    destruct (http_post E (length (posts w)) chat) as [r|e0].
    + destruct (import_attempt E (Replied r)) as [v|e1] eqn:Ha; [discriminate|].
      apply import_attempt_exception in Ha.
      destruct e1; try discriminate Ha; discriminate.
    + cbn. destruct e0; discriminate.
Qed.

Lemma str_is_hashable (ids : list json) (s : pystr) :
  exists b, set_contains ids (JStr s) = Ok b.
Proof. unfold set_contains. cbn. eexists. reflexivity. Qed.

Lemma progress_exit_shown {A} (E : env) (d : option pystr) (r : result A) :
  description_shown E d -> progress_exit E d r = r.
Proof.
  destruct d as [d|]; [|reflexivity]. unfold description_shown, progress_exit.
  intros ->. reflexivity.
Qed.

Lemma auto_loop_returns (E : env) (ids : list json) (chats : list json) :
  Forall batch_ready chats ->
  Forall (batch_shown E) chats ->
  posts_uninterrupted E ->
  forall d c w,
    description_shown E d -> errors_shown E (errors c) ->
    exists w' d' c',
      auto_loop E ids chats d c w = (w', d', Ok c')
      /\ description_shown E d' /\ errors_shown E (errors c').
Proof.
  intros Hready Hshown Hposts. revert Hshown.
  induction Hready as [|chat rest Hchat _ IH]; intros Hshown d c w Hd He.
  - eexists _, _, _. split; [reflexivity|]. split; assumption.
  - inversion Hshown as [|? ? Hchat_shown Hrest]; subst.
    destruct Hchat as (tid & title & Htid & Htitle).
    destruct (Hchat_shown title Htitle) as [Hdesc Herr].
    cbn [auto_loop]. rewrite Htid. cbn [rbind].
    destruct (str_is_hashable ids tid) as [dup ->].
    destruct dup; [apply IH; assumption|].
    rewrite Htitle. cbn [rbind py_slice_to py_str].
    destruct (import_to_nowledge_returns E chat w (Hposts _ _))
      as (w1 & [ok msg] & -> & Hanswer).
    cbn [fst snd]. destruct ok.
    + apply IH; assumption.
    + apply IH; [assumption|exact Hdesc|].
      cbn [errors]. apply Forall_app. split; [exact He|].
      constructor; [|constructor]. exact (Herr _ Hanswer eq_refl).
Qed.

Lemma manual_loop_returns (E : env) (ids : list json) (chats : list json) :
  Forall (interactive_ready E) chats ->
  prompts_answered E ->
  posts_uninterrupted E ->
  outcomes_shown E ->
  forall total i c w,
    duplicates_shown E ids total i chats ->
    exists w' c', manual_loop E ids total i chats c w = (w', Ok c').
Proof.
  intros Hready Hask Hposts Hout.
  induction Hready as [|chat rest Hchat _ IH]; intros total i c w Hdups.
  - eexists _, _. reflexivity.
  - assert (Hrest : duplicates_shown E ids total (S i) rest).
    { intros k x title Hk Hx Ht. replace (S i + k)%nat with (i + S k)%nat by lia.
      exact (Hdups (S k) x title Hk Hx Ht). }
    destruct Hchat as ((tid & Htid) & (title & Htitle) & Hshow).
    cbn [manual_loop]. rewrite bind_lift, Htid, bind_lift.
    destruct (str_is_hashable ids tid) as [dup Hdup]. rewrite Hdup.
    destruct dup.
    + rewrite bind_lift, Htitle, bind_lift.
      assert (Hline : show E (duplicate_line E i total title) = Ok tt).
      { replace i with (i + 0)%nat by lia. apply (Hdups 0%nat chat title eq_refl).
        - unfold is_duplicate. rewrite Htid, Hdup. reflexivity.
        - exact Htitle. }
      rewrite Hline. apply IH. exact Hrest.
    + rewrite bind_lift, Hshow. unfold bind at 1. unfold prompt_choice at 1.
      destruct (Hask (asked w)) as [ch ->].
      destruct ch; [|apply IH; exact Hrest|eexists _, _; reflexivity].
      unfold bind at 1.
      match goal with
      | |- context [import_to_nowledge E chat ?w0] =>
          destruct (import_to_nowledge_returns E chat w0 (Hposts _ _))
            as (w1 & [ok msg] & -> & Hanswer)
      end.
      rewrite bind_lift. rewrite (Hout _ Hanswer).
      cbn [fst]. destruct ok; apply IH; exact Hrest.
Qed.

(** *** The claims about the drivers *)

(** C1. In the batch driver and in the interactive driver, a record whose
    identifier is in the remote id set is never sent to the create
    operation: whatever the server, the user and the console do, and
    whether the run completes or is cut short by an exception, the requests
    a run adds to the log hold no such record.  The record is counted as a
    duplicate instead.  In the batch driver the pass of the loop that meets
    it adds one to the duplicate counter, sends nothing, asks nothing,
    leaves the progress description alone and goes on with the next record.
    In the interactive driver the pass prints the record's place and title
    first: when the console displays that line the pass adds one to the
    duplicate counter, sends nothing, asks nothing and goes on with the
    next record; when it raises, as rich does with [MarkupError] for a
    title that holds a closing tag it cannot match, the run ends there with
    that exception, and still nothing was sent.  So
    a batch run that completes reports as many duplicates as there are such
    records, and an interactive run reports as many as there are among the
    records it reached, which are all of them unless the user quit. *)
Theorem duplicates_are_never_created
  (E : env) (chats existing_ids : list json) (w : world) :
  (forall w' r,
      auto_mode E chats existing_ids w = (w', r) ->
      exists sent,
        posts w' = posts w ++ sent
        /\ (forall chat, In chat chats ->
              is_duplicate existing_ids chat = true -> ~ In chat sent)
        /\ (forall c, r = Ok c ->
              duplicate_count c = count_duplicates existing_ids chats))
  /\ (forall w' r,
      manual_mode E chats existing_ids w = (w', r) ->
      exists sent,
        posts w' = posts w ++ sent
        /\ (forall chat, In chat chats ->
              is_duplicate existing_ids chat = true -> ~ In chat sent)
        /\ (forall c, r = Ok c ->
              exists reached later,
                chats = reached ++ later
                /\ duplicates c = count_duplicates existing_ids reached
                /\ (no_quit E (asked w) (asked w') -> later = [])))
  /\ (forall chat rest d c w0,
        is_duplicate existing_ids chat = true ->
        auto_loop E existing_ids (chat :: rest) d c w0
        = auto_loop E existing_ids rest d
            (mkAuto (success_count c) (fail_count c) (S (duplicate_count c)) (errors c))
            w0)
  /\ (forall total i chat rest c w0 title,
        is_duplicate existing_ids chat = true ->
        py_item chat k_title = Ok title ->
        manual_loop E existing_ids total i (chat :: rest) c w0
        = match show E (duplicate_line E i total title) with
          | Ok _ =>
              manual_loop E existing_ids total (S i) rest
                (mkManual (imported c) (skipped c) (S (duplicates c))) w0
          | Raise e => (w0, Raise e)
          end).
Proof.
  split; [|split; [|split]].
  - intros w' r Hrun.
    destruct (auto_mode_loop E chats existing_ids w w' r Hrun) as (d & r0 & Hloop & Hr0).
    destruct (auto_loop_spec E existing_ids chats _ _ _ _ _ _ Hloop)
      as (sent & Hp & Hs & Hc).
    exists sent. split; [exact Hp|]. split.
    + intros chat _ Hdup Hin. destruct (Hs chat Hin) as [_ Hnd]. congruence.
    + intros c Hr. destruct (Hc c (Hr0 c Hr)) as (_ & Hd & _). exact Hd.
  - intros w' r Hrun.
    destruct (manual_loop_spec E existing_ids chats _ _ _ _ _ _ Hrun)
      as (sent & Hp & Hs & Ha & Hc).
    exists sent. split; [exact Hp|]. split.
    + intros chat _ Hdup Hin. destruct (Hs chat Hin) as [_ Hnd]. congruence.
    + intros c Hr. destruct (Hc c Hr) as (reached & later & Hsplit & Hd & _ & _ & Hq).
      exists reached, later. split; [exact Hsplit|]. split; [exact Hd|].
      intros Hnq. destruct Hq as [[Hl _]|(_ & Hlt & Hquit)]; [exact Hl|].
      exfalso. apply (Hnq (pred (asked w'))); [lia|exact Hquit].
  - intros chat rest d c w0 Hdup. unfold is_duplicate in Hdup.
    cbn [auto_loop].
    destruct (py_item chat k_thread_id) as [tid|]; [|discriminate]. cbn [rbind].
    destruct (set_contains existing_ids tid) as [[|]|]; try discriminate. reflexivity.
  - intros total i chat rest c w0 title Hdup Htitle. unfold is_duplicate in Hdup.
    cbn [manual_loop]. rewrite bind_lift.
    destruct (py_item chat k_thread_id) as [tid|]; [|discriminate].
    rewrite bind_lift.
    destruct (set_contains existing_ids tid) as [[|]|]; try discriminate.
    rewrite bind_lift, Htitle, bind_lift.
    destruct (show E (duplicate_line E i total title)) as [[]|]; reflexivity.
Qed.

(** C2. A run of the batch driver that is not interrupted ends with
    success + duplicate + failure equal to the number of input records,
    and one recorded error per failure: each record the loop passes adds
    one to exactly one of the three counters.  A run is not interrupted when
    every record has a string identifier and a string title, no create
    call is interrupted, and the console renders what the driver shows of
    the records (the description of the progress display, the error lines
    of the report); then the driver does return its counters. *)
Theorem auto_mode_counts_add_up
  (E : env) (chats existing_ids : list json) (w : world) :
  (forall w' c,
      auto_mode E chats existing_ids w = (w', Ok c) ->
      (success_count c + duplicate_count c + fail_count c = length chats
       /\ length (errors c) = fail_count c)%nat)
  /\ (forall chat rest d0 c0 w0 w' d c,
        auto_loop E existing_ids (chat :: rest) d0 c0 w0 = (w', d, Ok c) ->
        exists d1 c1 w1,
          one_more c0 c1
          /\ auto_loop E existing_ids rest d1 c1 w1 = (w', d, Ok c))
  /\ (Forall batch_ready chats ->
      Forall (batch_shown E) chats ->
      posts_uninterrupted E ->
      exists w' c, auto_mode E chats existing_ids w = (w', Ok c)).
Proof.
  split; [|split].
  - intros w' c Hrun.
    destruct (auto_mode_loop E chats existing_ids w w' _ Hrun) as (d & r0 & Hloop & Hr0).
    rewrite (Hr0 c eq_refl) in Hloop.
    destruct (auto_loop_spec E existing_ids chats _ _ _ _ _ _ Hloop)
      as (sent & _ & _ & Hc).
    destruct (Hc c eq_refl) as (Ht & _ & _ & He).
    unfold auto_total in Ht. cbn in Ht, He. lia.
  - intros chat rest d0 c0 w0 w' d c Hrun. cbn [auto_loop] in Hrun.
    destruct (py_item chat k_thread_id) as [tid|]; [|discriminate]. cbn [rbind] in Hrun.
    destruct (set_contains existing_ids tid) as [[|]|]; [| |discriminate].
    + eexists _, _, _. split; [|exact Hrun]. right; right. cbn. repeat split.
    + destruct (py_item chat k_title) as [title|]; [|discriminate]. cbn [rbind] in Hrun.
      destruct (py_slice_to 30 title); [|discriminate].
      destruct (import_to_nowledge E chat w0) as [w1 [[[|] msg]|]];
        [| |discriminate]; cbn [fst snd] in Hrun.
      * eexists _, _, _. split; [|exact Hrun]. left. cbn. repeat split.
      * eexists _, _, _. split; [|exact Hrun]. right; left. cbn. repeat split.
  - intros Hready Hshown Hposts.
    destruct (auto_loop_returns E existing_ids chats Hready Hshown Hposts
                None (mkAuto 0 0 0 []) w I (Forall_nil _))
      as (w' & d' & c' & Hloop & Hd & He).
    exists w', c'. unfold auto_mode. rewrite Hloop.
    rewrite (progress_exit_shown E d' _ Hd). cbn [rbind].
    rewrite (show_errors_all E c' He). reflexivity.
Qed.

(** C3. A run of the interactive driver that returns ends with
    imported + skipped + duplicates at most the number of input records,
    and with equality only if no prompt of the run was answered "q".  The
    driver does return when every record has a string identifier, a title
    and a summary that is filled and printed, neither a prompt nor a create
    call is interrupted, and the console renders the lines the driver
    prints for the duplicates and for the outcomes of the create calls. *)
Theorem manual_mode_counts_bounded
  (E : env) (chats existing_ids : list json) (w : world) :
  (forall w' c,
      manual_mode E chats existing_ids w = (w', Ok c) ->
      (imported c + skipped c + duplicates c <= length chats)%nat
      /\ ((imported c + skipped c + duplicates c = length chats)%nat ->
          no_quit E (asked w) (asked w')))
  /\ (Forall (interactive_ready E) chats ->
      duplicates_shown E existing_ids (length chats) 1 chats ->
      outcomes_shown E ->
      prompts_answered E ->
      posts_uninterrupted E ->
      exists w' c, manual_mode E chats existing_ids w = (w', Ok c)).
Proof.
  split.
  - intros w' c Hrun.
    destruct (manual_loop_spec E existing_ids chats _ _ _ _ _ _ Hrun)
      as (sent & _ & _ & _ & Hc).
    destruct (Hc c eq_refl) as (reached & later & Hsplit & _ & Ht & _ & Hq).
    unfold manual_total in Ht. cbn in Ht.
    assert (Hlen : length chats = (length reached + length later)%nat)
      by (rewrite Hsplit; apply length_app).
    split; [lia|].
    intros Heq. destruct Hq as [[_ Hq]|(Hl & _ & _)]; [exact Hq|].
    destruct later; [congruence|]. cbn in Hlen. lia.
  - intros Hready Hdups Hout Hask Hposts.
    apply manual_loop_returns; assumption.
Qed.

(** *** The claims at the sample inputs *)

Lemma sample_chats_batch_ready : Forall batch_ready sample_chats.
Proof. repeat constructor; eexists _, _; split; reflexivity. Qed.

(** What the sample server can answer: the thread it created, or its error
    page. *)
Lemma sample_post_answers (E : env) (r : bool * pystr) :
  http_post E = sample_post ->
  may_answer E r ->
  r = (true, msg_created ++ text "srv-1")
  \/ r = (false, msg_api_error ++ text "500" ++ colon ++ text "boom").
Proof.
  intros Hpost (n & body & Hr). rewrite Hpost in Hr.
  destruct n; cbn in Hr; injection Hr as <-; [left|right]; reflexivity.
Qed.

Lemma sample_outcomes_shown (E : env) :
  http_post E = sample_post -> render E = rich_print -> outcomes_shown E.
Proof.
  intros Hpost Hrender r Hr. unfold show. rewrite Hrender.
  destruct (sample_post_answers E r Hpost Hr) as [-> | ->]; reflexivity.
Qed.

Lemma sample_title_shown : batch_title_shown sample_env (text "T").
Proof.
  split; [reflexivity|]. intros r Hr Hfail.
  destruct (sample_post_answers sample_env r eq_refl Hr) as [-> | ->];
    [discriminate Hfail|reflexivity].
Qed.

Lemma sample_chats_batch_shown : Forall (batch_shown sample_env) sample_chats.
Proof.
  unfold sample_chats.
  repeat (apply Forall_cons; [intros title [= <-]; exact sample_title_shown|]).
  apply Forall_nil.
Qed.

Lemma sample_chats_interactive_ready (E : env) :
  render E = rich_print -> Forall (interactive_ready E) sample_chats.
Proof.
  intros Hrender.
  repeat constructor; try (eexists; reflexivity);
    unfold display_chat_summary; cbn; unfold show; rewrite Hrender; reflexivity.
Qed.

Lemma sample_duplicates_shown (E : env) :
  render E = rich_print ->
  repr E = repr sample_env ->
  duplicates_shown E sample_ids 3 1 sample_chats.
Proof.
  intros Hrender Hrepr k chat title Hk Hdup Htitle. unfold show. rewrite Hrender.
  destruct k as [|[|[|[|k]]]]; cbn in Hk; try discriminate Hk;
    injection Hk as <-; try discriminate Hdup.
  injection Htitle as <-. reflexivity.
Qed.

Lemma sample_posts_uninterrupted : posts_uninterrupted sample_env.
Proof. intros [|n] body; reflexivity. Qed.

Lemma duplicates_are_never_created_witness :
  In chat_b sample_chats
  /\ is_duplicate sample_ids chat_b = true
  /\ ~ In chat_b (posts (fst (auto_mode sample_env sample_chats sample_ids empty_world)))
  /\ ~ In chat_b (posts (fst (manual_mode quitting_env sample_chats sample_ids empty_world)))
  /\ duplicate_count
       (match snd (auto_mode sample_env sample_chats sample_ids empty_world) with
        | Ok c => c
        | Raise _ => mkAuto 0 0 0 []
        end) = count_duplicates sample_ids sample_chats.
Proof.
  pose proof (duplicates_are_never_created sample_env sample_chats sample_ids empty_world)
    as (Hauto & _ & _ & _).
  pose proof (duplicates_are_never_created quitting_env sample_chats sample_ids empty_world)
    as (_ & Hmanual & _ & _).
  assert (Hin : In chat_b sample_chats) by (right; left; reflexivity).
  assert (Hdup : is_duplicate sample_ids chat_b = true) by reflexivity.
  split; [exact Hin|]. split; [exact Hdup|].
  destruct (Hauto _ _ (surjective_pairing _)) as (sent & Hp & Hnot & Hcount).
  destruct (Hmanual _ _ (surjective_pairing _)) as (sent' & Hp' & Hnot' & _).
  split; [rewrite Hp; exact (Hnot chat_b Hin Hdup)|].
  split; [rewrite Hp'; exact (Hnot' chat_b Hin Hdup)|].
  exact (Hcount _ eq_refl).
Defined.

Lemma auto_mode_counts_add_up_witness :
  exists w' c,
    auto_mode sample_env sample_chats sample_ids empty_world = (w', Ok c)
    /\ (success_count c + duplicate_count c + fail_count c = 3)%nat
    /\ length (errors c) = fail_count c.
Proof.
  pose proof (auto_mode_counts_add_up sample_env sample_chats sample_ids empty_world)
    as (Hsum & _ & Hreturns).
  destruct (Hreturns sample_chats_batch_ready sample_chats_batch_shown
              sample_posts_uninterrupted)
    as (w' & c & Hrun).
  exists w', c. split; [exact Hrun|]. exact (Hsum w' c Hrun).
Defined.

Lemma manual_mode_counts_bounded_witness :
  (exists w' c,
      manual_mode skipping_env sample_chats sample_ids empty_world = (w', Ok c)
      /\ (imported c + skipped c + duplicates c = 3)%nat
      /\ no_quit skipping_env 0 (asked w'))
  /\ (exists w' c,
      manual_mode quitting_env sample_chats sample_ids empty_world = (w', Ok c)
      /\ (imported c + skipped c + duplicates c <= 3)%nat
      /\ ask_choice quitting_env 1 = Ok Quit)
  /\ (exists w' c,
      manual_mode sample_env sample_chats sample_ids empty_world = (w', Ok c)).
Proof.
  split; [|split].
  - pose proof (manual_mode_counts_bounded skipping_env sample_chats sample_ids empty_world)
      as [Hbound _].
    eexists _, _. split; [reflexivity|]. split; [reflexivity|].
    exact (proj2 (Hbound _ _ eq_refl) eq_refl).
  - pose proof (manual_mode_counts_bounded quitting_env sample_chats sample_ids empty_world)
      as [Hbound _].
    eexists _, _. split; [reflexivity|].
    split; [exact (proj1 (Hbound _ _ eq_refl))|reflexivity].
  - pose proof (manual_mode_counts_bounded sample_env sample_chats sample_ids empty_world)
      as [_ Hreturns].
    apply Hreturns.
    + exact (sample_chats_interactive_ready sample_env eq_refl).
    + exact (sample_duplicates_shown sample_env eq_refl eq_refl).
    + exact (sample_outcomes_shown sample_env eq_refl eq_refl).
    + intros n. exists Proceed. reflexivity.
    + exact sample_posts_uninterrupted.
Defined.

(* ===================================================================== *)
(** ** The remote listing *)

Lemma fetch_page_reads (E : env) (all_threads : list json) (offset : Z) (w : world)
  (threads : list json) (has_more : bool) :
  is_page (http_get E (length (gets w)) limit offset) threads has_more ->
  fetch_page E all_threads offset w
  = (mkWorld (console w) (gets w ++ [(limit, offset)]) (posts w) (asked w),
     all_threads ++ threads,
     Ok (if has_more then Some (offset + limit) else None)).
Proof.
  intros (body & fields & pg & Hrp & Ht & Hp & Hm).
  unfold fetch_page, requests_get. rewrite Hrp. cbn.
  rewrite Ht, Hp. cbn. rewrite Hm. cbn. destruct has_more; reflexivity.
Qed.

Lemma page_requests_S (n : nat) :
  page_requests (S n) = page_requests n ++ [(limit, limit * Z.of_nat n)].
Proof. unfold page_requests. rewrite seq_S, map_app. reflexivity. Qed.

(** The loop after [done] pages: the requests sent so far are those for
    pages [0 .. done-1], the next offset is [limit * done]. *)
Lemma fetch_loop_pages (E : env) (w : world) (pages : list (list json)) :
  serves_pages E w pages ->
  forall fuel,
    fetch_loop E (length pages + fuel) [] 0 w
    = fetch_loop E fuel (concat pages) (limit * Z.of_nat (length pages))
        (mkWorld (console w) (gets w ++ page_requests (length pages)) (posts w) (asked w)).
Proof.
  induction pages as [|page pages IH] using rev_ind; intros Hserve fuel.
  - cbn. unfold page_requests. cbn. rewrite app_nil_r. destruct w; reflexivity.
  - rewrite length_app. cbn [length].
    replace (length pages + 1 + fuel)%nat with (length pages + S fuel)%nat by lia.
    rewrite IH.
    2:{ intros i ts Hi. apply Hserve. rewrite nth_error_app1; [exact Hi|].
        apply nth_error_Some. congruence. }
    cbn [fetch_loop].
    erewrite fetch_page_reads.
    2:{ cbn [gets]. rewrite length_app. unfold page_requests at 1.
        rewrite length_map, length_seq. apply Hserve.
        rewrite nth_error_app2, Nat.sub_diag; [reflexivity|lia]. }
    cbn [gets console posts asked].
    replace (length pages + 1)%nat with (S (length pages)) by lia.
    rewrite page_requests_S, concat_app. cbn [concat]. rewrite app_nil_r, <- app_assoc.
    replace (limit * Z.of_nat (length pages) + limit)
      with (limit * Z.of_nat (S (length pages))) by lia.
    reflexivity.
Qed.











(** The listing after [pages] were served, when the next reply is [rp]. *)
Lemma fetch_after_pages (E : env) (w : world) (pages : list (list json)) (fuel : nat) :
  serves_pages E w pages ->
  (length pages < fuel)%nat ->
  exists fuel',
    fetch_loop E fuel [] 0 w
    = match fetch_page E (concat pages) (limit * Z.of_nat (length pages))
              (mkWorld (console w) (gets w ++ page_requests (length pages))
                 (posts w) (asked w)) with
      | (w', all', Ok (Some offset')) => fetch_loop E fuel' all' offset' w'
      | (w', all', Ok None) => Some (w', all', Ok tt)
      | (w', all', Raise e) => Some (w', all', Raise e)
      end
    /\ length (gets w ++ page_requests (length pages)) = (length (gets w) + length pages)%nat.
Proof.
  intros Hserve Hfuel. exists (fuel - S (length pages))%nat.
  replace fuel with (length pages + S (fuel - S (length pages)))%nat at 1 by lia.
  rewrite fetch_loop_pages by exact Hserve. split; [reflexivity|].
  rewrite length_app. unfold page_requests. rewrite length_map, length_seq. reflexivity.
Qed.

(** C7. The listing asks for pages of 100, the n-th at offset 100 * n, and
    returns the concatenation of the pages it was served once a page says
    there is no more; it sends no other request.  In particular, served a
    page of 100 with [has_more] true and then a page of 37 with [has_more]
    false, it returns the 137 threads and has sent exactly two requests. *)
Theorem fetch_existing_threads_pages (E : env) (w : world) :
  (forall (pages : list (list json)) (last : list json) (fuel : nat),
      serves_pages E w pages ->
      is_page (http_get E (length (gets w) + length pages) 100
                 (100 * Z.of_nat (length pages))) last false ->
      (length pages < fuel)%nat ->
      fetch_existing_threads E fuel w
      = Some (mkWorld (console w)
                (gets w ++ map (fun i => (100, 100 * Z.of_nat i))
                                 (seq 0 (S (length pages))))
                (posts w) (asked w),
              Ok (concat pages ++ last)))
  /\ (forall (first second : list json) (fuel : nat),
      is_page (http_get E (length (gets w)) 100 0) first true ->
      is_page (http_get E (S (length (gets w))) 100 100) second false ->
      length first = 100%nat ->
      length second = 37%nat ->
      (2 <= fuel)%nat ->
      exists w' all_threads,
        fetch_existing_threads E fuel w = Some (w', Ok all_threads)
        /\ all_threads = first ++ second
        /\ length all_threads = 137%nat
        /\ gets w' = gets w ++ [(100, 0); (100, 100)]
        /\ posts w' = posts w).
Proof.
  assert (Hgen : forall (pages : list (list json)) (last : list json) (fuel : nat),
      serves_pages E w pages ->
      is_page (http_get E (length (gets w) + length pages) 100
                 (100 * Z.of_nat (length pages))) last false ->
      (length pages < fuel)%nat ->
      fetch_existing_threads E fuel w
      = Some (mkWorld (console w)
                (gets w ++ map (fun i => (100, 100 * Z.of_nat i))
                                 (seq 0 (S (length pages))))
                (posts w) (asked w),
              Ok (concat pages ++ last))).
  { intros pages last fuel Hserve Hlast Hfuel.
    destruct (fetch_after_pages E w pages fuel Hserve Hfuel) as (fuel' & Hloop & Hlen).
    unfold fetch_existing_threads. rewrite Hloop.
    erewrite fetch_page_reads.
    2:{ cbn [gets]. rewrite Hlen. exact Hlast. }
    cbn [gets console posts asked].
    change (map (fun i => (100, 100 * Z.of_nat i)) (seq 0 (S (length pages))))
      with (page_requests (S (length pages))).
    rewrite page_requests_S, <- app_assoc. reflexivity. }
  split; [exact Hgen|].
  intros first second fuel Hfirst Hsecond Hl1 Hl2 Hfuel.
  eexists _, _. split.
  - apply (Hgen [first] second fuel).
    + intros [|[|i]] ts; cbn; try discriminate.
      intros [= <-]. rewrite Nat.add_0_r. exact Hfirst.
    + cbn. rewrite Nat.add_1_r. exact Hsecond.
    + cbn. lia.
  - cbn. rewrite app_nil_r. split; [reflexivity|]. split; [|split; reflexivity].
    rewrite length_app. lia.
Qed.

Lemma paged_get_serves_first_page :
  is_page (http_get sample_env 0 100 0) (firstn 100 sample_listing) true.
Proof. eexists _, _, _. repeat split. Qed.

Lemma paged_get_serves_second_page :
  is_page (http_get sample_env 1 100 100) (skipn 100 sample_listing) false.
Proof. eexists _, _, _. repeat split. Qed.

Lemma fetch_existing_threads_pages_witness :
  exists w',
    fetch_existing_threads sample_env 2 empty_world = Some (w', Ok sample_listing)
    /\ length sample_listing = 137%nat
    /\ gets w' = [(100, 0); (100, 100)]
    /\ posts w' = [].
Proof.
  destruct (proj2 (fetch_existing_threads_pages sample_env empty_world)
              (firstn 100 sample_listing) (skipn 100 sample_listing) 2%nat
              paged_get_serves_first_page paged_get_serves_second_page
              eq_refl eq_refl (le_n 2))
    as (w' & all_threads & Hrun & Hall & Hlen & Hgets & Hposts).
  exists w'. rewrite firstn_skipn in Hall. subst all_threads.
  repeat split; assumption.
Defined.




(* ===================================================================== *)
(** ** The record parser *)

Lemma str_eqb_refl (a : pystr) : str_eqb a a = true.
Proof. induction a as [|x a IH]; cbn; [reflexivity|]. rewrite N.eqb_refl. exact IH. Qed.

Lemma str_eqb_eq (a b : pystr) : str_eqb a b = true <-> a = b.
Proof.
  split; [|intros <-; apply str_eqb_refl].
  revert b. induction a as [|x a IH]; intros [|y b]; cbn; try discriminate; [reflexivity|].
  intros H. apply andb_true_iff in H as [Hx Hab].
  apply N.eqb_eq in Hx. apply IH in Hab. congruence.
Qed.

Lemma lstrip_blank (s : pystr) : blank s = true -> lstrip s = [].
Proof.
  induction s as [|c s IH]; cbn; [reflexivity|].
  intros H. apply andb_true_iff in H as [Hc Hs]. rewrite Hc. exact (IH Hs).
Qed.

Lemma strip_blank (s : pystr) : blank s = true -> strip s = [].
Proof. intros H. unfold strip. rewrite (lstrip_blank s H). reflexivity. Qed.

Lemma lstrip_nil_blank (s : pystr) : lstrip s = [] -> blank s = true.
Proof.
  induction s as [|c s IH]; cbn; [reflexivity|].
  destruct (is_space c); [exact IH|discriminate].
Qed.

(** Trimming leaves nothing exactly when the string is blank. *)
Lemma strip_nil_iff (s : pystr) : strip s = [] <-> blank s = true.
Proof.
  split; [|apply strip_blank].
  unfold strip, rstrip. intros H.
  assert (Hrev : lstrip (rev (lstrip s)) = []).
  { rewrite <- (rev_involutive (lstrip (rev (lstrip s)))), H. reflexivity. }
  apply lstrip_nil_blank in Hrev. unfold blank in Hrev.
  assert (Hl : lstrip s = []).
  { destruct (lstrip s) as [|c t] eqn:Hls; [reflexivity|].
    assert (Hc : is_space c = true).
    { rewrite forallb_forall in Hrev. apply Hrev, in_rev. rewrite rev_involutive.
      left. reflexivity. }
    clear - Hls Hc. exfalso. induction s as [|d s IH]; cbn in Hls; [discriminate|].
    destruct (is_space d) eqn:Hd; [exact (IH Hls)|]. congruence. }
  apply lstrip_nil_blank, Hl.
Qed.

Lemma parse_message_blank (msg : json) :
  blank_message msg -> parse_message msg = Ok None.
Proof.
  intros (fields & -> & Hc). unfold parse_message. cbn.
  destruct (lookup k_content fields) as [[]|]; try contradiction; cbn.
  - rewrite (strip_blank s Hc). reflexivity.
  - reflexivity.
Qed.

Lemma parse_messages_blank (items : list json) :
  Forall blank_message items -> parse_messages items = Ok [].
Proof.
  induction 1 as [|msg items Hmsg _ IH]; cbn; [reflexivity|].
  rewrite (parse_message_blank msg Hmsg). cbn. rewrite IH. reflexivity.
Qed.

(** C6. A conversation file whose messages are all empty after trimming
    (each has no content or only whitespace), or that has no message at
    all, gives no record: the parser returns [None], and it prints nothing
    and raises nothing on the way. *)
Theorem parse_chat_file_drops_empty
  (E : env) (name now : pystr) (w : world) (fields : list (pystr * json))
  (items : list json) :
  lookup k_messages fields = Some (JArr items)
  \/ (lookup k_messages fields = None /\ items = []) ->
  Forall blank_message items ->
  parse_chat_file E name (Ok (JObj fields)) now w = (w, Ok None).
Proof.
  intros Hmessages Hblank. unfold parse_chat_file, parse_data. cbn.
  assert (Hitems : match lookup k_messages fields with
                   | Some x => x
                   | None => JArr []
                   end = JArr items).
  { destruct Hmessages as [->|[-> ->]]; reflexivity. }
  rewrite Hitems. cbn. rewrite (parse_messages_blank items Hblank). reflexivity.
Qed.

(** The scenario of the specification:
    [{"id":"abc","title":"T","messages":[{"role":"user","content":"  "}]}]. *)
Lemma parse_chat_file_drops_empty_witness :
  parse_chat_file sample_env (text "chat-1.json")
    (Ok (sample_file "abc" (JStr (text "  ")) [])) (text "now") empty_world
  = (empty_world, Ok None).
Proof.
  apply (parse_chat_file_drops_empty sample_env (text "chat-1.json") (text "now")
           empty_world _ [JObj [(k_role, JStr k_user); (k_content, JStr (text "  "))]]).
  - left. reflexivity.
  - repeat constructor. eexists. split; reflexivity.
Defined.

(** What a record the parser produced looks like. *)
Lemma parse_data_record (E : env) (now : pystr) (data chat : json) :
  parse_data E now data = Ok (Some chat) ->
  exists fields id messages,
    data = JObj fields
    /\ lookup k_id fields = Some id
    /\ messages <> []
    /\ chat = export_record E now fields id messages.
Proof.
  unfold parse_data. destruct data as [| | | | |fields]; cbn; try discriminate.
  destruct (py_iter _) as [items|]; cbn; [|discriminate].
  destruct (parse_messages items) as [[|m messages]|]; cbn; try discriminate.
  destruct (lookup k_id fields) as [id|] eqn:Hid; cbn; [|discriminate].
  intros [= <-]. exists fields, id, (m :: messages).
  split; [reflexivity|]. split; [exact Hid|]. split; [discriminate|reflexivity].
Qed.

Lemma existing_ids_of_origin (threads ids : list json) :
  existing_ids_of threads = Ok ids ->
  forall v, In v ids -> exists t, In t threads /\ py_get t k_id (JStr []) = Ok v.
Proof.
  revert ids. induction threads as [|t rest IH]; cbn; intros ids.
  - intros [= <-] v [].
  - destruct (py_get t k_id (JStr [])) as [id|] eqn:Hid; cbn; [|discriminate].
    destruct (hashable id); [|discriminate].
    destruct (existing_ids_of rest) as [ids'|]; cbn; [|discriminate].
    intros [= <-] v [<-|Hv].
    + exists t. split; [left; reflexivity|exact Hid].
    + destruct (IH ids' eq_refl v Hv) as (t' & Hin & Hget).
      exists t'. split; [right; exact Hin|exact Hget].
Qed.

Lemma py_eq_str (s : pystr) (v : json) : py_eq (JStr s) v = true -> v = JStr s.
Proof.
  destruct v; cbn; try discriminate. intros H. apply str_eqb_eq in H. congruence.
Qed.

(** A parsed record is a duplicate exactly when its identifier, a string,
    is an element of the id set. *)
Lemma is_duplicate_parsed (E : env) (now : pystr) (fields : list (pystr * json))
  (id : json) (messages ids : list json) :
  is_duplicate ids (export_record E now fields id messages)
  = existsb (py_eq (JStr (s_prefix ++ py_str E id))) ids.
Proof. reflexivity. Qed.

(** C9. (1) In the id set a remote thread without an [id] field stands as
    the empty string.  (2) The identifier of every record the parser
    produces is the prefix "chatwise-" followed by the source id, so it is
    not empty.  (3) Hence whenever a parsed record is classified as a
    duplicate, some remote thread does carry an [id] field, and that field
    is a string equal to the record's identifier; (4) and a remote thread
    without an id changes the classification of no parsed record. *)
Theorem missing_remote_id_never_matches (E : env) :
  (forall fields rest,
      lookup k_id fields = None ->
      existing_ids_of (JObj fields :: rest)
      = (let? ids := existing_ids_of rest in Ok (JStr [] :: ids)))
  /\ (forall now data chat,
        parse_data E now data = Ok (Some chat) ->
        exists id,
          py_item data k_id = Ok id
          /\ py_item chat k_thread_id = Ok (JStr (text "chatwise-" ++ py_str E id))
          /\ text "chatwise-" ++ py_str E id <> [])
  /\ (forall now data chat threads ids,
        parse_data E now data = Ok (Some chat) ->
        existing_ids_of threads = Ok ids ->
        is_duplicate ids chat = true ->
        exists fields thread_id,
          In (JObj fields) threads
          /\ lookup k_id fields = Some (JStr thread_id)
          /\ py_item chat k_thread_id = Ok (JStr thread_id))
  /\ (forall now data chat fields rest ids,
        parse_data E now data = Ok (Some chat) ->
        lookup k_id fields = None ->
        existing_ids_of rest = Ok ids ->
        exists ids',
          existing_ids_of (JObj fields :: rest) = Ok ids'
          /\ is_duplicate ids' chat = is_duplicate ids chat).
Proof.
  split; [|split; [|split]].
  - intros fields rest Hid. cbn. rewrite Hid. reflexivity.
  - intros now data chat Hparse.
    destruct (parse_data_record E now data chat Hparse)
      as (fields & id & messages & -> & Hid & _ & ->).
    exists id. cbn. rewrite Hid. repeat split. discriminate.
  - intros now data chat threads ids Hparse Hids Hdup.
    destruct (parse_data_record E now data chat Hparse)
      as (fields & id & messages & -> & Hid & _ & ->).
    rewrite is_duplicate_parsed in Hdup.
    apply existsb_exists in Hdup as (v & Hv & Heq).
    apply py_eq_str in Heq. subst v.
    destruct (existing_ids_of_origin threads ids Hids _ Hv) as (t & Hin & Hget).
    destruct t as [| | | | |tf]; cbn in Hget; try discriminate.
    exists tf, (s_prefix ++ py_str E id). split; [exact Hin|].
    split; [|reflexivity].
    destruct (lookup k_id tf) as [x|]; [injection Hget as ->; reflexivity|].
    discriminate.
  - intros now data chat fields rest ids Hparse Hid Hids.
    destruct (parse_data_record E now data chat Hparse)
      as (df & id & messages & -> & _ & _ & ->).
    exists (JStr [] :: ids). split.
    + cbn. rewrite Hid, Hids. reflexivity.
    + rewrite !is_duplicate_parsed. reflexivity.
Qed.

Lemma missing_remote_id_never_matches_witness :
  exists ids,
    existing_ids_of listing_with_missing_id = Ok ids
    /\ is_duplicate ids chat_a = is_duplicate sample_ids chat_a
    /\ is_duplicate ids chat_b = is_duplicate sample_ids chat_b.
Proof.
  pose proof (missing_remote_id_never_matches sample_env) as (_ & _ & _ & Hsame).
  destruct (Hsame (clock sample_env 0)
              (sample_file "a" (JStr (text "hello")) sample_created) chat_a
              [(k_title, JStr (text "old"))]
              [JObj [(k_id, JStr (text "chatwise-b"))]] sample_ids
              eq_refl eq_refl eq_refl) as (ids & Hids & Ha).
  destruct (Hsame (clock sample_env 0)
              (sample_file "b" (JStr (text " hi ")) sample_created) chat_b
              [(k_title, JStr (text "old"))]
              [JObj [(k_id, JStr (text "chatwise-b"))]] sample_ids
              eq_refl eq_refl eq_refl) as (ids' & Hids' & Hb).
  exists ids. split; [exact Hids|]. split; [exact Ha|].
  replace ids with ids' by congruence. exact Hb.
Defined.

(** *** Records without a creation time *)

Lemma display_parsed_without_created_at (E : env) (now : pystr)
  (fields : list (pystr * json)) (id : json) (messages : list json) :
  lookup k_createdAt fields = None ->
  exists e, display_chat_summary E (export_record E now fields id messages) = Raise e.
Proof.
  intros Hc. unfold display_chat_summary, export_record, metadata_get, field_or.
  rewrite Hc. cbn.
  destruct (add_row_cell _) as [[]|e]; cbn; [|eauto].
  destruct (add_row_cell _) as [[]|e]; cbn; eauto.
Qed.

(** C10. A conversation file without [createdAt] is accepted by the
    parser, which stores [None] under [metadata.created_at]; the key is
    always there, so the "N/A" and "" defaults of the two displays are never
    used; and slicing that [None] raises: the chat list of [main] raises
    [TypeError] for every such record, which ends the run before any
    request is sent, and the per-record summary of the interactive driver
    raises as well ([TypeError] for the sample file). *)
Theorem missing_created_at_aborts_display (E : env) :
  (forall now fields chat,
      parse_data E now (JObj fields) = Ok (Some chat) ->
      lookup k_createdAt fields = None ->
      metadata_get chat k_created_at (JStr s_na) = Ok JNull
      /\ list_row chat = Raise TypeError
      /\ exists e, display_chat_summary E chat = Raise e)
  /\ (forall now data chat,
        parse_data E now data = Ok (Some chat) ->
        exists record metadata v,
          chat = JObj record
          /\ lookup k_metadata record = Some (JObj metadata)
          /\ lookup k_created_at metadata = Some v
          /\ forall default, metadata_get chat k_created_at default = Ok v)
  /\ (exists chat,
        lookup k_createdAt
          [(k_id, JStr (text "abc")); (k_title, JStr (text "T"));
           (k_messages, JArr [JObj [(k_role, JStr k_user);
                                    (k_content, JStr (text "hello"))]])] = None
        /\ forall name w fuel auto manual,
            parse_chat_file E name (Ok file_without_created_at) (clock E 0) w
            = (w, Ok (Some chat))
            /\ list_row chat = Raise TypeError
            /\ display_chat_summary E chat = Raise TypeError
            /\ manual_mode E [chat] [] w = (w, Raise TypeError)
            /\ main_import E fuel auto manual
                 [(name, Ok file_without_created_at)] w
               = Some (w, Raise TypeError)).
Proof.
  split; [|split].
  - intros now fields chat Hparse Hc.
    destruct (parse_data_record E now _ chat Hparse)
      as (fields' & id & messages & [= <-] & Hid & _ & ->).
    split; [|split].
    + unfold metadata_get, export_record, field_or. rewrite Hc. reflexivity.
    + unfold list_row, list_row_cells, metadata_get, export_record, field_or.
      rewrite Hc. reflexivity.
    + apply display_parsed_without_created_at, Hc.
  - intros now data chat Hparse.
    destruct (parse_data_record E now data chat Hparse)
      as (fields & id & messages & -> & Hid & _ & ->).
    eexists _, _, _. split; [reflexivity|]. split; [reflexivity|].
    split; reflexivity.
  - eexists. split; [reflexivity|]. intros name w fuel auto manual.
    split; [reflexivity|]. split; [reflexivity|]. split; [reflexivity|].
    split; reflexivity.
Qed.

Lemma missing_created_at_aborts_display_witness :
  parse_data sample_env (clock sample_env 0) file_without_created_at
  = Ok (Some (parsed file_without_created_at))
  /\ metadata_get (parsed file_without_created_at) k_created_at (JStr s_na) = Ok JNull
  /\ list_row (parsed file_without_created_at) = Raise TypeError
  /\ display_chat_summary sample_env (parsed file_without_created_at) = Raise TypeError.
Proof.
  pose proof (missing_created_at_aborts_display sample_env) as (Hall & _ & _).
  destruct (Hall (clock sample_env 0)
              [(k_id, JStr (text "abc")); (k_title, JStr (text "T"));
               (k_messages, JArr [JObj [(k_role, JStr k_user);
                                        (k_content, JStr (text "hello"))]])]
              (parsed file_without_created_at) eq_refl eq_refl)
    as (Hnull & Hrow & _).
  split; [reflexivity|]. split; [exact Hnull|]. split; [exact Hrow|reflexivity].
Defined.

(** *** Files the parser does not survive *)

(** What the parser does handle: a file that is not JSON, and a file with a
    message to import but no [id], give [None] and one line on the console. *)
Lemma parse_chat_file_soft_failures (E : env) (name now : pystr) (w : world) :
  (parse_chat_file E name (Raise JSONDecodeError) now w
   = (mkWorld (console w
                 ++ [parse_failed_prefix ++ name ++ dash
                       ++ exn_str E JSONDecodeError ++ red_end])
        (gets w) (posts w) (asked w),
      Ok None))
  /\ (forall fields items m messages,
        lookup k_messages fields = Some (JArr items) ->
        parse_messages items = Ok (m :: messages) ->
        lookup k_id fields = None ->
        parse_chat_file E name (Ok (JObj fields)) now w
        = (mkWorld (console w
                      ++ [parse_failed_prefix ++ name ++ dash
                            ++ exn_str E (KeyError (JStr k_id)) ++ red_end])
             (gets w) (posts w) (asked w),
           Ok None)).
Proof.
  split; [reflexivity|].
  intros fields items m messages Hm Hitems Hid.
  unfold parse_chat_file, parse_data. cbn. rewrite Hm. cbn. rewrite Hitems. cbn.
  rewrite Hid. reflexivity.
Qed.

(** C5, at the input where the code departs from it.  A file whose message
    has a number for [content] makes [msg.get("content", "").strip()] raise
    [AttributeError]; the [except] clause of the parser names only
    [JSONDecodeError] and [KeyError], so the exception leaves
    [parse_chat_file], prints nothing, and ends [main] before any request
    is sent. *)
Theorem parse_chat_file_raises_on_number_content
  (E : env) (name : pystr) (w : world) (fuel : nat) (auto manual : bool) :
  parse_message (JObj [(k_role, JStr k_user); (k_content, JInt 5)])
  = Raise AttributeError
  /\ parse_caught AttributeError = false
  /\ parse_chat_file E name (Ok file_with_number_content) (clock E 0) w
     = (w, Raise AttributeError)
  /\ main_import E fuel auto manual [(name, Ok file_with_number_content)] w
     = Some (w, Raise AttributeError).
Proof. repeat split. Qed.

(* ===================================================================== *)
(** ** The create operation *)









(* ===================================================================== *)
(** * Further properties *)

(** ** The drivers *)

Lemma fresh_records_cons (ids : list json) (chat : json) (rest : list json) :
  fresh_records ids (chat :: rest)
  = if is_duplicate ids chat then fresh_records ids rest
    else chat :: fresh_records ids rest.
Proof. unfold fresh_records. cbn. destruct (is_duplicate ids chat); reflexivity. Qed.

Lemma is_duplicate_unfold (ids : list json) (chat tid : json) (b : bool) :
  py_item chat k_thread_id = Ok tid ->
  set_contains ids tid = Ok b ->
  is_duplicate ids chat = b.
Proof. intros H1 H2. unfold is_duplicate. rewrite H1, H2. reflexivity. Qed.

(** What a run of the batch loop does to the world: it only sends create
    requests, for the fresh records, in order, one after the other. *)
Lemma auto_loop_effects (E : env) (ids : list json) (chats : list json) :
  forall d c w w' d' r,
    auto_loop E ids chats d c w = (w', d', r) ->
    console w' = console w /\ gets w' = gets w /\ asked w' = asked w
    /\ exists k,
        posts w' = posts w ++ firstn k (fresh_records ids chats)
        /\ (forall c', r = Ok c' -> posts w' = posts w ++ fresh_records ids chats).
Proof.
  induction chats as [|chat rest IH]; intros d c w w' d' r Hrun.
  - injection Hrun as <- <- <-. repeat split. exists 0%nat. cbn. rewrite app_nil_r.
    split; [reflexivity|]. intros _ _. reflexivity.
  - assert (Hstop : forall e, (w, d, @Raise auto_counts e) = (w', d', r) ->
        console w' = console w /\ gets w' = gets w /\ asked w' = asked w
        /\ exists k,
            posts w' = posts w ++ firstn k (fresh_records ids (chat :: rest))
            /\ (forall c', r = Ok c' ->
                  posts w' = posts w ++ fresh_records ids (chat :: rest))).
    { intros e [= <- <- <-]. repeat split. exists 0%nat. cbn.
      rewrite app_nil_r. split; [reflexivity|]. intros ? [=]. }
    cbn [auto_loop] in Hrun.
    destruct (py_item chat k_thread_id) as [tid|e] eqn:Htid; cbn [rbind] in Hrun;
      [|exact (Hstop _ Hrun)].
    destruct (set_contains ids tid) as [[|]|e] eqn:Hdup; [| |exact (Hstop _ Hrun)].
    + rewrite fresh_records_cons, (is_duplicate_unfold _ _ _ _ Htid Hdup).
      apply IH in Hrun. exact Hrun.
    + destruct (py_item chat k_title) as [title|e] eqn:Htitle; cbn [rbind] in Hrun;
        [|exact (Hstop _ Hrun)].
      destruct (py_slice_to 30 title) as [short|e]; [|exact (Hstop _ Hrun)].
      clear Hstop.
      rewrite fresh_records_cons, (is_duplicate_unfold _ _ _ _ Htid Hdup).
      destruct (import_to_nowledge E chat w) as [w1 r1] eqn:Himp.
      apply import_to_nowledge_world in Himp.
      destruct r1 as [[ok msg]|e].
      2:{ injection Hrun as <- <- <-. subst w1. cbn. repeat split.
          exists 1%nat. cbn. split; [reflexivity|]. intros ? [=]. }
      cbn [fst snd] in Hrun.
      assert (Hrest : exists d1 c1, auto_loop E ids rest d1 c1 w1 = (w', d', r)).
      { destruct ok; eexists _, _; exact Hrun. }
      destruct Hrest as (d1 & c1 & Hrun1).
      destruct (IH _ _ _ _ _ _ Hrun1) as (Hc & Hg & Ha & k & Hk & Hall).
      subst w1. cbn [console gets posts asked] in *.
      repeat split; try assumption.
      exists (S k). cbn [firstn]. split.
      * rewrite Hk, <- app_assoc. reflexivity.
      * intros c' Hr. rewrite (Hall c' Hr), <- app_assoc. reflexivity.
Qed.

(** X1. A batch run that returns has sent one create request for each
    record that is not a duplicate, in the order of the input, with the
    record itself as body, and nothing else: it has sent no listing
    request, asked nothing and printed no warning. *)
Theorem auto_mode_sends_fresh_records_in_order
  (E : env) (chats existing_ids : list json) (w w' : world) (c : auto_counts) :
  auto_mode E chats existing_ids w = (w', Ok c) ->
  posts w' = posts w ++ fresh_records existing_ids chats
  /\ gets w' = gets w /\ asked w' = asked w /\ console w' = console w
  /\ (success_count c + fail_count c)%nat
     = length (fresh_records existing_ids chats).
Proof.
  intros Hrun.
  destruct (auto_mode_loop E chats existing_ids w w' _ Hrun) as (d & r0 & Hloop & Hr0).
  rewrite (Hr0 c eq_refl) in Hloop.
  destruct (auto_loop_effects E existing_ids chats _ _ _ _ _ _ Hloop)
    as (Hc & Hg & Ha & k & _ & Hall).
  destruct (auto_loop_spec E existing_ids chats _ _ _ _ _ _ Hloop)
    as (sent & Hp & _ & Hn).
  destruct (Hn c eq_refl) as (_ & _ & Hlen & _).
  specialize (Hall c eq_refl).
  repeat split; try assumption.
  rewrite Hall in Hp. apply app_inv_head in Hp. rewrite Hp. cbn in Hlen. exact Hlen.
Qed.

Lemma auto_mode_sends_fresh_records_in_order_witness :
  posts (fst (auto_mode sample_env sample_chats sample_ids empty_world))
  = [chat_a; chat_c].
Proof.
  destruct (auto_mode_sends_fresh_records_in_order
              sample_env sample_chats sample_ids empty_world _ _ eq_refl)
    as (Hp & _).
  exact Hp.
Defined.

Lemma auto_loop_duplicate (E : env) (ids : list json) (chat : json)
  (rest : list json) (d : option pystr) (c : auto_counts) (w : world) :
  is_duplicate ids chat = true ->
  auto_loop E ids (chat :: rest) d c w
  = auto_loop E ids rest d
      (mkAuto (success_count c) (fail_count c) (S (duplicate_count c)) (errors c)) w.
Proof.
  intros Hdup. unfold is_duplicate in Hdup. cbn [auto_loop].
  destruct (py_item chat k_thread_id) as [tid|]; [|discriminate]. cbn [rbind].
  destruct (set_contains ids tid) as [[|]|]; try discriminate. reflexivity.
Qed.




Lemma import_to_nowledge_server_down (E : env) (chat : json) (w : world) :
  server_down E ->
  import_to_nowledge E chat w
  = (mkWorld (console w) (gets w) (posts w ++ [chat]) (asked w),
     Ok (false, msg_connect)).
Proof.
  intros Hdown. unfold import_to_nowledge, requests_post. rewrite Hdown. reflexivity.
Qed.

Lemma server_down_answer (E : env) : server_down E -> may_answer E (false, msg_connect).
Proof.
  intros Hdown. exists 0%nat, JNull. rewrite Hdown. reflexivity.
Qed.

Lemma auto_loop_server_down (E : env) (chats existing_ids : list json) :
  server_down E ->
  Forall batch_ready chats ->
  Forall (batch_shown E) chats ->
  forall dsc f d errs w0,
    description_shown E dsc ->
    exists dsc',
      auto_loop E existing_ids chats dsc (mkAuto 0 f d errs) w0
      = (mkWorld (console w0) (gets w0)
           (posts w0 ++ fresh_records existing_ids chats) (asked w0),
         dsc',
         Ok (mkAuto 0 (f + length (fresh_records existing_ids chats))
               (d + count_duplicates existing_ids chats)
               (errs ++ map (fun chat => (title_of chat, msg_connect))
                            (fresh_records existing_ids chats))))
      /\ description_shown E dsc'
      /\ errors_shown E (map (fun chat => (title_of chat, msg_connect))
                            (fresh_records existing_ids chats)).
Proof.
  intros Hdown Hready. revert Hready.
  induction chats as [|chat rest IH]; intros Hready Hshown dsc f d errs w0 Hdsc.
  - exists dsc. cbn. rewrite !Nat.add_0_r, !app_nil_r.
    split; [destruct w0; reflexivity|]. split; [exact Hdsc|constructor].
  - inversion Hready as [|? ? Hchat Hready']; subst.
    inversion Hshown as [|? ? Hchat_shown Hshown']; subst.
    destruct Hchat as (tid & title & Htid & Htitle).
    destruct (Hchat_shown title Htitle) as [Hdesc Herr].
    destruct (str_is_hashable existing_ids tid) as [dup Hdup].
    pose proof (is_duplicate_unfold _ _ _ _ Htid Hdup) as Hd.
    rewrite fresh_records_cons. unfold count_duplicates. cbn [filter]. rewrite Hd.
    destruct dup.
    + rewrite (auto_loop_duplicate E _ _ _ _ _ _ Hd).
      cbn [success_count fail_count duplicate_count errors length].
      destruct (IH Hready' Hshown' dsc f (S d) errs w0 Hdsc) as (dsc' & Hrun & H1 & H2).
      exists dsc'. rewrite Hrun. unfold count_duplicates.
      replace (d + S (length (filter (is_duplicate existing_ids) rest)))%nat
        with (S d + length (filter (is_duplicate existing_ids) rest))%nat by lia.
      split; [reflexivity|]. split; assumption.
    + cbn [auto_loop]. rewrite Htid. cbn [rbind]. rewrite Hdup, Htitle.
      cbn [rbind py_slice_to py_str].
      rewrite (import_to_nowledge_server_down E chat w0 Hdown). cbn [fst snd].
      cbn [success_count fail_count duplicate_count errors length map].
      destruct (IH Hready' Hshown' (Some (importing ++ firstn 30 title ++ s_dots))
                  (S f) d (errs ++ [(JStr title, msg_connect)])
                  (mkWorld (console w0) (gets w0) (posts w0 ++ [chat]) (asked w0)) Hdesc)
        as (dsc' & Hrun & H1 & H2).
      exists dsc'. rewrite Hrun. cbn [console gets posts asked].
      unfold title_of at 2 4. rewrite Htitle, <- !app_assoc. cbn [app].
      replace (f + S (length (fresh_records existing_ids rest)))%nat
        with (S f + length (fresh_records existing_ids rest))%nat by lia.
      split; [reflexivity|]. split; [exact H1|].
      constructor; [|exact H2].
      exact (Herr _ (server_down_answer E Hdown) eq_refl).
Qed.

(** X3. With no server to create threads on, the batch driver still goes
    through every record: when the console renders what the driver shows
    of the records, it returns with no success, every record that is not a
    duplicate counted as a failure, and the error list holding, in input
    order, each such record's title with the connection-failure message. *)
Theorem auto_mode_server_down
  (E : env) (chats existing_ids : list json) (w : world) :
  server_down E ->
  Forall batch_ready chats ->
  Forall (batch_shown E) chats ->
  exists w',
    auto_mode E chats existing_ids w
    = (w', Ok (mkAuto 0 (length (fresh_records existing_ids chats))
                 (count_duplicates existing_ids chats)
                 (map (fun chat => (title_of chat, msg_connect))
                      (fresh_records existing_ids chats)))).
Proof.
  intros Hdown Hready Hshown. eexists. unfold auto_mode.
  destruct (auto_loop_server_down E chats existing_ids Hdown Hready Hshown
              None 0%nat 0%nat [] w I) as (dsc' & Hrun & Hdsc & Herrs).
  rewrite Hrun. rewrite (progress_exit_shown E dsc' _ Hdsc). cbn [rbind app].
  rewrite show_errors_all by exact Herrs. reflexivity.
Qed.

Lemma auto_mode_server_down_witness :
  exists w',
    auto_mode offline_env sample_chats sample_ids empty_world
    = (w', Ok (mkAuto 0 2 1 [(JStr (text "T"), msg_connect);
                             (JStr (text "T"), msg_connect)])).
Proof.
  destruct (auto_mode_server_down offline_env sample_chats sample_ids empty_world)
    as (w' & Hrun).
  - intros n body. reflexivity.
  - exact sample_chats_batch_ready.
  - unfold sample_chats.
    repeat (apply Forall_cons;
            [intros title [= <-]; split; [reflexivity|];
             intros r (n & body & [= <-]) _; reflexivity|]).
    apply Forall_nil.
  - exists w'. exact Hrun.
Defined.

Lemma answered_yes_refl (E : env) (a : nat) : answered_yes E a a = 0%nat.
Proof. unfold answered_yes. rewrite Nat.sub_diag. reflexivity. Qed.

Lemma answered_yes_step (E : env) (a b : nat) :
  (S a <= b)%nat ->
  answered_yes E a b
  = ((match ask_choice E a with Ok Proceed => 1 | _ => 0 end)
     + answered_yes E (S a) b)%nat.
Proof.
  intros Hle. unfold answered_yes.
  replace (b - a)%nat with (S (b - S a)) by lia. cbn [seq filter].
  destruct (ask_choice E a) as [[ | | ]|]; reflexivity.
Qed.

(** What a run of the interactive loop does to the world. *)
Lemma manual_loop_effects (E : env) (ids : list json) (chats : list json) :
  forall total i c w w' r,
    manual_loop E ids total i chats c w = (w', r) ->
    console w' = console w /\ gets w' = gets w
    /\ (asked w <= asked w')%nat
    /\ (asked w' - asked w <= length (fresh_records ids chats))%nat
    /\ exists sent,
        posts w' = posts w ++ sent
        /\ length sent = answered_yes E (asked w) (asked w')
        /\ (forall body, In body sent -> In body (fresh_records ids chats)).
Proof.
  induction chats as [|chat rest IH]; intros total i c w w' r Hrun.
  - injection Hrun as <- <-. repeat split; try lia. exists [].
    rewrite app_nil_r, answered_yes_refl. repeat split. intros ? [].
  - assert (Hstop : forall e, (w, @Raise manual_counts e) = (w', r) ->
        console w' = console w /\ gets w' = gets w
        /\ (asked w <= asked w')%nat
        /\ (asked w' - asked w <= length (fresh_records ids (chat :: rest)))%nat
        /\ exists sent,
            posts w' = posts w ++ sent
            /\ length sent = answered_yes E (asked w) (asked w')
            /\ (forall body, In body sent -> In body (fresh_records ids (chat :: rest)))).
    { intros e [= <- <-]. repeat split; try lia. exists [].
      rewrite app_nil_r, answered_yes_refl. repeat split. intros ? []. }
    cbn [manual_loop] in Hrun. rewrite bind_lift in Hrun.
    destruct (py_item chat k_thread_id) as [tid|e] eqn:Htid; [|exact (Hstop _ Hrun)].
    rewrite bind_lift in Hrun.
    destruct (set_contains ids tid) as [dup|e] eqn:Hdup; [|exact (Hstop _ Hrun)].
    rewrite fresh_records_cons, (is_duplicate_unfold _ _ _ _ Htid Hdup).
    destruct dup.
    + rewrite bind_lift in Hrun.
      assert (Hstop' : forall e, (w, @Raise manual_counts e) = (w', r) ->
        console w' = console w /\ gets w' = gets w
        /\ (asked w <= asked w')%nat
        /\ (asked w' - asked w <= length (fresh_records ids rest))%nat
        /\ exists sent,
            posts w' = posts w ++ sent
            /\ length sent = answered_yes E (asked w) (asked w')
            /\ (forall body, In body sent -> In body (fresh_records ids rest))).
      { intros e [= <- <-]. repeat split; try lia. exists [].
        rewrite app_nil_r, answered_yes_refl. repeat split. intros ? []. }
      destruct (py_item chat k_title) as [title|e]; [|exact (Hstop' _ Hrun)].
      rewrite bind_lift in Hrun.
      destruct (show E (duplicate_line E i total title)) as [[]|e];
        [|exact (Hstop' _ Hrun)].
      exact (IH _ _ _ _ _ _ Hrun).
    + clear Hstop. rewrite bind_lift in Hrun.
      destruct (display_chat_summary E chat) as [[]|e].
      2:{ injection Hrun as <- <-. repeat split; try lia. exists [].
          rewrite app_nil_r, answered_yes_refl. repeat split. intros ? []. }
      unfold bind at 1 in Hrun. unfold prompt_choice at 1 in Hrun.
      destruct (ask_choice E (asked w)) as [ch|e] eqn:Hask.
      2:{ injection Hrun as <- <-. cbn [console gets posts asked length].
          repeat split; try lia. exists [].
          rewrite app_nil_r, answered_yes_step, Hask, answered_yes_refl by lia.
          repeat split. intros ? []. }
      destruct ch.
      * unfold bind at 1 in Hrun.
        match type of Hrun with
        | context [import_to_nowledge E chat ?w0] =>
            destruct (import_to_nowledge E chat w0) as [w1 r1] eqn:Himp
        end.
        apply import_to_nowledge_world in Himp. cbn [console gets posts asked] in Himp.
        assert (Hsent : forall e, (w1, @Raise manual_counts e) = (w', r) ->
          console w' = console w /\ gets w' = gets w
          /\ (asked w <= asked w')%nat
          /\ (asked w' - asked w <= length (chat :: fresh_records ids rest))%nat
          /\ exists sent,
              posts w' = posts w ++ sent
              /\ length sent = answered_yes E (asked w) (asked w')
              /\ (forall body, In body sent -> In body (chat :: fresh_records ids rest))).
        { intros e [= <- <-]. subst w1. cbn [console gets posts asked length].
          repeat split; try lia. exists [chat].
          rewrite answered_yes_step, Hask, answered_yes_refl by lia.
          repeat split. intros b [<-|[]]. left. reflexivity. }
        destruct r1 as [[ok msg]|e]; [|exact (Hsent _ Hrun)].
        rewrite bind_lift in Hrun.
        destruct (show E (outcome_line (ok, msg))) as [[]|e]; [|exact (Hsent _ Hrun)].
        clear Hsent. cbn [fst] in Hrun.
        assert (Hrest : exists c1, manual_loop E ids total (S i) rest c1 w1 = (w', r))
          by (destruct ok; eexists; exact Hrun).
        destruct Hrest as (c1 & Hrun1).
        destruct (IH _ _ _ _ _ _ Hrun1)
          as (Hc & Hg & Hle & Hbound & sent & Hp & Hlen & Hin).
        subst w1. cbn [console gets posts asked length] in *.
        repeat split; try assumption; try lia.
        exists (chat :: sent). split; [rewrite Hp, <- app_assoc; reflexivity|].
        split.
        -- rewrite answered_yes_step, Hask by lia. cbn [length]. rewrite Hlen. reflexivity.
        -- intros b [<-|Hb]; [left; reflexivity|right; exact (Hin b Hb)].
      * destruct (IH _ _ _ _ _ _ Hrun)
          as (Hc & Hg & Hle & Hbound & sent & Hp & Hlen & Hin).
        cbn [console gets posts asked length] in *.
        repeat split; try assumption; try lia.
        exists sent. split; [exact Hp|]. split.
        -- rewrite answered_yes_step, Hask by lia. exact Hlen.
        -- intros b Hb. right. exact (Hin b Hb).
      * injection Hrun as <- <-. cbn [console gets posts asked length].
        repeat split; try lia. exists [].
        rewrite app_nil_r, answered_yes_step, Hask, answered_yes_refl by lia.
        repeat split. intros ? [].
Qed.

(** X4. The interactive driver creates only what the user said "y" to: in
    every run, completed or not, the number of create requests sent equals
    the number of prompts answered "y", each request carries a record that
    is not a duplicate, and no more prompts are asked than there are such
    records.  The driver sends no listing request and prints no warning. *)
Theorem manual_mode_one_request_per_yes
  (E : env) (chats existing_ids : list json) (w w' : world)
  (r : result manual_counts) :
  manual_mode E chats existing_ids w = (w', r) ->
  exists sent,
    posts w' = posts w ++ sent
    /\ length sent = answered_yes E (asked w) (asked w')
    /\ (forall body, In body sent -> In body (fresh_records existing_ids chats))
    /\ (asked w' - asked w <= length (fresh_records existing_ids chats))%nat
    /\ gets w' = gets w /\ console w' = console w.
Proof.
  intros Hrun.
  destruct (manual_loop_effects E existing_ids chats _ _ _ _ _ _ Hrun)
    as (Hc & Hg & _ & Hbound & sent & Hp & Hlen & Hin).
  exists sent. repeat split; assumption.
Qed.

Lemma manual_mode_one_request_per_yes_witness :
  exists sent,
    posts (fst (manual_mode sample_env sample_chats sample_ids empty_world)) = sent
    /\ length sent = 2%nat
    /\ asked (fst (manual_mode sample_env sample_chats sample_ids empty_world)) = 2%nat.
Proof.
  destruct (manual_mode_one_request_per_yes
              sample_env sample_chats sample_ids empty_world _ _
              (surjective_pairing _))
    as (sent & Hp & Hlen & _).
  exists sent. split; [exact Hp|]. split; [rewrite Hlen; reflexivity|reflexivity].
Defined.

(** ** The remote listing *)

(** What one pass of the listing loop does to the world, whatever the
    server answers. *)
Lemma fetch_page_effects (E : env) (all_threads : list json) (offset : Z) (w : world) :
  forall w1 all1 r1,
    fetch_page E all_threads offset w = (w1, all1, r1) ->
    gets w1 = gets w ++ [(limit, offset)]
    /\ posts w1 = posts w /\ asked w1 = asked w
    /\ match r1 with
       | Ok (Some offset') => offset' = offset + limit /\ console w1 = console w
       | Ok None =>
           console w1 = console w
           \/ exists line, listing_warning E line /\ console w1 = console w ++ [line]
       | Raise _ => console w1 = console w
       end.
Proof.
  intros w1 all1 r1. unfold fetch_page, requests_get.
  destruct (http_get E (length (gets w)) limit offset) as [resp|e].
  2:{ intros [= <- _ <-]. repeat split. }
  destruct (negb (status_code resp =? 200)).
  { cbn. intros [= <- _ <-]. repeat split. right. eexists. split; [|reflexivity].
    right; left. exists (status_code resp). reflexivity. }
  destruct (resp_json resp) as [data|]; [|intros [= <- _ <-]; repeat split].
  destruct (let? threads := py_get data k_threads (JArr []) in py_iter threads)
    as [ts|e]; [|intros [= <- _ <-]; repeat split].
  intros [= <- _ <-]. cbn [gets posts asked console]. repeat split.
  destruct (py_get data k_pagination (JObj [])) as [pg|]; cbn; [|reflexivity].
  destruct (py_get pg k_has_more (JBool false)) as [hm|]; cbn; [|reflexivity].
  destruct (negb (py_truthy hm)); [left; reflexivity|split; reflexivity].
Qed.

Lemma fetch_loop_effects (E : env) :
  forall fuel all_threads i w w' all' r,
    fetch_loop E fuel all_threads (limit * Z.of_nat i) w = Some (w', all', r) ->
    exists k,
      (1 <= k <= fuel)%nat
      /\ gets w' = gets w ++ map (fun j => (limit, limit * Z.of_nat (i + j))) (seq 0 k)
      /\ posts w' = posts w /\ asked w' = asked w
      /\ match r with
         | Ok _ =>
             console w' = console w
             \/ exists line, listing_warning E line /\ console w' = console w ++ [line]
         | Raise _ => console w' = console w
         end.
Proof.
  induction fuel as [|fuel IH]; intros all i w w' all' r; [discriminate|].
  cbn [fetch_loop].
  destruct (fetch_page E all (limit * Z.of_nat i) w) as [[w1 all1] r1] eqn:Hpage.
  destruct (fetch_page_effects E _ _ _ _ _ _ Hpage) as (Hg & Hp & Ha & Hc).
  destruct r1 as [[offset'|]|e].
  - destruct Hc as [-> Hc]. replace (limit * Z.of_nat i + limit)
      with (limit * Z.of_nat (S i)) by lia.
    intros Hloop. destruct (IH _ _ _ _ _ _ Hloop) as (k & Hk & Hg' & Hp' & Ha' & Hc').
    exists (S k). split; [lia|]. split.
    + rewrite Hg', Hg, <- app_assoc. cbn [seq map app]. rewrite Nat.add_0_r.
      do 2 f_equal. rewrite <- seq_shift, map_map. apply map_ext.
      intros j. do 3 f_equal. lia.
    + split; [congruence|]. split; [congruence|].
      destruct r; rewrite <- Hc; exact Hc'.
  - intros [= <- _ <-]. exists 1%nat. split; [lia|]. cbn [seq map].
    rewrite Nat.add_0_r. repeat split; assumption.
  - intros [= <- _ <-]. exists 1%nat. split; [lia|]. cbn [seq map].
    rewrite Nat.add_0_r. repeat split; assumption.
Qed.

Lemma fetch_existing_threads_effects
  (E : env) (fuel : nat) (w w' : world) (r : result (list json)) :
  fetch_existing_threads E fuel w = Some (w', r) ->
  exists k,
    (1 <= k <= fuel)%nat
    /\ gets w' = gets w ++ map (fun j => (100, 100 * Z.of_nat j)) (seq 0 k)
    /\ posts w' = posts w /\ asked w' = asked w
    /\ (console w' = console w
        \/ exists line, listing_warning E line /\ console w' = console w ++ [line]).
Proof.
  unfold fetch_existing_threads.
  destruct (fetch_loop E fuel [] 0 w) as [[[w1 all1] r1]|] eqn:Hloop; [|discriminate].
  change 0 with (limit * Z.of_nat 0) in Hloop.
  destruct (fetch_loop_effects E _ _ _ _ _ _ _ Hloop) as (k & Hk & Hg & Hp & Ha & Hc).
  cbn [Nat.add] in Hg.
  destruct r1 as [[]|e].
  - intros [= <- <-]. exists k. repeat split; try assumption; lia.
  - assert (Hprinted : forall line,
               listing_warning E line ->
               Some (mkWorld (console w1 ++ [line]) (gets w1) (posts w1) (asked w1),
                     @Ok (list json) all1) = Some (w', r) ->
               exists k0,
                 (1 <= k0 <= fuel)%nat
                 /\ gets w' = gets w ++ map (fun j => (100, 100 * Z.of_nat j)) (seq 0 k0)
                 /\ posts w' = posts w /\ asked w' = asked w
                 /\ (console w' = console w
                     \/ exists line0, listing_warning E line0
                                      /\ console w' = console w ++ [line0])).
    { intros line Hline [= <- <-]. exists k. cbn [gets posts asked console].
      repeat split; try assumption; try lia.
      right. exists line. split; [exact Hline|]. rewrite Hc. reflexivity. }
    destruct e; cbn [is_exception print];
      try (apply Hprinted; right; right; eexists; reflexivity);
      try (apply Hprinted; left; reflexivity);
      intros [= <- <-]; exists k; repeat split; try assumption; try lia;
      left; exact Hc.
Qed.

(** X5. Whatever the server answers, a listing that returns has sent only
    requests for consecutive pages of 100, starting at offset 0: for some
    k between 1 and the number of passes, exactly the requests
    (100, 0), (100, 100), ..., (100, 100 (k - 1)).  It has sent no create
    request, asked nothing, and printed at most one line, one of its three
    warnings. *)
Theorem fetch_existing_threads_requests
  (E : env) (fuel : nat) (w w' : world) (r : result (list json)) :
  fetch_existing_threads E fuel w = Some (w', r) ->
  exists k,
    (1 <= k <= fuel)%nat
    /\ gets w' = gets w ++ map (fun j => (100, 100 * Z.of_nat j)) (seq 0 k)
    /\ posts w' = posts w /\ asked w' = asked w
    /\ (console w' = console w
        \/ exists line, listing_warning E line /\ console w' = console w ++ [line]).
Proof. apply fetch_existing_threads_effects. Qed.

Lemma fetch_existing_threads_requests_witness :
  exists w',
    fetch_existing_threads flaky_env 7 empty_world
    = Some (w', Ok (firstn 100 sample_listing))
    /\ gets w' = [(100, 0); (100, 100)] /\ posts w' = [].
Proof.
  eexists. split; [reflexivity|].
  destruct (fetch_existing_threads_requests flaky_env 7 empty_world _ _ eq_refl)
    as (k & _ & _ & Hp & _).
  split; [reflexivity|exact Hp].
Defined.

(** X6. The listing has no bound on the number of pages: against a server
    whose every page says [has_more], it is still running after any number
    of passes. *)
Theorem fetch_existing_threads_never_ends (E : env) :
  always_more E ->
  forall fuel w, fetch_existing_threads E fuel w = None.
Proof.
  intros Hmore fuel w. unfold fetch_existing_threads.
  enough (H : forall all offset w0, fetch_loop E fuel all offset w0 = None)
    by (rewrite H; reflexivity).
  induction fuel as [|fuel IH]; intros all offset w0; [reflexivity|].
  cbn [fetch_loop]. destruct (Hmore (length (gets w0)) offset) as [threads Hpage].
  rewrite (fetch_page_reads E all offset w0 threads true Hpage). apply IH.
Qed.

Lemma fetch_existing_threads_never_ends_witness :
  fetch_existing_threads endless_env 50 empty_world = None.
Proof.
  apply (fetch_existing_threads_never_ends endless_env).
  intros n offset. exists []. eexists _, _, _. repeat split.
Defined.

Lemma fetch_page_last (E : env) (all_threads : list json) (offset : Z) (w : world)
  (body : pystr) (fields : list (pystr * json)) (threads : list json) :
  http_get E (length (gets w)) limit offset
  = Replied (mkResponse 200 body (Some (JObj fields))) ->
  lookup k_threads fields = Some (JArr threads)
  \/ (lookup k_threads fields = None /\ threads = []) ->
  lookup k_pagination fields = None
  \/ (exists pagination,
         lookup k_pagination fields = Some (JObj pagination)
         /\ lookup k_has_more pagination = None) ->
  fetch_page E all_threads offset w
  = (mkWorld (console w) (gets w ++ [(limit, offset)]) (posts w) (asked w),
     all_threads ++ threads, Ok None).
Proof.
  intros Hrp Hthreads Hpg. unfold fetch_page, requests_get. rewrite Hrp. cbn.
  destruct Hthreads as [->|[-> ->]]; destruct Hpg as [->|(pg & -> & Hm)]; cbn;
    try rewrite Hm; reflexivity.
Qed.

(** X7. A page without [pagination], or whose [pagination] has no
    [has_more], is taken as the last one: its threads (none when [threads]
    is missing too) are kept, the listing returns, and no warning is
    printed. *)
Theorem fetch_existing_threads_missing_pagination
  (E : env) (w : world) (pages : list (list json)) (fuel : nat)
  (body : pystr) (fields : list (pystr * json)) (threads : list json) :
  serves_pages E w pages ->
  http_get E (length (gets w) + length pages) limit (limit * Z.of_nat (length pages))
  = Replied (mkResponse 200 body (Some (JObj fields))) ->
  lookup k_threads fields = Some (JArr threads)
  \/ (lookup k_threads fields = None /\ threads = []) ->
  lookup k_pagination fields = None
  \/ (exists pagination,
         lookup k_pagination fields = Some (JObj pagination)
         /\ lookup k_has_more pagination = None) ->
  (length pages < fuel)%nat ->
  fetch_existing_threads E fuel w
  = Some (mkWorld (console w) (gets w ++ page_requests (S (length pages)))
            (posts w) (asked w),
          Ok (concat pages ++ threads)).
Proof.
  intros Hserve Hrp Hthreads Hpg Hfuel.
  destruct (fetch_after_pages E w pages fuel Hserve Hfuel) as (fuel' & Hloop & Hlen).
  unfold fetch_existing_threads. rewrite Hloop. clear Hloop.
  erewrite fetch_page_last; [| |exact Hthreads|exact Hpg].
  2:{ cbn [gets]. rewrite Hlen. exact Hrp. }
  cbn [gets console posts asked].
  rewrite page_requests_S, app_assoc. reflexivity.
Qed.

Lemma fetch_existing_threads_missing_pagination_witness :
  fetch_existing_threads bare_env 1 empty_world
  = Some (mkWorld [] [(100, 0)] [] 0, Ok [JObj [(k_id, JStr (text "chatwise-b"))]]).
Proof.
  apply (fetch_existing_threads_missing_pagination bare_env empty_world [] 1 []
           [(k_threads, JArr [JObj [(k_id, JStr (text "chatwise-b"))]])]).
  - intros [|i] ts; discriminate.
  - reflexivity.
  - left. reflexivity.
  - left. reflexivity.
  - cbn. lia.
Defined.

(** ** The parser and the id set *)

Lemma existing_ids_of_complete (threads ids : list json) :
  existing_ids_of threads = Ok ids ->
  forall t, In t threads -> exists v, py_get t k_id (JStr []) = Ok v /\ In v ids.
Proof.
  revert ids. induction threads as [|t rest IH]; cbn; intros ids Hids u Hu; [contradiction|].
  destruct (py_get t k_id (JStr [])) as [id|] eqn:Hid; cbn in Hids; [|discriminate].
  destruct (hashable id); [|discriminate].
  destruct (existing_ids_of rest) as [ids'|]; cbn in Hids; [|discriminate].
  injection Hids as <-. destruct Hu as [<-|Hu].
  - exists id. split; [exact Hid|left; reflexivity].
  - destruct (IH ids' eq_refl u Hu) as (v & Hv & Hin).
    exists v. split; [exact Hv|right; exact Hin].
Qed.

(** X8. Deduplication is exact: a record the parser produced is classified
    as a duplicate if and only if some thread of the remote listing has an
    [id] field that is a string equal to the record's identifier. *)
Theorem duplicate_iff_remote_has_id
  (E : env) (now : pystr) (data chat : json) (threads ids : list json) :
  parse_data E now data = Ok (Some chat) ->
  existing_ids_of threads = Ok ids ->
  is_duplicate ids chat = true
  <-> exists fields thread_id,
        In (JObj fields) threads
        /\ lookup k_id fields = Some (JStr thread_id)
        /\ py_item chat k_thread_id = Ok (JStr thread_id).
Proof.
  intros Hparse Hids.
  destruct (parse_data_record E now data chat Hparse)
    as (df & id & messages & -> & Hid & _ & ->).
  rewrite is_duplicate_parsed. split.
  - intros Hdup. apply existsb_exists in Hdup as (v & Hv & Heq).
    apply py_eq_str in Heq. subst v.
    destruct (existing_ids_of_origin threads ids Hids _ Hv) as (t & Hin & Hget).
    destruct t as [| | | | |tf]; cbn in Hget; try discriminate.
    exists tf, (s_prefix ++ py_str E id). split; [exact Hin|]. split; [|reflexivity].
    destruct (lookup k_id tf) as [x|]; [injection Hget as ->; reflexivity|].
    discriminate.
  - intros (fields & tid & Hin & Hlook & Htid). cbn in Htid. injection Htid as <-.
    destruct (existing_ids_of_complete threads ids Hids _ Hin) as (v & Hget & Hv).
    cbn in Hget. rewrite Hlook in Hget. injection Hget as <-.
    apply existsb_exists. eexists. split; [exact Hv|]. cbn. apply str_eqb_refl.
Qed.

Lemma duplicate_iff_remote_has_id_witness :
  is_duplicate [JStr []; JStr (text "chatwise-b")] chat_b = true
  <-> exists fields thread_id,
        In (JObj fields) listing_with_missing_id
        /\ lookup k_id fields = Some (JStr thread_id)
        /\ py_item chat_b k_thread_id = Ok (JStr thread_id).
Proof.
  apply (duplicate_iff_remote_has_id sample_env (clock sample_env 0)
           (sample_file "b" (JStr (text " hi ")) sample_created) chat_b
           listing_with_missing_id);
    reflexivity.
Defined.

(** X9. On string source ids the identifier is one-to-one: two files give
    records with the same identifier exactly when their ids are equal.  A
    number is formatted into the identifier, so the id 7 and the id "7"
    give the same one. *)
Theorem thread_id_one_to_one_on_strings (E : env) :
  (forall now1 now2 fields1 fields2 chat1 chat2 id1 id2,
      parse_data E now1 (JObj fields1) = Ok (Some chat1) ->
      parse_data E now2 (JObj fields2) = Ok (Some chat2) ->
      lookup k_id fields1 = Some (JStr id1) ->
      lookup k_id fields2 = Some (JStr id2) ->
      (py_item chat1 k_thread_id = py_item chat2 k_thread_id <-> id1 = id2))
  /\ (forall now1 now2 fields1 fields2 chat1 chat2 z,
        parse_data E now1 (JObj fields1) = Ok (Some chat1) ->
        parse_data E now2 (JObj fields2) = Ok (Some chat2) ->
        lookup k_id fields1 = Some (JInt z) ->
        lookup k_id fields2 = Some (JStr (str_of_int z)) ->
        py_item chat1 k_thread_id = py_item chat2 k_thread_id).
Proof.
  split.
  - intros now1 now2 f1 f2 c1 c2 id1 id2 H1 H2 L1 L2.
    destruct (parse_data_record E now1 _ c1 H1) as (g1 & i1 & m1 & [= <-] & K1 & _ & ->).
    destruct (parse_data_record E now2 _ c2 H2) as (g2 & i2 & m2 & [= <-] & K2 & _ & ->).
    rewrite L1 in K1. rewrite L2 in K2. injection K1 as <-. injection K2 as <-.
    cbn. split.
    + intros [= H]. exact H.
    + intros ->. reflexivity.
  - intros now1 now2 f1 f2 c1 c2 z H1 H2 L1 L2.
    destruct (parse_data_record E now1 _ c1 H1) as (g1 & i1 & m1 & [= <-] & K1 & _ & ->).
    destruct (parse_data_record E now2 _ c2 H2) as (g2 & i2 & m2 & [= <-] & K2 & _ & ->).
    rewrite L1 in K1. rewrite L2 in K2. injection K1 as <-. injection K2 as <-.
    reflexivity.
Qed.

Lemma thread_id_one_to_one_on_strings_witness :
  (py_item chat_a k_thread_id = py_item chat_b k_thread_id <-> text "a" = text "b")
  /\ py_item (parsed (JObj [(k_id, JInt 7);
                            (k_messages, JArr [JObj [(k_content, JStr (text "x"))]])]))
       k_thread_id
     = py_item (parsed (JObj [(k_id, JStr (text "7"));
                              (k_messages, JArr [JObj [(k_content, JStr (text "y"))]])]))
         k_thread_id.
Proof.
  destruct (thread_id_one_to_one_on_strings sample_env) as [Hinj Hcol].
  split.
  - apply (Hinj (clock sample_env 0) (clock sample_env 0)
             [(k_id, JStr (text "a")); (k_title, JStr (text "T"));
              (k_messages, JArr [JObj [(k_role, JStr k_user);
                                       (k_content, JStr (text "hello"))]]);
              (k_createdAt, JStr (text "2024-05-06T07:08:09.000Z"))]
             [(k_id, JStr (text "b")); (k_title, JStr (text "T"));
              (k_messages, JArr [JObj [(k_role, JStr k_user);
                                       (k_content, JStr (text " hi "))]]);
              (k_createdAt, JStr (text "2024-05-06T07:08:09.000Z"))]);
      reflexivity.
  - apply (Hcol (clock sample_env 0) (clock sample_env 0)
             [(k_id, JInt 7);
              (k_messages, JArr [JObj [(k_content, JStr (text "x"))]])]
             [(k_id, JStr (text "7"));
              (k_messages, JArr [JObj [(k_content, JStr (text "y"))]])] _ _ 7);
      reflexivity.
Defined.

Lemma lstrip_head (s : pystr) :
  match lstrip s with
  | [] => True
  | c :: _ => is_space c = false
  end.
Proof.
  induction s as [|c s IH]; cbn; [exact I|].
  destruct (is_space c) eqn:Hc; [exact IH|exact Hc].
Qed.

Lemma lstrip_fixed (s : pystr) :
  match s with
  | [] => True
  | c :: _ => is_space c = false
  end ->
  lstrip s = s.
Proof. destruct s as [|c s]; cbn; [reflexivity|]. intros ->. reflexivity. Qed.

Lemma lstrip_lstrip (s : pystr) : lstrip (lstrip s) = lstrip s.
Proof. apply lstrip_fixed, lstrip_head. Qed.

Lemma lstrip_suffix (s : pystr) : exists pre, s = pre ++ lstrip s.
Proof.
  induction s as [|c s [pre IH]]; [exists []; reflexivity|]. cbn.
  destruct (is_space c); [|exists []; reflexivity].
  exists (c :: pre). cbn. rewrite <- IH. reflexivity.
Qed.

(** Trimming twice is trimming once. *)
Lemma strip_strip (s : pystr) : strip (strip s) = strip s.
Proof.
  unfold strip, rstrip.
  remember (lstrip s) as u eqn:Hu. remember (rev (lstrip (rev u))) as t eqn:Ht.
  assert (Hfix : lstrip t = t).
  { apply lstrip_fixed. destruct t as [|c t']; [exact I|].
    destruct (lstrip_suffix (rev u)) as [pre Hpre].
    assert (Hsplit : u = (c :: t') ++ rev pre).
    { rewrite Ht, <- rev_app_distr, <- Hpre, rev_involutive. reflexivity. }
    pose proof (lstrip_head s) as Hhead. rewrite <- Hu, Hsplit in Hhead.
    exact Hhead. }
  rewrite Hfix. subst t. rewrite rev_involutive, lstrip_lstrip. reflexivity.
Qed.

Lemma parse_message_kept (msg : json) (r : option json) :
  parse_message msg = Ok r ->
  match r with
  | None => strip (source_content msg) = []
  | Some m =>
      kept_message m /\ source_content m = strip (source_content msg)
  end.
Proof.
  unfold parse_message. destruct msg as [| | | | |fields]; cbn; try discriminate.
  assert (Hstr : forall s,
    (if negb (py_truthy (JStr (strip s))) then Ok None
     else let? role := Ok match lookup k_role fields with
                          | Some x => x
                          | None => JStr k_user
                          end in
          Ok (Some (JObj [(k_content, JStr (strip s)); (k_role, role)]))) = Ok r ->
    match r with
    | None => strip s = []
    | Some m => kept_message m /\ source_content m = strip s
    end).
  { intros s. cbn. destruct (strip s) as [|c t] eqn:Hs; cbn.
    - intros [= <-]. reflexivity.
    - intros [= <-]. split; [|reflexivity].
      eexists _, _. split; [reflexivity|]. split; [discriminate|].
      rewrite <- Hs. apply strip_strip. }
  destruct (lookup k_content fields) as [[| | |s| |]|]; cbn; try discriminate.
  - apply Hstr.
  - apply (Hstr []).
Qed.

Lemma parse_messages_kept (items ms : list json) :
  parse_messages items = Ok ms ->
  map source_content ms
  = filter non_empty (map (fun msg => strip (source_content msg)) items)
  /\ Forall kept_message ms.
Proof.
  revert ms. induction items as [|msg rest IH]; cbn; intros ms.
  - intros [= <-]. split; [reflexivity|constructor].
  - destruct (parse_message msg) as [r|] eqn:Hmsg; cbn; [|discriminate].
    destruct (parse_messages rest) as [tl|]; cbn; [|discriminate].
    intros [= <-]. destruct (IH tl eq_refl) as [Hmap Hall].
    apply parse_message_kept in Hmsg. destruct r as [m|].
    + destruct Hmsg as [Hkept Hsrc]. cbn. rewrite <- Hsrc.
      destruct Hkept as (c & role & -> & Hc & Hstrip). cbn.
      destruct c as [|x c]; [contradiction|]. cbn. rewrite Hmap.
      split; [reflexivity|]. constructor; [|exact Hall].
      eexists _, _. split; [reflexivity|]. split; assumption.
    + rewrite Hmsg. cbn. split; [exact Hmap|exact Hall].
Qed.

(** X10. The messages of a record are the messages of the file that have
    something to say, in the same order: their contents are the trimmed
    contents of the source messages with the empty ones left out, and each
    stored message is an object with exactly a [content], which is not
    empty and has no surrounding whitespace, and a [role]. *)
Theorem parsed_messages_are_trimmed_source_messages
  (E : env) (now : pystr) (fields : list (pystr * json)) (items : list json)
  (chat : json) :
  lookup k_messages fields = Some (JArr items) ->
  parse_data E now (JObj fields) = Ok (Some chat) ->
  exists messages,
    py_item chat k_messages = Ok (JArr messages)
    /\ messages <> []
    /\ map source_content messages
       = filter non_empty (map (fun msg => strip (source_content msg)) items)
    /\ Forall kept_message messages.
Proof.
  intros Hitems. unfold parse_data. cbn. rewrite Hitems. cbn.
  destruct (parse_messages items) as [[|m messages]|] eqn:Hms; cbn; try discriminate.
  destruct (lookup k_id fields) as [id|]; cbn; [|discriminate].
  intros [= <-]. exists (m :: messages). split; [reflexivity|].
  split; [discriminate|]. apply parse_messages_kept, Hms.
Qed.

Lemma parsed_messages_are_trimmed_source_messages_witness :
  exists messages,
    py_item chat_b k_messages = Ok (JArr messages)
    /\ map source_content messages = [text "hi"].
Proof.
  destruct (parsed_messages_are_trimmed_source_messages sample_env (clock sample_env 0)
              [(k_id, JStr (text "b")); (k_title, JStr (text "T"));
               (k_messages, JArr [JObj [(k_role, JStr k_user);
                                        (k_content, JStr (text " hi "))]]);
               (k_createdAt, JStr (text "2024-05-06T07:08:09.000Z"))]
              [JObj [(k_role, JStr k_user); (k_content, JStr (text " hi "))]]
              chat_b eq_refl eq_refl)
    as (messages & Hitem & _ & Hmap & _).
  exists messages. split; [exact Hitem|exact Hmap].
Defined.

(** A record the parser produced, with what its messages look like. *)
Lemma parse_data_record_kept (E : env) (now : pystr) (data chat : json) :
  parse_data E now data = Ok (Some chat) ->
  exists fields id m messages,
    data = JObj fields
    /\ lookup k_id fields = Some id
    /\ Forall kept_message (m :: messages)
    /\ chat = export_record E now fields id (m :: messages).
Proof.
  unfold parse_data. destruct data as [| | | | |fields]; cbn; try discriminate.
  destruct (py_iter _) as [items|]; cbn; [|discriminate].
  destruct (parse_messages items) as [[|m messages]|] eqn:Hms; cbn; try discriminate.
  destruct (lookup k_id fields) as [id|] eqn:Hid; cbn; [|discriminate].
  intros [= <-]. exists fields, id, m, messages.
  split; [reflexivity|]. split; [exact Hid|]. split; [|reflexivity].
  apply parse_messages_kept in Hms. apply Hms.
Qed.

(** ** What is displayed *)

Lemma show_cells_iff (E : env) (cells : list json) :
  show_cells E cells = Ok tt <-> cells_shown E cells.
Proof.
  unfold cells_shown. induction cells as [|cell rest IH]; cbn [show_cells].
  - split; [intros _ s []|reflexivity].
  - destruct cell as [| | |s| |]; cbn [show_cell rbind];
      try (rewrite IH; split;
           [intros H s [Hs|Hs]; [discriminate Hs|exact (H s Hs)]
           |intros H s Hs; apply H; right; exact Hs]).
    destruct (show E s) as [[]|e] eqn:Hs; cbn [rbind].
    + rewrite IH. split.
      * intros H x [[= <-]|Hx]; [exact Hs|exact (H x Hx)].
      * intros H x Hx. apply H. right. exact Hx.
    + split; [discriminate|]. intros H.
      rewrite (H s (or_introl eq_refl)) in Hs. discriminate Hs.
Qed.

#[local] Opaque firstn.

(** The summary of a parsed record: what can fail when the table is filled
    is the title, the model and the creation time; the cells are read as
    markup when it is printed. *)
Lemma display_export_record (E : env) (now : pystr) (fields : list (pystr * json))
  (id m : json) (messages : list json) :
  kept_message m ->
  display_chat_summary E (export_record E now fields id (m :: messages))
  = (let? _ := add_row_cell (field_or fields k_title (JStr s_untitled)) in
     let? _ := add_row_cell (field_or fields k_model JNull) in
     let? created := py_slice_to 19 (field_or fields k_createdAt JNull) in
     let? _ := add_row_cell created in
     show_cells E [field_or fields k_title (JStr s_untitled);
                   field_or fields k_model JNull;
                   created;
                   JStr (preview (source_content m))]).
Proof.
  intros (c & role & -> & _ & _).
  unfold display_chat_summary, export_record, metadata_get, preview. cbn.
  destruct (add_row_cell (field_or fields k_title (JStr s_untitled))) as [[]|];
    cbn; [|reflexivity].
  destruct (add_row_cell (field_or fields k_model JNull)) as [[]|]; cbn; [|reflexivity].
  destruct (py_slice_to 19 (field_or fields k_createdAt JNull)) as [created|];
    cbn; [|reflexivity].
  destruct (add_row_cell created) as [[]|]; cbn; [|reflexivity].
  destruct (100 <? Z.of_nat (length c)); reflexivity.
Qed.

#[local] Transparent firstn.

(** X11. The chat list of [main] renders the row of a parsed record if
    and only if the title the record carries (the file's, or "Untitled"
    when the file has none) and the file's [createdAt] are both strings; a
    null or a number in either place raises. *)
Theorem chat_list_row_renders_iff
  (E : env) (now : pystr) (fields : list (pystr * json)) (chat : json) :
  parse_data E now (JObj fields) = Ok (Some chat) ->
  list_row chat = Ok tt
  <-> is_str (field_or fields k_title (JStr s_untitled)) = true
      /\ is_str (field_or fields k_createdAt JNull) = true.
Proof.
  intros Hparse.
  destruct (parse_data_record E now _ chat Hparse)
    as (fields' & id & messages & [= <-] & _ & _ & ->).
  unfold list_row, list_row_cells, export_record, metadata_get. cbn.
  destruct (field_or fields k_createdAt JNull);
    destruct (field_or fields k_title (JStr s_untitled)); cbn;
    (split;
     [intros H; first [discriminate H|split; reflexivity]
     |first [intros [H _]; discriminate H
            |intros [_ H]; discriminate H
            |intros _; reflexivity]]).
Qed.

Lemma chat_list_row_renders_iff_witness :
  list_row chat_a = Ok tt
  /\ list_row (parsed file_without_created_at) <> Ok tt.
Proof.
  split.
  - apply (chat_list_row_renders_iff sample_env (clock sample_env 0)
             [(k_id, JStr (text "a")); (k_title, JStr (text "T"));
              (k_messages, JArr [JObj [(k_role, JStr k_user);
                                       (k_content, JStr (text "hello"))]]);
              (k_createdAt, JStr (text "2024-05-06T07:08:09.000Z"))] chat_a eq_refl).
    split; reflexivity.
  - intros Hrow.
    apply (chat_list_row_renders_iff sample_env (clock sample_env 0)
             [(k_id, JStr (text "abc")); (k_title, JStr (text "T"));
              (k_messages, JArr [JObj [(k_role, JStr k_user);
                                       (k_content, JStr (text "hello"))]])]
             (parsed file_without_created_at) eq_refl) in Hrow.
    destruct Hrow as [_ Hcreated]. discriminate Hcreated.
Defined.

(** X12. The summary of the interactive driver is filled and printed for
    a parsed record if and only if its title is a string or null, the
    file's [model] is a string, null or absent, the file's [createdAt] is a
    string, and the console renders the text of the cells: the title, the
    model, the first 19 characters of the creation time, and the first
    message, cut to 100 characters and "..." when it is longer.  So a first
    message that holds a closing tag that rich cannot match ends the
    interactive run, with [MarkupError], as does such a title. *)
Theorem display_chat_summary_renders_iff
  (E : env) (now : pystr) (fields : list (pystr * json)) (chat : json) :
  parse_data E now (JObj fields) = Ok (Some chat) ->
  display_chat_summary E chat = Ok tt
  <-> is_str_or_none (field_or fields k_title (JStr s_untitled)) = true
      /\ is_str_or_none (field_or fields k_model JNull) = true
      /\ is_str (field_or fields k_createdAt JNull) = true
      /\ cells_shown E [field_or fields k_title (JStr s_untitled);
                        field_or fields k_model JNull;
                        cut 19 (field_or fields k_createdAt JNull);
                        JStr (preview (first_content chat))].
Proof.
  intros Hparse.
  destruct (parse_data_record_kept E now _ chat Hparse)
    as (fields' & id & m & messages & [= <-] & _ & Hkept & ->).
  rewrite display_export_record by (inversion Hkept; assumption).
  replace (first_content (export_record E now fields id (m :: messages)))
    with (source_content m) by reflexivity.
  destruct (field_or fields k_title (JStr s_untitled));
    destruct (field_or fields k_model JNull);
    destruct (field_or fields k_createdAt JNull);
    cbn [add_row_cell rbind py_slice_to is_str is_str_or_none cut];
    first
      [ rewrite show_cells_iff; split;
        [intros H; repeat split; exact H|intros (_ & _ & _ & H); exact H]
      | split;
        [intros H; discriminate H
        |first [intros (H & _); discriminate H
               |intros (_ & H & _); discriminate H
               |intros (_ & _ & H & _); discriminate H]] ].
Qed.

Lemma display_chat_summary_renders_iff_witness :
  display_chat_summary sample_env chat_a = Ok tt
  /\ display_chat_summary sample_env
       (parsed (sample_file "a" (JStr (text "[INST] hi [/INST]")) sample_created))
     = Raise MarkupError.
Proof.
  split; [|reflexivity].
  apply (display_chat_summary_renders_iff sample_env (clock sample_env 0)
           [(k_id, JStr (text "a")); (k_title, JStr (text "T"));
            (k_messages, JArr [JObj [(k_role, JStr k_user);
                                     (k_content, JStr (text "hello"))]]);
            (k_createdAt, JStr (text "2024-05-06T07:08:09.000Z"))] chat_a eq_refl).
  split; [reflexivity|]. split; [reflexivity|]. split; [reflexivity|].
  intros s [[= <-]|[H|[[= <-]|[[= <-]|[]]]]]; [reflexivity|discriminate H|reflexivity..].
Defined.

(** ** The final report of the batch driver *)

(** X13. The report of a batch run that returned shows at most five
    errors, whatever the number of failures: it has the success line, a
    duplicate line when there are duplicates, and, when there are failures,
    the failure line, one line for each of the first five errors, and one
    more line, counting the failures beyond five, when there are more.  It
    never has more than nine lines. *)
Theorem auto_summary_shows_at_most_five_errors
  (E : env) (chats existing_ids : list json) (w w' : world) (c : auto_counts) :
  auto_mode E chats existing_ids w = (w', Ok c) ->
  length (auto_summary E c)
  = (1 + (if (0 <? duplicate_count c)%nat then 1 else 0)
     + (if (0 <? fail_count c)%nat
        then 1 + Nat.min 5 (fail_count c) + (if (5 <? fail_count c)%nat then 1 else 0)
        else 0))%nat
  /\ (length (auto_summary E c) <= 9)%nat
  /\ ((5 < fail_count c)%nat ->
      last (auto_summary E c) []
      = report_more_prefix ++ str_of_int (Z.of_nat (fail_count c - 5))
          ++ report_more_end).
Proof.
  intros Hrun.
  destruct (auto_mode_loop E chats existing_ids w w' _ Hrun) as (d & r0 & Hloop & Hr0).
  rewrite (Hr0 c eq_refl) in Hloop.
  destruct (auto_loop_spec E existing_ids chats _ _ _ _ _ _ Hloop)
    as (sent & _ & _ & Hc).
  destruct (Hc c eq_refl) as (_ & _ & _ & Herr). cbn in Herr.
  assert (Hlen : length (errors c) = fail_count c) by lia. clear Herr Hc.
  assert (Hcount : length (auto_summary E c)
    = (1 + (if (0 <? duplicate_count c)%nat then 1 else 0)
       + (if (0 <? fail_count c)%nat
          then 1 + Nat.min 5 (fail_count c) + (if (5 <? fail_count c)%nat then 1 else 0)
          else 0))%nat).
  { unfold auto_summary. rewrite !length_app. cbn [length].
    destruct (0 <? duplicate_count c)%nat; destruct (0 <? fail_count c)%nat;
      cbn [length]; rewrite ?length_app, ?length_map, ?length_firstn, ?Hlen;
      destruct (5 <? fail_count c)%nat; cbn [length]; lia. }
  split; [exact Hcount|]. split.
  - rewrite Hcount.
    destruct (0 <? duplicate_count c)%nat; destruct (0 <? fail_count c)%nat;
      destruct (5 <? fail_count c)%nat eqn:H5; try lia.
  - intros Hmore. unfold auto_summary.
    assert (H0 : (0 <? fail_count c)%nat = true) by (apply Nat.ltb_lt; lia).
    assert (H5 : (5 <? length (errors c))%nat = true) by (apply Nat.ltb_lt; lia).
    rewrite H0, H5, Hlen. rewrite !app_assoc. apply last_last.
Qed.

Lemma auto_summary_shows_at_most_five_errors_witness :
  exists c,
    snd (auto_mode sample_env sample_chats sample_ids empty_world) = Ok c
    /\ length (auto_summary sample_env c) = 4%nat.
Proof.
  eexists. split; [reflexivity|].
  destruct (auto_summary_shows_at_most_five_errors
              sample_env sample_chats sample_ids empty_world _ _ eq_refl)
    as (Hcount & _).
  rewrite Hcount. reflexivity.
Defined.

(** ** Format detection *)

Lemma all_keys_in_object (fields : list (pystr * json)) :
  all_keys_in required_keys (JObj fields)
  = Ok (match lookup k_id fields, lookup k_title fields, lookup k_messages fields with
        | Some _, Some _, Some _ => true
        | _, _, _ => false
        end).
Proof.
  unfold required_keys. cbn [all_keys_in py_contains rbind].
  destruct (lookup k_id fields); [|reflexivity].
  destruct (lookup k_title fields); [|reflexivity].
  destruct (lookup k_messages fields); reflexivity.
Qed.

Lemma parse_messages_raises (items : list json) (e : exn) :
  parse_messages items = Raise e -> e = AttributeError.
Proof.
  induction items as [|msg rest IH]; cbn; [discriminate|].
  destruct (parse_message msg) as [r|e0] eqn:Hmsg; cbn.
  - destruct (parse_messages rest) as [tl|e1]; cbn; [discriminate|].
    intros [= <-]. apply IH. reflexivity.
  - intros [= <-]. revert Hmsg. unfold parse_message.
    destruct msg as [| | | | |fields]; cbn; try (intros [= <-]; reflexivity).
    destruct (lookup k_content fields) as [[| | |s| |]|]; cbn;
      try (intros [= <-]; reflexivity);
      match goal with
      | |- context [negb ?b] => destruct (negb b); discriminate
      end.
Qed.

(** With an [id] in the file, what the parser can raise is not something
    its [except] clause catches. *)
Lemma parse_data_raises (E : env) (now : pystr) (fields : list (pystr * json))
  (id : json) (e : exn) :
  lookup k_id fields = Some id ->
  parse_data E now (JObj fields) = Raise e ->
  e = AttributeError \/ e = TypeError.
Proof.
  intros Hid. unfold parse_data. cbn.
  destruct (py_iter _) as [items|e0] eqn:Hiter; cbn.
  - destruct (parse_messages items) as [[|m ms]|e1] eqn:Hms; cbn; try discriminate.
    + rewrite Hid. cbn. discriminate.
    + intros [= <-]. left. apply (parse_messages_raises items), Hms.
  - intros [= <-]. right. revert Hiter.
    destruct (match lookup k_messages fields with Some x => x | None => JArr [] end);
      cbn; intros [= <-]; reflexivity.
Qed.

(** X14. Detection and parsing agree on a file that is a JSON object: when
    a directory without the marker file is recognised through its first
    chat file, that file has [id], [title] and [messages], and the parser
    never reports it as failed: it prints nothing, what it can still raise
    is only [AttributeError] or [TypeError] (a field of the wrong type),
    and it returns [None] only when no message of the file has content. *)
Theorem recognised_file_is_parsed_quietly
  (E : env) (d : directory) (name now : pystr) (fields : list (pystr * json))
  (rest : list (pystr * result json)) (w : world) :
  has_version_file d = false ->
  chat_glob d = (name, Ok (JObj fields)) :: rest ->
  is_chatwise_format d = Ok true ->
  (exists id title messages,
      lookup k_id fields = Some id
      /\ lookup k_title fields = Some title
      /\ lookup k_messages fields = Some messages)
  /\ fst (parse_chat_file E name (Ok (JObj fields)) now w) = w
  /\ (forall e,
        snd (parse_chat_file E name (Ok (JObj fields)) now w) = Raise e ->
        e = AttributeError \/ e = TypeError)
  /\ (forall items,
        lookup k_messages fields = Some (JArr items) ->
        snd (parse_chat_file E name (Ok (JObj fields)) now w) = Ok None ->
        filter non_empty (map (fun msg => strip (source_content msg)) items) = []).
Proof.
  intros Hversion Hglob Hformat.
  unfold is_chatwise_format in Hformat. rewrite Hversion, Hglob in Hformat.
  cbn [rbind] in Hformat. rewrite all_keys_in_object in Hformat.
  destruct (lookup k_id fields) as [id|] eqn:Hid; [|discriminate].
  destruct (lookup k_title fields) as [title|] eqn:Htitle; [|discriminate].
  destruct (lookup k_messages fields) as [messages|] eqn:Hmessages; [|discriminate].
  split; [exists id, title, messages; repeat split|].
  unfold parse_chat_file. cbn [rbind].
  destruct (parse_data E now (JObj fields)) as [r|e] eqn:Hparse.
  - split; [reflexivity|]. split; [discriminate|].
    intros items [= ->] [= ->]. revert Hparse. unfold parse_data. cbn.
    rewrite Hmessages. cbn.
    destruct (parse_messages items) as [[|m ms]|] eqn:Hms; cbn; try discriminate.
    + intros _. apply parse_messages_kept in Hms as [Hmap _]. symmetry. exact Hmap.
    + rewrite Hid. cbn. discriminate.
  - destruct (parse_data_raises E now fields id e Hid Hparse) as [-> | ->]; cbn;
      (split; [reflexivity|]); (split; [intros e' [= <-]; tauto|]);
      intros items _ [=].
Qed.

Lemma recognised_file_is_parsed_quietly_witness :
  is_chatwise_format
    (mkDirectory false [(text "chat-1.json", Ok (sample_file "abc" (JStr (text "  ")) []))])
  = Ok true
  /\ fst (parse_chat_file sample_env (text "chat-1.json")
            (Ok (sample_file "abc" (JStr (text "  ")) [])) (text "now") empty_world)
     = empty_world.
Proof.
  split; [reflexivity|].
  destruct (recognised_file_is_parsed_quietly sample_env
              (mkDirectory false
                 [(text "chat-1.json", Ok (sample_file "abc" (JStr (text "  ")) []))])
              (text "chat-1.json") (text "now") _ [] empty_world
              eq_refl eq_refl eq_refl) as (_ & Hworld & _).
  exact Hworld.
Defined.

(** X15. A first chat file that holds JSON [null], a boolean or a number
    is not answered with "not recognised": [is_chatwise_format] raises
    [TypeError], which its [except] clause does not catch, and [main] ends
    with it instead of exit code 1, having done nothing. *)
Theorem scalar_first_file_raises
  (d : directory) (name : pystr) (v : json) (rest : list (pystr * result json)) :
  has_version_file d = false ->
  chat_glob d = (name, Ok v) :: rest ->
  is_scalar v = true ->
  is_chatwise_format d = Raise TypeError
  /\ forall E fuel auto manual w,
       main E fuel (on_directory d auto manual) w = Some (w, Raise TypeError).
Proof.
  intros Hversion Hglob Hscalar.
  assert (Hformat : is_chatwise_format d = Raise TypeError).
  { unfold is_chatwise_format. rewrite Hversion, Hglob.
    destruct v; try discriminate Hscalar; reflexivity. }
  split; [exact Hformat|].
  intros E fuel auto manual w. unfold main, on_directory. cbn.
  rewrite Hformat. reflexivity.
Qed.

Lemma scalar_first_file_raises_witness :
  is_chatwise_format (mkDirectory false [(text "chat-1.json", Ok (JInt 5))])
  = Raise TypeError.
Proof.
  apply (scalar_first_file_raises
           (mkDirectory false [(text "chat-1.json", Ok (JInt 5))])
           (text "chat-1.json") (JInt 5) []); reflexivity.
Defined.

(** ** main *)

Lemma parse_chat_file_effects (E : env) (name : pystr) (loaded : result json)
  (now : pystr) (w w' : world) (r : result (option json)) :
  parse_chat_file E name loaded now w = (w', r) ->
  gets w' = gets w /\ posts w' = posts w /\ asked w' = asked w
  /\ ((console w' = console w
       /\ forall chat, r = Ok (Some chat) ->
            exists data, loaded = Ok data /\ parse_data E now data = Ok (Some chat))
      \/ (exists line, console w' = console w ++ [line] /\ r = Ok None)).
Proof.
  unfold parse_chat_file.
  destruct loaded as [data|e]; cbn [rbind].
  - destruct (parse_data E now data) as [res|e] eqn:Hparse.
    + intros [= <- <-]. repeat split. left. split; [reflexivity|].
      intros chat [= ->]. exists data. split; [reflexivity|exact Hparse].
    + destruct (parse_caught e); cbn.
      * intros [= <- <-]. repeat split. right. eexists. split; reflexivity.
      * intros [= <- <-]. repeat split. left. split; [reflexivity|]. intros ? [=].
  - destruct (parse_caught e); cbn.
    + intros [= <- <-]. repeat split. right. eexists. split; reflexivity.
    + intros [= <- <-]. repeat split. left. split; [reflexivity|]. intros ? [=].
Qed.

Lemma parse_files_effects (E : env) (files : list (pystr * result json)) :
  forall n w w' r,
    parse_files E n files w = (w', r) ->
    gets w' = gets w /\ posts w' = posts w /\ asked w' = asked w
    /\ exists lines,
        console w' = console w ++ lines
        /\ forall chats, r = Ok chats ->
             (length chats + length lines <= length files)%nat
             /\ Forall (parsed_from E files) chats.
Proof.
  induction files as [|[name loaded] rest IH]; intros n w w' r.
  - cbn. intros [= <- <-]. repeat split. exists []. rewrite app_nil_r.
    split; [reflexivity|]. intros chats [= <-]. split; [cbn; lia|constructor].
  - cbn [parse_files]. unfold bind at 1.
    destruct (parse_chat_file E name loaded (clock E n) w) as [w1 r1] eqn:Hone.
    destruct (parse_chat_file_effects E _ _ _ _ _ _ Hone) as (Hg & Hp & Ha & Hc).
    destruct r1 as [chat|e].
    2:{ intros [= <- <-]. repeat split; try assumption.
        destruct Hc as [[Hc _]|(line & _ & [=])].
        exists []. rewrite app_nil_r. split; [exact Hc|]. intros ? [=]. }
    unfold bind at 1.
    destruct (parse_files E (S n) rest w1) as [w2 r2] eqn:Hrest.
    destruct (IH _ _ _ _ Hrest) as (Hg2 & Hp2 & Ha2 & lines & Hc2 & Hchats).
    assert (Hmono : forall c, parsed_from E rest c -> parsed_from E ((name, loaded) :: rest) c).
    { intros c (nm & data & k & Hin & Hparse). exists nm, data, k.
      split; [right; exact Hin|exact Hparse]. }
    destruct r2 as [chats|e].
    2:{ intros [= <- <-]. repeat split; try congruence.
        destruct Hc as [[Hc _]|(line & Hc & _)].
        - exists lines. split; [congruence|]. intros ? [=].
        - exists (line :: lines). split; [|intros ? [=]].
          rewrite Hc2, Hc, <- app_assoc. reflexivity. }
    unfold ret. intros [= <- <-]. repeat split; try congruence.
    destruct (Hchats chats eq_refl) as [Hlen Hall].
    assert (Hall' : Forall (parsed_from E ((name, loaded) :: rest)) chats).
    { eapply Forall_impl; [exact Hmono|exact Hall]. }
    destruct Hc as [[Hc Horigin]|(line & Hc & [= ->])].
    + exists lines. split; [congruence|]. intros out [= <-].
      destruct chat as [c|].
      * destruct (py_truthy c).
        -- split; [cbn; lia|]. constructor; [|exact Hall'].
           destruct (Horigin c eq_refl) as (data & -> & Hparse).
           exists name, data, n. split; [left; reflexivity|exact Hparse].
        -- split; [cbn; lia|exact Hall'].
      * split; [cbn; lia|exact Hall'].
    + exists (line :: lines). split.
      * rewrite Hc2, Hc, <- app_assoc. reflexivity.
      * intros out [= <-]. split; [cbn [length]; lia|exact Hall'].
Qed.

(** X16. Reading the chat files, [main] accounts for each file at most
    once: the records it keeps and the failure lines it prints together
    are no more than the files, every kept record was parsed from one of
    the files, and nothing is sent or asked while the files are read. *)
Theorem parse_files_accounts_for_each_file
  (E : env) (files : list (pystr * result json)) (n : nat) (w w' : world)
  (chats : list json) :
  parse_files E n files w = (w', Ok chats) ->
  (length chats + (length (console w') - length (console w)) <= length files)%nat
  /\ Forall (parsed_from E files) chats
  /\ gets w' = gets w /\ posts w' = posts w /\ asked w' = asked w.
Proof.
  intros Hrun.
  destruct (parse_files_effects E files _ _ _ _ Hrun)
    as (Hg & Hp & Ha & lines & Hc & Hchats).
  destruct (Hchats chats eq_refl) as [Hlen Hall].
  repeat split; try assumption.
  rewrite Hc, length_app. lia.
Qed.

Lemma parse_files_accounts_for_each_file_witness :
  exists w' chats,
    parse_files sample_env 0 sample_files empty_world = (w', Ok chats)
    /\ (length chats + (length (console w') - 0) <= 3)%nat
    /\ length chats = 1%nat /\ length (console w') = 1%nat.
Proof.
  eexists _, _. split; [reflexivity|].
  split; [|split; reflexivity].
  exact (proj1 (parse_files_accounts_for_each_file
                  sample_env sample_files 0 empty_world _ _ eq_refl)).
Defined.

(** A run of a driver sends records of its input only. *)
Lemma auto_mode_sends_input (E : env) (chats ids : list json) (w w' : world)
  (r : result auto_counts) :
  auto_mode E chats ids w = (w', r) ->
  exists sent, posts w' = posts w ++ sent /\ forall body, In body sent -> In body chats.
Proof.
  intros Hrun.
  destruct (auto_mode_loop E chats ids w w' r Hrun) as (d & r0 & Hloop & _).
  destruct (auto_loop_spec E ids chats _ _ _ _ _ _ Hloop) as (sent & Hp & Hin & _).
  exists sent. split; [exact Hp|]. intros body Hb. apply (Hin body Hb).
Qed.

Lemma manual_mode_sends_input (E : env) (chats ids : list json) (w w' : world)
  (r : result manual_counts) :
  manual_mode E chats ids w = (w', r) ->
  exists sent, posts w' = posts w ++ sent /\ forall body, In body sent -> In body chats.
Proof.
  intros Hrun.
  destruct (manual_loop_spec E ids chats _ _ _ _ _ _ Hrun) as (sent & Hp & Hin & _).
  exists sent. split; [exact Hp|]. intros body Hb. apply (Hin body Hb).
Qed.

(** The stages of [main_import]: either it stops while reading and listing
    the files, having sent nothing, or the files gave records, the chat
    list was filled and printed, and what is sent afterwards are records of
    that list. *)
Lemma main_import_stages (E : env) (fuel : nat) (auto manual : bool)
  (files : list (pystr * result json)) (w w' : world) (r : result report) :
  main_import E fuel auto manual files w = Some (w', r) ->
  exists w1,
    gets w1 = gets w /\ posts w1 = posts w /\ asked w1 = asked w
    /\ (w' = w1
        \/ exists chats rows,
            parse_files E 0 files w = (w1, Ok chats)
            /\ chats <> []
            /\ list_rows chats = Ok rows
            /\ cells_shown E (chat_list_cells rows)
            /\ Forall (parsed_from E files) chats
            /\ exists sent,
                posts w' = posts w1 ++ sent
                /\ forall body, In body sent -> In body chats).
Proof.
  unfold main_import. intros Hrun.
  destruct (parse_files E 0 files w) as [w1 rp] eqn:Hparse.
  destruct (parse_files_effects E files _ _ _ _ Hparse)
    as (Hg & Hp & Ha & lines & _ & Hchats).
  exists w1. split; [exact Hg|]. split; [exact Hp|]. split; [exact Ha|].
  destruct rp as [chats|e]; [|injection Hrun as Hw _; left; symmetry; exact Hw].
  destruct (Hchats chats eq_refl) as [_ Hall].
  destruct chats as [|chat chats]; [injection Hrun as Hw _; left; symmetry; exact Hw|].
  destruct (list_rows (chat :: chats)) as [rows|e] eqn:Hrows; cbn [rbind] in Hrun;
    [|injection Hrun as Hw _; left; symmetry; exact Hw].
  destruct (show_cells E (chat_list_cells rows)) as [[]|e] eqn:Hshow;
    [|injection Hrun as Hw _; left; symmetry; exact Hw].
  apply show_cells_iff in Hshow.
  right. exists (chat :: chats), rows.
  split; [reflexivity|]. split; [discriminate|]. split; [exact Hrows|].
  split; [exact Hshow|]. split; [exact Hall|].
  destruct (fetch_existing_threads E fuel w1) as [[w2 rf]|] eqn:Hfetch; [|discriminate].
  destruct (fetch_existing_threads_effects E fuel w1 w2 rf Hfetch)
    as (k & _ & _ & Hp2 & _).
  assert (Hnone : forall e : exn, Some (w2, @Raise report e) = Some (w', r) ->
            exists sent, posts w' = posts w1 ++ sent
                         /\ forall body, In body sent -> In body (chat :: chats)).
  { intros e [= Hw _]. exists []. rewrite app_nil_r, <- Hw.
    split; [exact Hp2|intros ? []]. }
  destruct rf as [threads|e]; [|exact (Hnone _ Hrun)].
  destruct (existing_ids_of threads) as [ids|e]; [|exact (Hnone _ Hrun)].
  destruct (choose_mode E auto manual) as [[ | | ]|e]; try exact (Hnone _ Hrun).
  - unfold bind in Hrun.
    destruct (manual_mode E (chat :: chats) ids w2) as [w3 r3] eqn:Hm.
    destruct (manual_mode_sends_input E _ _ _ _ _ Hm) as (sent & Hp3 & Hin).
    exists sent. split; [|exact Hin].
    destruct r3; injection Hrun as Hw _; rewrite <- Hw, Hp3, Hp2; reflexivity.
  - unfold bind in Hrun.
    destruct (auto_mode E (chat :: chats) ids w2) as [w3 r3] eqn:Hm.
    destruct (auto_mode_sends_input E _ _ _ _ _ Hm) as (sent & Hp3 & Hin).
    exists sent. split; [|exact Hin].
    destruct r3; injection Hrun as Hw _; rewrite <- Hw, Hp3, Hp2; reflexivity.
  - unfold bind in Hrun.
    destruct (auto_mode E (chat :: chats) ids w2) as [w3 r3] eqn:Hm.
    destruct (auto_mode_sends_input E _ _ _ _ _ Hm) as (sent & Hp3 & Hin).
    exists sent. split; [|exact Hin].
    destruct r3; injection Hrun as Hw _; rewrite <- Hw, Hp3, Hp2; reflexivity.
Qed.

Lemma insert_file_In (f x : pystr * result json) (files : list (pystr * result json)) :
  In x (insert_file f files) <-> x = f \/ In x files.
Proof.
  induction files as [|g rest IH]; cbn.
  - split; [intros [<-|[]]; left; reflexivity|intros [->|[]]; left; reflexivity].
  - destruct (str_leb (fst f) (fst g)); cbn.
    + split; [intros [<-|H]; [left; reflexivity|right; exact H]
             |intros [->|H]; [left; reflexivity|right; exact H]].
    + rewrite IH. split.
      * intros [<-|[->|H]]; [right; left; reflexivity|left; reflexivity|right; right; exact H].
      * intros [->|[<-|H]]; [right; left; reflexivity|left; reflexivity|right; right; exact H].
Qed.

Lemma sorted_files_In (x : pystr * result json) (files : list (pystr * result json)) :
  In x (sorted_files files) <-> In x files.
Proof.
  unfold sorted_files. induction files as [|f rest IH]; cbn; [reflexivity|].
  rewrite insert_file_In, IH. split; intros [H|H]; auto.
Qed.

Lemma main_stages (E : env) (fuel : nat) (a : invocation) (w w' : world)
  (r : result report) :
  main E fuel a w = Some (w', r) ->
  w' = w
  \/ exists d,
      work_dir_of a = Ok d /\ is_chatwise_format d = Ok true
      /\ main_import E fuel (flag_auto a) (flag_manual a)
           (sorted_files (chat_glob d)) w = Some (w', r).
Proof.
  unfold main. intros Hrun.
  destruct (work_dir_of a) as [d|e] eqn:Hwork;
    [|injection Hrun as Hw _; left; symmetry; exact Hw].
  destruct (is_chatwise_format d) as [[|]|e] eqn:Hformat;
    try (injection Hrun as Hw _; left; symmetry; exact Hw).
  right. exists d. split; [reflexivity|]. split; [exact Hformat|exact Hrun].
Qed.

(** X17. Whatever [main] sends to be created is a record the parser made
    from one of the chat files of the recognised working directory: its
    identifier is "chatwise-" followed by the file's id, and it carries at
    least one message, each with a content that is not empty and has no
    surrounding whitespace.  This holds for every run, in either mode,
    completed or not. *)
Theorem main_sends_only_parsed_records
  (E : env) (fuel : nat) (a : invocation) (w w' : world) (r : result report) :
  main E fuel a w = Some (w', r) ->
  exists sent,
    posts w' = posts w ++ sent
    /\ forall body, In body sent ->
         exists d,
           work_dir_of a = Ok d
           /\ is_chatwise_format d = Ok true
           /\ parsed_from E (chat_glob d) body
           /\ (exists id,
                  py_item body k_thread_id = Ok (JStr (text "chatwise-" ++ py_str E id)))
           /\ (exists messages,
                  py_item body k_messages = Ok (JArr messages)
                  /\ messages <> []
                  /\ Forall kept_message messages).
Proof.
  intros Hrun.
  destruct (main_stages E fuel a w w' r Hrun) as [->|(d & Hwork & Hformat & Himport)].
  { exists []. rewrite app_nil_r. split; [reflexivity|intros ? []]. }
  destruct (main_import_stages E fuel _ _ _ _ _ _ Himport)
    as (w1 & _ & Hp1 & _ & [->|(chats & rows & _ & _ & _ & _ & Hall & sent & Hp & Hin)]).
  { exists []. rewrite app_nil_r. split; [exact Hp1|intros ? []]. }
  exists sent. split; [congruence|].
  intros body Hb. exists d. split; [exact Hwork|]. split; [exact Hformat|].
  rewrite Forall_forall in Hall.
  destruct (Hall body (Hin body Hb)) as (name & data & n & Hfile & Hparse).
  split.
  { exists name, data, n. split; [apply sorted_files_In, Hfile|exact Hparse]. }
  destruct (parse_data_record_kept E _ data body Hparse)
    as (fields & id & m & messages & -> & _ & Hkept & ->).
  split.
  - exists id. reflexivity.
  - exists (m :: messages). split; [reflexivity|]. split; [discriminate|exact Hkept].
Qed.

(** X18. [main] sends nothing before its checks are through: a run that
    has sent any request, listing or create, had a working directory that
    was recognised, at least one file that gave a record, and a chat list
    that was filled for all records and printed, the console rendering the
    text of its cells. *)
Theorem main_sends_nothing_before_validation
  (E : env) (fuel : nat) (a : invocation) (w w' : world) (r : result report) :
  main E fuel a w = Some (w', r) ->
  gets w' <> gets w \/ posts w' <> posts w ->
  exists d w1 chats rows,
    work_dir_of a = Ok d
    /\ is_chatwise_format d = Ok true
    /\ parse_files E 0 (sorted_files (chat_glob d)) w = (w1, Ok chats)
    /\ chats <> []
    /\ list_rows chats = Ok rows
    /\ cells_shown E (chat_list_cells rows).
Proof.
  intros Hrun Hsent.
  destruct (main_stages E fuel a w w' r Hrun) as [->|(d & Hwork & Hformat & Himport)].
  { destruct Hsent as [H|H]; contradiction H; reflexivity. }
  destruct (main_import_stages E fuel _ _ _ _ _ _ Himport)
    as (w1 & Hg1 & Hp1 & _ & [->|(chats & rows & Hparse & Hne & Hrows & Hshown & _)]).
  { destruct Hsent as [H|H]; contradiction. }
  exists d, w1, chats, rows. repeat split; assumption.
Qed.

Lemma main_sends_only_parsed_records_witness :
  exists w' r,
    main sample_env 3 sample_invocation empty_world = Some (w', r)
    /\ length (posts w') = 1%nat
    /\ forall body, In body (posts w') ->
         parsed_from sample_env sample_files body.
Proof.
  eexists _, _. split; [reflexivity|]. split; [reflexivity|].
  destruct (main_sends_only_parsed_records sample_env 3 sample_invocation
              empty_world _ _ eq_refl) as (sent & Hp & Hall).
  intros body Hb. rewrite Hp in Hb.
  destruct (Hall body Hb) as (d & [= <-] & _ & Hfrom & _). exact Hfrom.
Defined.

Lemma main_sends_nothing_before_validation_witness :
  exists d w1 chats rows,
    work_dir_of sample_invocation = Ok d
    /\ is_chatwise_format d = Ok true
    /\ parse_files sample_env 0 (sorted_files (chat_glob d)) empty_world = (w1, Ok chats)
    /\ chats <> []
    /\ list_rows chats = Ok rows
    /\ cells_shown sample_env (chat_list_cells rows).
Proof.
  apply (main_sends_nothing_before_validation sample_env 3 sample_invocation
           empty_world _ _ eq_refl).
  left. discriminate.
Defined.

Lemma app_cons_neq {A} (l : list A) (x : A) (t : list A) : l ++ x :: t <> l.
Proof.
  intros H. apply (f_equal (@length A)) in H. rewrite length_app in H. cbn in H. lia.
Qed.

(** X19. The remote listing is fetched before the mode is chosen.  When
    neither flag is given and the user answers "q" to the mode prompt, the
    run never sends a create request, never asks about a record and gives
    no report; when the files were read, the chat list was filled and
    printed (the console rendering its cells) and the listing was read
    without trouble, it ends with exit code 0, after the listing requests
    were sent. *)
Theorem quitting_at_the_mode_prompt
  (E : env) (fuel : nat) (files : list (pystr * result json)) (w w' : world)
  (r : result report) :
  ask_mode E = Ok ModeQuit ->
  main_import E fuel false false files w = Some (w', r) ->
  posts w' = posts w /\ asked w' = asked w
  /\ (exists e, r = Raise e)
  /\ (forall w1 chats rows w2 threads ids,
        parse_files E 0 files w = (w1, Ok chats) ->
        chats <> [] ->
        list_rows chats = Ok rows ->
        cells_shown E (chat_list_cells rows) ->
        fetch_existing_threads E fuel w1 = Some (w2, Ok threads) ->
        existing_ids_of threads = Ok ids ->
        w' = w2 /\ r = Raise (SystemExit 0) /\ gets w' <> gets w).
Proof.
  intros Hquit Hrun. unfold main_import in Hrun. unfold choose_mode in Hrun.
  rewrite Hquit in Hrun. cbn [rbind] in Hrun.
  destruct (parse_files E 0 files w) as [w1 rp] eqn:Hparse.
  destruct (parse_files_effects E files _ _ _ _ Hparse)
    as (Hg & Hp & Ha & lines & _ & _).
  assert (Hstop : forall x : exn, Some (w1, @Raise report x) = Some (w', r) ->
            posts w' = posts w /\ asked w' = asked w /\ (exists e, r = Raise e)).
  { intros x [= <- <-]. repeat split; try assumption. eexists; reflexivity. }
  destruct rp as [chats|e].
  2:{ destruct (Hstop _ Hrun) as (H1 & H2 & H3).
      split; [exact H1|]. split; [exact H2|]. split; [exact H3|].
      intros ? ? ? ? ? ? [=]. }
  destruct chats as [|chat chats].
  { destruct (Hstop _ Hrun) as (H1 & H2 & H3).
      split; [exact H1|]. split; [exact H2|]. split; [exact H3|].
    intros ? ? ? ? ? ? [= _ <-] Hne. contradiction. }
  destruct (list_rows (chat :: chats)) as [rows|e] eqn:Hrows; cbn [rbind] in Hrun.
  2:{ destruct (Hstop _ Hrun) as (H1 & H2 & H3).
      split; [exact H1|]. split; [exact H2|]. split; [exact H3|].
      intros ? ? ? ? ? ? [= _ <-] _ Hr. rewrite Hrows in Hr. discriminate Hr. }
  destruct (show_cells E (chat_list_cells rows)) as [[]|e] eqn:Hshow.
  2:{ destruct (Hstop _ Hrun) as (H1 & H2 & H3).
      split; [exact H1|]. split; [exact H2|]. split; [exact H3|].
      intros ? ? ? ? ? ? [= _ <-] _ Hr Hs. rewrite Hrows in Hr. injection Hr as <-.
      apply show_cells_iff in Hs. rewrite Hs in Hshow. discriminate Hshow. }
  clear Hstop.
  destruct (fetch_existing_threads E fuel w1) as [[w2 rf]|] eqn:Hfetch; [|discriminate].
  destruct (fetch_existing_threads_effects E fuel w1 w2 rf Hfetch)
    as (k & Hk & Hg2 & Hp2 & Ha2 & _).
  assert (Hstop : forall x : exn, Some (w2, @Raise report x) = Some (w', r) ->
            posts w' = posts w /\ asked w' = asked w /\ (exists e, r = Raise e)).
  { intros x [= <- <-]. repeat split; try congruence. eexists; reflexivity. }
  destruct rf as [threads|e].
  2:{ destruct (Hstop _ Hrun) as (H1 & H2 & H3).
      split; [exact H1|]. split; [exact H2|]. split; [exact H3|].
      intros ? ? ? ? ? ? [= <- <-] _ _ _ Hf. rewrite Hfetch in Hf. discriminate Hf. }
  destruct (existing_ids_of threads) as [ids|e] eqn:Hids.
  2:{ destruct (Hstop _ Hrun) as (H1 & H2 & H3).
      split; [exact H1|]. split; [exact H2|]. split; [exact H3|].
      intros ? ? ? ? ? ? [= <- <-] _ _ _ Hf. rewrite Hfetch in Hf. injection Hf as <- <-.
      rewrite Hids. discriminate. }
  destruct (Hstop _ Hrun) as (H1 & H2 & H3).
  split; [exact H1|]. split; [exact H2|]. split; [exact H3|].
  intros ? ? ? ? ? ? [= <- <-] _ _ _ Hf _. rewrite Hfetch in Hf. injection Hf as <- <-.
  injection Hrun as <- <-.
  split; [reflexivity|]. split; [reflexivity|].
  rewrite Hg2, Hg. destruct k as [|k]; [lia|]. cbn [seq map]. apply app_cons_neq.
Qed.

Lemma quitting_at_the_mode_prompt_witness :
  exists w',
    main_import (mkEnv (http_get sample_env) sample_post (ask_choice sample_env)
                   (Ok ModeQuit) (clock sample_env) (repr sample_env)
                   (exn_str sample_env) rich_print)
      3 false false sample_files empty_world
    = Some (w', Raise (SystemExit 0))
    /\ posts w' = [] /\ asked w' = 0%nat /\ gets w' <> [].
Proof.
  eexists. split; [reflexivity|].
  destruct (quitting_at_the_mode_prompt
              (mkEnv (http_get sample_env) sample_post (ask_choice sample_env)
                 (Ok ModeQuit) (clock sample_env) (repr sample_env)
                 (exn_str sample_env) rich_print)
              3 sample_files empty_world _ _ eq_refl eq_refl) as (Hp & Ha & _ & Hend).
  split; [exact Hp|]. split; [exact Ha|].
  refine (proj2 (proj2 (Hend _ _ _ _ _ _ eq_refl _ eq_refl _ eq_refl eq_refl))).
  - discriminate.
  - apply show_cells_iff. reflexivity.
Defined.

(** X20. [--auto] wins: with it the run that gives a report gives the
    batch report, whatever [--manual] says and without any prompt, about
    the mode or about a record; with [--manual] alone it gives the report
    of the interactive driver. *)
Theorem flags_choose_the_mode
  (E : env) (fuel : nat) (files : list (pystr * result json)) (w w' : world)
  (rep : report) :
  (forall manual,
      main_import E fuel true manual files w = Some (w', Ok rep) ->
      (exists c, rep = AutoReport c) /\ asked w' = asked w)
  /\ (main_import E fuel false true files w = Some (w', Ok rep) ->
      exists c, rep = ManualReport c).
Proof.
  split.
  - intros manual Hrun. unfold main_import in Hrun. cbn [choose_mode] in Hrun.
    destruct (parse_files E 0 files w) as [w1 [[|chat chats]|]] eqn:Hparse;
      try discriminate.
    destruct (parse_files_effects E files _ _ _ _ Hparse) as (_ & _ & Ha & _).
    destruct (list_rows (chat :: chats)) as [rows|]; cbn [rbind] in Hrun;
      [|discriminate].
    destruct (show_cells E (chat_list_cells rows)) as [[]|]; [|discriminate].
    destruct (fetch_existing_threads E fuel w1) as [[w2 [threads|]]|] eqn:Hfetch;
      try discriminate.
    destruct (fetch_existing_threads_effects E fuel w1 w2 _ Hfetch)
      as (k & _ & _ & _ & Ha2 & _).
    destruct (existing_ids_of threads) as [ids|]; [|discriminate].
    unfold bind in Hrun.
    destruct (auto_mode E (chat :: chats) ids w2) as [w3 [c|]] eqn:Hm;
      [|discriminate].
    destruct (auto_mode_loop E _ _ _ _ _ Hm) as (d & r0 & Hloop & _).
    destruct (auto_loop_effects E ids _ _ _ _ _ _ _ Hloop) as (_ & _ & Ha3 & _).
    injection Hrun as <- <-. split; [eexists; reflexivity|congruence].
  - intros Hrun. unfold main_import in Hrun. cbn [choose_mode] in Hrun.
    destruct (parse_files E 0 files w) as [w1 [[|chat chats]|]]; try discriminate.
    destruct (list_rows (chat :: chats)) as [rows|]; cbn [rbind] in Hrun;
      [|discriminate].
    destruct (show_cells E (chat_list_cells rows)) as [[]|]; [|discriminate].
    destruct (fetch_existing_threads E fuel w1) as [[w2 [threads|]]|];
      try discriminate.
    destruct (existing_ids_of threads) as [ids|]; [|discriminate].
    unfold bind in Hrun.
    destruct (manual_mode E (chat :: chats) ids w2) as [w3 [c|]]; [|discriminate].
    injection Hrun as _ <-. eexists; reflexivity.
Qed.

Lemma flags_choose_the_mode_witness :
  exists w' c,
    main_import quitting_env 3 true true sample_files empty_world
    = Some (w', Ok (AutoReport c))
    /\ asked w' = 0%nat.
Proof.
  eexists _, _. split; [reflexivity|].
  refine (proj2 (proj1 (flags_choose_the_mode quitting_env 3 sample_files
                          empty_world _ _) true _)).
  reflexivity.
Defined.

Lemma list_rows_all (chats : list json) (rows : list (json * json)) :
  list_rows chats = Ok rows -> Forall (fun chat => list_row chat = Ok tt) chats.
Proof.
  revert rows. induction chats as [|chat rest IH]; intros rows; cbn [list_rows];
    [constructor|].
  destruct (list_row_cells chat) as [row|] eqn:Hrow; cbn [rbind]; [|discriminate].
  destruct (list_rows rest) as [more|]; cbn [rbind]; [|discriminate].
  intros _. constructor; [|exact (IH more eq_refl)].
  unfold list_row. rewrite Hrow. reflexivity.
Qed.

(** A parsed record whose row of the chat list rendered has a string
    identifier and a string title. *)
Lemma parsed_listed_batch_ready (E : env) (files : list (pystr * result json))
  (chat : json) :
  parsed_from E files chat -> list_row chat = Ok tt -> batch_ready chat.
Proof.
  intros (name & data & n & _ & Hparse) Hrow.
  destruct (parse_data_record E _ data chat Hparse)
    as (fields & id & messages & -> & _ & _ & ->).
  revert Hrow. unfold list_row, list_row_cells, export_record, metadata_get, batch_ready.
  cbn.
  destruct (field_or fields k_createdAt JNull); cbn; try discriminate;
    destruct (field_or fields k_title (JStr s_untitled)); cbn; try discriminate;
    intros _; eexists _, _; split; reflexivity.
Qed.

Lemma fetch_existing_threads_listing_down (E : env) (fuel : nat) (w : world) :
  listing_down E ->
  fetch_existing_threads E (S fuel) w
  = Some (mkWorld (console w ++ [warn_connect]) (gets w ++ [(100, 0)])
            (posts w) (asked w),
          Ok []).
Proof.
  intros Hdown. unfold fetch_existing_threads. cbn [fetch_loop].
  unfold fetch_page, requests_get. rewrite Hdown. reflexivity.
Qed.

Lemma fresh_records_no_ids (chats : list json) : fresh_records [] chats = chats.
Proof.
  unfold fresh_records. induction chats as [|chat rest IH]; cbn; [reflexivity|].
  assert (Hd : is_duplicate [] chat = false).
  { unfold is_duplicate, set_contains.
    destruct (py_item chat k_thread_id) as [tid|]; [|reflexivity].
    destruct (hashable tid); reflexivity. }
  rewrite Hd. cbn. rewrite IH. reflexivity.
Qed.

Lemma count_duplicates_no_ids (chats : list json) : count_duplicates [] chats = 0%nat.
Proof.
  unfold count_duplicates. induction chats as [|chat rest IH]; cbn; [reflexivity|].
  assert (Hd : is_duplicate [] chat = false).
  { unfold is_duplicate, set_contains.
    destruct (py_item chat k_thread_id) as [tid|]; [|reflexivity].
    destruct (hashable tid); reflexivity. }
  rewrite Hd. exact IH.
Qed.

(** X21. With the server down the batch import still runs to its end.
    Once the files gave records and the chat list was filled and printed,
    and when the console renders what the batch driver shows of the
    records, a run with [--auto] sends one listing request, prints the
    warning that the server cannot be reached, treats no record as a
    duplicate, tries to create every record in order, and reports all of
    them as failed, each with its title and the connection-failure
    message. *)
Theorem main_import_with_the_server_down
  (E : env) (fuel : nat) (manual : bool) (files : list (pystr * result json))
  (w w1 : world) (chats : list json) (rows : list (json * json)) :
  listing_down E ->
  server_down E ->
  parse_files E 0 files w = (w1, Ok chats) ->
  chats <> [] ->
  list_rows chats = Ok rows ->
  cells_shown E (chat_list_cells rows) ->
  Forall (batch_shown E) chats ->
  (1 <= fuel)%nat ->
  main_import E fuel true manual files w
  = Some (mkWorld (console w1 ++ [warn_connect]) (gets w1 ++ [(100, 0)])
            (posts w1 ++ chats) (asked w1),
          Ok (AutoReport
                (mkAuto 0 (length chats) 0
                   (map (fun chat => (title_of chat, msg_connect)) chats)))).
Proof.
  intros Hlisting Hserver Hparse Hne Hrows Hcells Hshown Hfuel.
  assert (Hready : Forall batch_ready chats).
  { destruct (parse_files_effects E files _ _ _ _ Hparse) as (_ & _ & _ & lines & _ & Hc).
    destruct (Hc chats eq_refl) as [_ Hfrom].
    pose proof (list_rows_all chats rows Hrows) as Hall.
    rewrite Forall_forall in *. intros chat Hin.
    exact (parsed_listed_batch_ready E files chat (Hfrom chat Hin) (Hall chat Hin)). }
  unfold main_import. rewrite Hparse.
  destruct chats as [|chat chats]; [contradiction|]. rewrite Hrows. cbn [rbind].
  apply show_cells_iff in Hcells. rewrite Hcells.
  destruct fuel as [|fuel]; [lia|].
  rewrite (fetch_existing_threads_listing_down E fuel w1 Hlisting).
  cbn [existing_ids_of choose_mode]. unfold bind, auto_mode.
  destruct (auto_loop_server_down E (chat :: chats) [] Hserver Hready Hshown
              None 0%nat 0%nat []
              (mkWorld (console w1 ++ [warn_connect]) (gets w1 ++ [(100, 0)])
                 (posts w1) (asked w1)) I)
    as (dsc' & Hrun & Hdsc & Herrs).
  rewrite Hrun. rewrite (progress_exit_shown E dsc' _ Hdsc). cbn [rbind app].
  rewrite show_errors_all by exact Herrs.
  rewrite fresh_records_no_ids, count_duplicates_no_ids. reflexivity.
Qed.

Lemma main_import_with_the_server_down_witness :
  exists w',
    main_import offline_env 1 true false sample_files empty_world
    = Some (w', Ok (AutoReport (mkAuto 0 1 0 [(JStr (text "T"), msg_connect)])))
    /\ gets w' = [(100, 0)] /\ length (posts w') = 1%nat.
Proof.
  assert (Hlisting : listing_down offline_env) by (intros n l o; reflexivity).
  assert (Hserver : server_down offline_env) by (intros n body; reflexivity).
  assert (Hne : [chat_a] <> []) by discriminate.
  assert (Hcells : cells_shown offline_env
                     (chat_list_cells [(JStr (text "T"), JStr (text "2024-05-06"))]))
    by (apply show_cells_iff; reflexivity).
  assert (Hshown : Forall (batch_shown offline_env) [chat_a]).
  { apply Forall_cons; [|apply Forall_nil].
    intros title [= <-]. split; [reflexivity|].
    intros r (n & body & [= <-]) _. reflexivity. }
  pose proof (main_import_with_the_server_down offline_env 1 false sample_files
                empty_world
                (fst (parse_files offline_env 0 sample_files empty_world))
                [chat_a] _ Hlisting Hserver eq_refl Hne eq_refl Hcells Hshown
                (le_n 1)) as Hrun.
  eexists. split; [rewrite Hrun; reflexivity|split; reflexivity].
Defined.

(** ** The order of the chat files *)

Lemma str_leb_total (a b : pystr) : str_leb a b = true \/ str_leb b a = true.
Proof.
  revert b. induction a as [|x a IH]; intros [|y b]; cbn; auto.
  destruct (N.ltb_spec x y) as [Hxy|Hxy]; [left; reflexivity|].
  destruct (N.eqb_spec x y) as [->|Hne].
  - rewrite N.ltb_irrefl, N.eqb_refl. apply IH.
  - right. destruct (N.ltb_spec y x) as [_|Hyx]; [reflexivity|]. lia.
Qed.

Lemma str_leb_antisym (a b : pystr) :
  str_leb a b = true -> str_leb b a = true -> a = b.
Proof.
  revert b. induction a as [|x a IH]; intros [|y b]; cbn; try discriminate;
    [reflexivity|].
  destruct (N.ltb_spec x y) as [Hxy|Hxy].
  - intros _. destruct (N.ltb_spec y x) as [Hyx|Hyx]; [lia|].
    destruct (N.eqb_spec y x) as [->|_]; [lia|discriminate].
  - destruct (N.eqb_spec x y) as [->|Hne]; [|discriminate].
    rewrite N.ltb_irrefl, N.eqb_refl. intros H1 H2. f_equal. exact (IH b H1 H2).
Qed.

Lemma str_leb_trans (a b c : pystr) :
  str_leb a b = true -> str_leb b c = true -> str_leb a c = true.
Proof.
  revert b c. induction a as [|x a IH]; intros [|y b] [|z c]; cbn;
    try discriminate; try reflexivity.
  destruct (N.ltb_spec x y) as [Hxy|Hxy].
  - intros _. destruct (N.ltb_spec y z) as [Hyz|Hyz].
    + intros _. destruct (N.ltb_spec x z); [reflexivity|lia].
    + destruct (N.eqb_spec y z) as [->|_]; [|discriminate].
      intros _. destruct (N.ltb_spec x z); [reflexivity|lia].
  - destruct (N.eqb_spec x y) as [->|_]; [|discriminate].
    intros Hab. destruct (N.ltb_spec y z) as [Hyz|Hyz]; [reflexivity|].
    destruct (N.eqb_spec y z) as [->|_]; [|discriminate].
    intros Hbc. exact (IH b c Hab Hbc).
Qed.

Lemma insert_file_sorted (f : pystr * result json) (files : list (pystr * result json)) :
  StronglySorted name_le files -> StronglySorted name_le (insert_file f files).
Proof.
  induction 1 as [|g rest Hsorted IH Hall]; cbn.
  - constructor; constructor.
  - destruct (str_leb (fst f) (fst g)) eqn:Hfg.
    + constructor; [constructor; assumption|].
      constructor; [exact Hfg|].
      eapply Forall_impl; [|exact Hall].
      intros h Hgh. exact (str_leb_trans _ _ _ Hfg Hgh).
    + constructor; [exact IH|].
      apply Forall_forall. intros h Hh. apply insert_file_In in Hh as [->|Hh].
      * destruct (str_leb_total (fst f) (fst g)) as [H|H]; [congruence|exact H].
      * rewrite Forall_forall in Hall. exact (Hall h Hh).
Qed.

Lemma sorted_files_sorted (files : list (pystr * result json)) :
  StronglySorted name_le (sorted_files files).
Proof.
  unfold sorted_files. induction files as [|f rest IH]; cbn; [constructor|].
  apply insert_file_sorted, IH.
Qed.

Lemma insert_file_perm (f : pystr * result json) (files : list (pystr * result json)) :
  Permutation (f :: files) (insert_file f files).
Proof.
  induction files as [|g rest IH]; cbn; [reflexivity|].
  destruct (str_leb (fst f) (fst g)); [reflexivity|].
  rewrite perm_swap. apply perm_skip, IH.
Qed.

Lemma sorted_files_perm (files : list (pystr * result json)) :
  Permutation files (sorted_files files).
Proof.
  unfold sorted_files. induction files as [|f rest IH]; cbn; [reflexivity|].
  rewrite <- insert_file_perm. apply perm_skip, IH.
Qed.

(** Two listings of the same files, both in name order, are the same
    list, when no two files share a name. *)
Lemma sorted_listing_unique (l1 l2 : list (pystr * result json)) :
  StronglySorted name_le l1 ->
  StronglySorted name_le l2 ->
  Permutation l1 l2 ->
  NoDup (map fst l1) ->
  l1 = l2.
Proof.
  intros Hs1. revert l2. induction Hs1 as [|x l1 Hs1 IH Hx]; intros l2 Hs2 Hperm Hnodup.
  - apply Permutation_nil in Hperm. congruence.
  - destruct l2 as [|y l2].
    { apply Permutation_sym, Permutation_nil in Hperm. discriminate. }
    inversion Hs2 as [|? ? Hs2' Hy]; subst.
    inversion Hnodup as [|? ? Hnotin Hnodup']; subst.
    assert (Hyin : In y (x :: l1)).
    { apply (Permutation_in y (Permutation_sym Hperm)). left. reflexivity. }
    assert (Hxin : In x (y :: l2)).
    { apply (Permutation_in x Hperm). left. reflexivity. }
    assert (Hxy : x = y).
    { destruct Hyin as [Heq|Hyin]; [exact Heq|]. exfalso.
      assert (Hle1 : name_le x y) by (rewrite Forall_forall in Hx; exact (Hx y Hyin)).
      assert (Hle2 : name_le y x).
      { destruct Hxin as [<-|Hxin]; [exact Hle1|].
        rewrite Forall_forall in Hy. exact (Hy x Hxin). }
      apply Hnotin. rewrite (str_leb_antisym _ _ Hle1 Hle2).
      apply in_map, Hyin. }
    subst y. f_equal. apply IH; [exact Hs2'| |exact Hnodup'].
    exact (Permutation_cons_inv Hperm).
Qed.

(** X22. [main] reads the chat files in the order of their names, so with
    the marker file present its whole outcome, what it returns and what it
    sends and prints, does not depend on the order in which the file
    system lists the files of the directory (no two files share a name). *)
Theorem main_does_not_depend_on_listing_order
  (E : env) (fuel : nat) (auto manual : bool) (w : world)
  (files files' : list (pystr * result json)) :
  Permutation files files' ->
  NoDup (map fst files) ->
  main E fuel (on_directory (mkDirectory true files) auto manual) w
  = main E fuel (on_directory (mkDirectory true files') auto manual) w.
Proof.
  intros Hperm Hnodup.
  change (main_import E fuel auto manual (sorted_files files) w
          = main_import E fuel auto manual (sorted_files files') w).
  assert (Hsame : sorted_files files = sorted_files files').
  { apply sorted_listing_unique; try apply sorted_files_sorted.
    - rewrite <- (sorted_files_perm files), <- (sorted_files_perm files'). exact Hperm.
    - eapply Permutation_NoDup; [|exact Hnodup].
      apply Permutation_map, sorted_files_perm. }
  rewrite Hsame. reflexivity.
Qed.

Lemma main_does_not_depend_on_listing_order_witness :
  main sample_env 3 (on_directory (mkDirectory true sample_files) true false) empty_world
  = main sample_env 3 (on_directory (mkDirectory true (rev sample_files)) true false)
      empty_world.
Proof.
  apply main_does_not_depend_on_listing_order.
  - apply Permutation_rev.
  - repeat constructor; cbn; intuition discriminate.
Defined.

(** ** A file that is not an object *)

Lemma py_contains_element (key : pystr) (items : list json) :
  In (JStr key) items -> py_contains key (JArr items) = Ok true.
Proof.
  intros Hin. cbn. f_equal. apply existsb_exists. exists (JStr key).
  split; [exact Hin|]. cbn. apply str_eqb_refl.
Qed.

(** X23. The keys are looked for with [in], which also answers for a
    string and for a list.  A first chat file that holds a JSON string in
    which "id", "title" and "messages" occur, or a JSON list that has these
    three strings among its elements, passes the format check; the parser
    cannot read such a file, and when it is the only one [main] ends with
    [AttributeError] right after the check, having sent nothing. *)
Theorem non_object_file_passes_the_format_check
  (d : directory) (name : pystr) (v : json) :
  has_version_file d = false ->
  chat_glob d = [(name, Ok v)] ->
  (exists s, v = JStr s
             /\ is_infix k_id s = true /\ is_infix k_title s = true
             /\ is_infix k_messages s = true)
  \/ (exists items, v = JArr items
                    /\ In (JStr k_id) items /\ In (JStr k_title) items
                    /\ In (JStr k_messages) items) ->
  is_chatwise_format d = Ok true
  /\ forall E fuel auto manual w,
       main E fuel (on_directory d auto manual) w = Some (w, Raise AttributeError).
Proof.
  intros Hversion Hglob Hshape.
  assert (Hkeys : all_keys_in required_keys v = Ok true
                  /\ forall E now, parse_data E now v = Raise AttributeError).
  { destruct Hshape as [(s & -> & H1 & H2 & H3)|(items & -> & H1 & H2 & H3)].
    - split; [|reflexivity]. unfold required_keys. cbn [all_keys_in py_contains rbind].
      rewrite H1, H2, H3. reflexivity.
    - split; [|reflexivity]. unfold required_keys. cbn [all_keys_in rbind].
      rewrite !py_contains_element by assumption. reflexivity. }
  destruct Hkeys as [Hkeys Hparse].
  assert (Hformat : is_chatwise_format d = Ok true).
  { unfold is_chatwise_format. rewrite Hversion, Hglob. cbn [rbind].
    rewrite Hkeys. reflexivity. }
  split; [exact Hformat|].
  intros E fuel auto manual w. unfold main, on_directory. cbn [work_dir_of path_exists
    zip_suffix path_is_dir as_directory negb flag_auto flag_manual].
  rewrite Hformat, Hglob. unfold main_import. cbn [sorted_files fold_right insert_file
    parse_files]. unfold bind at 1. unfold parse_chat_file. cbn [rbind].
  rewrite Hparse. reflexivity.
Qed.

Lemma non_object_file_passes_the_format_check_witness :
  is_chatwise_format
    (mkDirectory false
       [(text "chat-note.json", Ok (JStr (text "the title and messages of idle talk")))])
  = Ok true
  /\ main sample_env 3
       (on_directory
          (mkDirectory false
             [(text "chat-note.json",
               Ok (JStr (text "the title and messages of idle talk")))])
          true false)
       empty_world
     = Some (empty_world, Raise AttributeError).
Proof.
  destruct (non_object_file_passes_the_format_check
              (mkDirectory false
                 [(text "chat-note.json",
                   Ok (JStr (text "the title and messages of idle talk")))])
              (text "chat-note.json")
              (JStr (text "the title and messages of idle talk")) eq_refl eq_refl)
    as [Hformat Hmain].
  - left. eexists. repeat split.
  - split; [exact Hformat|apply Hmain].
Defined.
